(** * page-keeper-space: a personal digital library

    A shallow embedding of the three parts of the repository that carry
    behaviour:

    - the SQL migration (tables, row-level-security policies, the signup
      trigger [handle_new_user] and the aggregate [get_user_storage_used]);
    - [UploadBookDialog.tsx] ([handleFileChange], [handleUpload]);
    - [Library.tsx] ([fetchBooks], [fetchStorageUsed], [handleDeleteBook],
      [handleBookUploaded]) and [BookCard.tsx] ([handleDownload]).

    The hosted platform is modelled as far as the migration fixes it: the
    tables with their keys, the policies, and one storage bucket.  Handlers
    are written in a state monad over the client state and the platform
    state; every platform request may fail for a reason outside the model
    (a schedule of outcomes is part of the state), and every request and
    every notification is appended to a log. *)

From stdpp Require Import base strings list gmap fin_maps pretty.
From Stdlib Require Import Ascii ZArith Lia.

Open Scope Z_scope.

(** ** JavaScript string helpers used by the components *)

Module Js.

(** [s.split(sep)] for a one-character separator: never the empty array. *)
Fixpoint split (sep : ascii) (s : string) : list string :=
  match s with
  | EmptyString => [EmptyString]
  | String c s' =>
      if decide (c = sep) then EmptyString :: split sep s'
      else match split sep s' with
           | h :: t => String c h :: t
           | [] => [String c EmptyString]
           end
  end.

(** [a.pop()]: the last element, [undefined] on the empty array. *)
Definition pop (a : list string) : option string := last a.

(** A template-literal hole: [undefined] prints as the word itself. *)
Definition hole (v : option string) : string := default "undefined" v.

(** [x || null] on a string: the empty string is falsy. *)
Definition or_null (x : string) : option string :=
  if decide (x = "") then None else Some x.

(** [`${n}`] for an integral number. *)
Definition number (n : Z) : string := pretty n.

(** Whether a character occurs in a string. *)
Fixpoint occurs (c : ascii) (s : string) : bool :=
  match s with
  | EmptyString => false
  | String d s' => bool_decide (d = c) || occurs c s'
  end.

(** [Number.MAX_SAFE_INTEGER] *)
Definition MAX_SAFE_INTEGER : Z := 2 ^ 53 - 1.

(** The Number an integer literal of a JSON answer parses to: the nearest
    double, that is the nearest integer with a significand of 53 bits, a
    tie going to the even significand.  (A literal of 2^1024 or more would
    parse to [Infinity]; the literals read here are [bigint] values.) *)
Definition json_number (z : Z) : Z :=
  let a := Z.abs z in
  let e := Z.log2 a - 52 in
  if e <=? 0 then z
  else
    let q := Z.shiftr a e in
    let r := Z.land a (Z.ones e) in
    let half := Z.shiftl 1 (e - 1) in
    let q' := if (half <? r) || ((r =? half) && Z.odd q) then q + 1 else q in
    Z.sgn z * Z.shiftl q' e.

End Js.

(** ** The migration: schema *)

Definition uuid := string.

(** The text form of a uuid: 36 characters, hexadecimal digits and hyphens. *)
Definition uuid_char (c : ascii) : bool :=
  let n := N_of_ascii c in
  ((48 <=? n) && (n <=? 57) || (97 <=? n) && (n <=? 102) || (n =? 45))%N.

Fixpoint all_chars (p : ascii → bool) (s : string) : bool :=
  match s with
  | EmptyString => true
  | String c s' => p c && all_chars p s'
  end.

Definition is_uuid (s : string) : bool :=
  bool_decide (String.length s = 36%nat) && all_chars uuid_char s.

Module AppRole.
Inductive t := admin | user.
End AppRole.
Abbreviation app_role := AppRole.t.

Module AuthUser.
(** A row of [auth.users], as far as the trigger reads it. *)
Record t := mk {
  id : uuid;
  email : option string;
  raw_user_meta_data : gmap string string
}.
End AuthUser.

Module Profile.
Record t := mk {
  id : uuid;
  email : option string;
  full_name : option string;
  created_at : Z
}.
End Profile.

Module UserRole.
Record t := mk {
  id : uuid;
  user_id : uuid;
  role : app_role
}.
End UserRole.

Module Book.
Record t := mk {
  id : uuid;
  user_id : uuid;
  title : string;
  author : option string;
  file_path : string;
  file_size : Z;
  file_type : option string;
  cover_url : option string;
  uploaded_at : Z
}.
End Book.

Module File.
(** A browser [File]: what the upload reads of it. *)
Record t := mk {
  name : string;
  size : Z;
  type : string
}.
End File.

Module StorageObject.
(** A row of [storage.objects], keyed by (bucket_id, name). *)
Record t := mk {
  owner : uuid;
  content : File.t
}.
End StorageObject.

#[global] Instance app_role_eq_dec : EqDecision AppRole.t.
Proof. solve_decision. Defined.
#[global] Instance AuthUser_eq_dec : EqDecision AuthUser.t.
Proof. solve_decision. Defined.
#[global] Instance Profile_eq_dec : EqDecision Profile.t.
Proof. solve_decision. Defined.
#[global] Instance UserRole_eq_dec : EqDecision UserRole.t.
Proof. solve_decision. Defined.
#[global] Instance Book_eq_dec : EqDecision Book.t.
Proof. solve_decision. Defined.
#[global] Instance File_eq_dec : EqDecision File.t.
Proof. solve_decision. Defined.
#[global] Instance StorageObject_eq_dec : EqDecision StorageObject.t.
Proof. solve_decision. Defined.

Record Database := mkDatabase {
  auth_users : list AuthUser.t;
  profiles : list Profile.t;
  user_roles : list UserRole.t;
  books : list Book.t;
  objects : gmap (string * string) StorageObject.t
}.

Definition with_auth_users (v : list AuthUser.t) (d : Database) : Database :=
  mkDatabase v (profiles d) (user_roles d) (books d) (objects d).
Definition with_profiles (v : list Profile.t) (d : Database) : Database :=
  mkDatabase (auth_users d) v (user_roles d) (books d) (objects d).
Definition with_user_roles (v : list UserRole.t) (d : Database) : Database :=
  mkDatabase (auth_users d) (profiles d) v (books d) (objects d).
Definition with_books (v : list Book.t) (d : Database) : Database :=
  mkDatabase (auth_users d) (profiles d) (user_roles d) v (objects d).
Definition with_objects (v : gmap (string * string) StorageObject.t)
    (d : Database) : Database :=
  mkDatabase (auth_users d) (profiles d) (user_roles d) (books d) v.

Definition empty_database : Database := mkDatabase [] [] [] [] ∅.

(** [insert into storage.buckets ... values ('books', 'books', false, 209715200)] *)
Definition books_bucket : string := "books".
Definition file_size_limit : Z := 209715200.

(** SQL [bigint]: the column type of [file_size] and the result type of
    [get_user_storage_used]. *)
Definition bigint (z : Z) : Prop := - 2 ^ 63 <= z < 2 ^ 63.
Definition bigintb (z : Z) : bool := (- 2 ^ 63 <=? z) && (z <? 2 ^ 63).

(** ** The migration: functions and policies *)

Module Sql.

(** [sum(...)]: NULL over no rows; computed in [numeric], so it does not
    wrap. *)
Definition sum (l : list Z) : option Z :=
  match l with
  | [] => None
  | _ => Some (foldr Z.add 0 l)
  end.

Definition coalesce {A} (v : option A) (d : A) : A := default d v.

(** [string_to_array(s, '/')]: no element for the empty string. *)
Definition string_to_array (s : string) : list string :=
  if decide (s = "") then [] else Js.split "/" s.

(** The platform's [storage.foldername]: the segments of the object name
    without the last one, [_parts[1 : array_length(_parts, 1) - 1]]. *)
Definition foldername (name : string) : list string :=
  let parts := string_to_array name in
  take (length parts - 1)%nat parts.

(** [public.has_role(_user_id, _role)] *)
Definition has_role (_user_id : uuid) (_role : app_role) (d : Database) : bool :=
  bool_decide (Exists (λ r, UserRole.user_id r = _user_id ∧ UserRole.role r = _role)
                 (user_roles d)).

(** [auth.uid() = user_id]; [auth.uid()] is NULL without a session and the
    policies are granted [to authenticated] only. *)
Definition own_row (uid : option uuid) (user_id : uuid) : bool :=
  bool_decide (uid = Some user_id).

(** "Users can view their own books" *)
Definition books_select (uid : option uuid) (b : Book.t) : bool :=
  own_row uid (Book.user_id b).
(** "Users can upload their own books" *)
Definition books_insert (uid : option uuid) (b : Book.t) : bool :=
  own_row uid (Book.user_id b).
(** "Users can delete their own books" *)
Definition books_delete (uid : option uuid) (b : Book.t) : bool :=
  own_row uid (Book.user_id b).

(** [bucket_id = 'books' AND auth.uid()::text = (storage.foldername(name))[1]];
    an array subscript out of range is NULL and the comparison is not true. *)
Definition own_folder (uid : option uuid) (bucket_id name : string) : bool :=
  bool_decide (bucket_id = "books") &&
  match uid, foldername name !! 0%nat with
  | Some u, Some folder => bool_decide (u = folder)
  | _, _ => false
  end.

(** "Users can view their own book files" *)
Definition objects_select := own_folder.
(** "Users can upload their own book files" *)
Definition objects_insert := own_folder.
(** "Users can delete their own book files" *)
Definition objects_delete := own_folder.

(** [insert into public.profiles]: primary key [id], which references
    [auth.users]. *)
Definition insert_profile (p : Profile.t) (d : Database) : option Database :=
  if bool_decide (Exists (λ q, Profile.id q = Profile.id p) (profiles d)) then None
  else if bool_decide (Exists (λ u, AuthUser.id u = Profile.id p) (auth_users d))
  then Some (with_profiles (profiles d ++ [p]) d)
  else None.

(** [insert into public.user_roles]: primary key [id], [user_id] references
    [auth.users], [unique (user_id, role)]. *)
Definition insert_user_role (r : UserRole.t) (d : Database) : option Database :=
  if bool_decide (Exists (λ q, UserRole.id q = UserRole.id r) (user_roles d)) then None
  else if bool_decide (Exists (λ q, UserRole.user_id q = UserRole.user_id r
                                    ∧ UserRole.role q = UserRole.role r)
                         (user_roles d)) then None
  else if bool_decide (Exists (λ u, AuthUser.id u = UserRole.user_id r) (auth_users d))
  then Some (with_user_roles (user_roles d ++ [r]) d)
  else None.

(** [public.handle_new_user()], [security definer]: the policies do not
    apply to it.  [now] is the default [now()] of [created_at] and
    [role_id] the default [gen_random_uuid()] of [user_roles.id]. *)
Definition handle_new_user (new : AuthUser.t) (now : Z) (role_id : uuid)
    (d : Database) : option Database :=
  d ← insert_profile
         (Profile.mk (AuthUser.id new) (AuthUser.email new)
            (AuthUser.raw_user_meta_data new !! "full_name") now) d;
  insert_user_role (UserRole.mk role_id (AuthUser.id new) AppRole.user) d.

(** [insert into auth.users] with the trigger [on_auth_user_created]
    ([after insert ... for each row]): one statement, hence one
    transaction.  [None] is an aborted statement. *)
Definition insert_auth_user (new : AuthUser.t) (now : Z) (role_id : uuid)
    (d : Database) : option Database :=
  if bool_decide (Exists (λ u, AuthUser.id u = AuthUser.id new) (auth_users d))
  then None
  else handle_new_user new now role_id (with_auth_users (auth_users d ++ [new]) d).

(** The database after a signup attempt, and whether the identity was
    created: an aborted statement leaves every table as it was. *)
Definition signup (new : AuthUser.t) (now : Z) (role_id : uuid)
    (d : Database) : Database * bool :=
  match insert_auth_user new now role_id d with
  | Some d' => (d', true)
  | None => (d, false)
  end.

(** The cast of a [numeric] to [bigint]: a value out of range raises
    22003, "bigint out of range" ([None]). *)
Definition to_bigint (z : Z) : option Z := if bigintb z then Some z else None.

(** [public.get_user_storage_used(user_uuid)], [returns bigint]: the body
    selects a [numeric], which is cast to the result type.  [None]: the
    call raises. *)
Definition get_user_storage_used (user_uuid : uuid) (d : Database) : option Z :=
  to_bigint
    (coalesce
       (sum (Book.file_size <$> filter (λ b, Book.user_id b = user_uuid) (books d)))
       0).

End Sql.

(** ** The platform and the client state *)

Module User.
(** The [User] of the client library, as far as the code reads it. *)
Record t := mk { id : uuid }.
End User.

#[global] Instance User_eq_dec : EqDecision User.t.
Proof. solve_decision. Defined.

Inductive Error :=
  | NetworkError          (* a failure outside the model *)
  | Unauthorized
  | PolicyViolation
  | ConstraintViolation
  | Duplicate
  | PayloadTooLarge
  | NotFound
  | OutOfRange.           (* 22003, numeric value out of range *)

Inductive result (A : Type) :=
  | Ok (data : A)
  | Err (error : Error).
Arguments Ok {A} data.
Arguments Err {A} error.

Inductive Request :=
  | AuthGetUser
  | StorageUpload (bucket path : string) (file : File.t)
  | StorageRemove (bucket : string) (paths : list string)
  | StorageDownload (bucket path : string)
  | BooksInsert (user_id : uuid) (title : string) (author : option string)
      (file_path : string) (file_size : Z) (file_type : string)
  | BooksDelete (id : uuid)
  | BooksSelect (user_id : uuid)
  | RpcGetUserStorageUsed (user_uuid : uuid).

Inductive Effect :=
  | Call (r : Request) (error : option Error)
  | ToastError (msg : string)
  | ToastSuccess (msg : string)
  | ConsoleError (msg : string)
  | SaveFile (download : string) (data : File.t).

#[global] Instance Error_eq_dec : EqDecision Error.
Proof. solve_decision. Defined.
#[global] Instance Request_eq_dec : EqDecision Request.
Proof. solve_decision. Defined.
#[global] Instance Effect_eq_dec : EqDecision Effect.
Proof. solve_decision. Defined.

(** The platform as one client sees it.  [net] schedules the outcome of the
    coming requests ([false]: the request fails before it reaches the
    platform; none left: it goes through); [rng] feeds [gen_random_uuid()]. *)
Record World := mkWorld {
  db : Database;
  session : option User.t;
  clock : Z;
  net : list bool;
  rng : list uuid;
  log : list Effect
}.

Module LibraryState.
(** The [useState] cells of [Library]. *)
Record t := mk {
  user : option User.t;
  books : list Book.t;
  storageUsed : Z;
  uploadDialogOpen : bool;
  loading : bool
}.
Definition initial : t := mk None [] 0 false true.
End LibraryState.

Module DialogState.
(** The [useState] cells of [UploadBookDialog]. *)
Record t := mk {
  title : string;
  author : string;
  file : option File.t;
  uploading : bool
}.
Definition initial : t := mk "" "" None false.
End DialogState.

Record App := mkApp {
  world : World;
  library : LibraryState.t;
  dialog : DialogState.t
}.

Definition initial (w : World) : App :=
  mkApp w LibraryState.initial DialogState.initial.

(** The handlers run in a state monad over [App]. *)
Definition M (A : Type) : Type := App → A * App.

#[global] Instance M_ret : MRet M := λ A a s, (a, s).
#[global] Instance M_bind : MBind M :=
  λ A B f m s, match m s with (a, s') => f a s' end.

Definition gets {A} (f : App → A) : M A := λ s, (f s, s).
Definition modify (f : App → App) : M () := λ s, ((), f s).

Definition on_world (f : World → World) : M () :=
  modify (λ s, mkApp (f (world s)) (library s) (dialog s)).
Definition on_library (f : LibraryState.t → LibraryState.t) : M () :=
  modify (λ s, mkApp (world s) (f (library s)) (dialog s)).
Definition on_dialog (f : DialogState.t → DialogState.t) : M () :=
  modify (λ s, mkApp (world s) (library s) (f (dialog s))).

Definition logged (e : Effect) (w : World) : World :=
  mkWorld (db w) (session w) (clock w) (net w) (rng w) (log w ++ [e]).

Definition emit (e : Effect) : M () := on_world (logged e).

Definition toast_error (msg : string) : M () := emit (ToastError msg).
Definition toast_success (msg : string) : M () := emit (ToastSuccess msg).
Definition console_error (msg : string) : M () := emit (ConsoleError msg).

(** [Date.now()] *)
Definition Date_now : M Z := gets (λ s, clock (world s)).

(** *** State setters *)

Definition setUser (v : option User.t) : M () :=
  on_library (λ l, LibraryState.mk v (LibraryState.books l) (LibraryState.storageUsed l)
                     (LibraryState.uploadDialogOpen l) (LibraryState.loading l)).
Definition setBooks (v : list Book.t) : M () :=
  on_library (λ l, LibraryState.mk (LibraryState.user l) v (LibraryState.storageUsed l)
                     (LibraryState.uploadDialogOpen l) (LibraryState.loading l)).
Definition setStorageUsed (v : Z) : M () :=
  on_library (λ l, LibraryState.mk (LibraryState.user l) (LibraryState.books l) v
                     (LibraryState.uploadDialogOpen l) (LibraryState.loading l)).
Definition setUploadDialogOpen (v : bool) : M () :=
  on_library (λ l, LibraryState.mk (LibraryState.user l) (LibraryState.books l)
                     (LibraryState.storageUsed l) v (LibraryState.loading l)).
Definition setLoading (v : bool) : M () :=
  on_library (λ l, LibraryState.mk (LibraryState.user l) (LibraryState.books l)
                     (LibraryState.storageUsed l) (LibraryState.uploadDialogOpen l) v).

Definition setTitle (v : string) : M () :=
  on_dialog (λ d, DialogState.mk v (DialogState.author d) (DialogState.file d)
                    (DialogState.uploading d)).
Definition setAuthor (v : string) : M () :=
  on_dialog (λ d, DialogState.mk (DialogState.title d) v (DialogState.file d)
                    (DialogState.uploading d)).
Definition setFile (v : option File.t) : M () :=
  on_dialog (λ d, DialogState.mk (DialogState.title d) (DialogState.author d) v
                    (DialogState.uploading d)).
Definition setUploading (v : bool) : M () :=
  on_dialog (λ d, DialogState.mk (DialogState.title d) (DialogState.author d)
                    (DialogState.file d) v).

(** ** What the platform does with a request that reaches it *)

Module Platform.

Definition with_db (d : Database) (w : World) : World :=
  mkWorld d (session w) (clock w) (net w) (rng w) (log w).

(** [auth.uid()] *)
Definition uid (w : World) : option uuid := User.id <$> session w.

(** [gen_random_uuid()]: the next value of the feed (the nil uuid once the
    feed is used up). *)
Definition gen_random_uuid (w : World) : uuid * World :=
  match rng w with
  | [] => ("00000000-0000-0000-0000-000000000000", w)
  | u :: rest => (u, mkWorld (db w) (session w) (clock w) (net w) rest (log w))
  end.

Definition getUser (w : World) : result (User.t * World) :=
  match session w with
  | Some u => Ok (u, w)
  | None => Err Unauthorized
  end.

(** An upload without [upsert]: the bucket and its size limit, the insert
    policy on [storage.objects], and the key (bucket_id, name). *)
Definition upload (bucket path : string) (file : File.t) (w : World)
    : result (() * World) :=
  if negb (bool_decide (bucket = books_bucket)) then Err NotFound
  else if file_size_limit <? File.size file then Err PayloadTooLarge
  else match uid w with
       | None => Err Unauthorized
       | Some u =>
           if negb (Sql.objects_insert (Some u) bucket path) then Err PolicyViolation
           else match objects (db w) !! (bucket, path) with
                | Some _ => Err Duplicate
                | None =>
                    Ok ((), with_db (with_objects
                                       (<[(bucket, path) := StorageObject.mk u file]>
                                          (objects (db w))) (db w)) w)
                end
       end.

(** Removal deletes the named objects that the delete policy admits and
    reports no error for the others. *)
Definition remove_one (caller : option uuid) (bucket : string)
    (m : gmap (string * string) StorageObject.t) (path : string)
    : gmap (string * string) StorageObject.t :=
  if Sql.objects_delete caller bucket path then delete (bucket, path) m else m.

Definition remove (bucket : string) (paths : list string) (w : World)
    : result (() * World) :=
  Ok ((), with_db (with_objects
                     (foldl (remove_one (uid w) bucket) (objects (db w)) paths)
                     (db w)) w).

Definition download (bucket path : string) (w : World) : result (File.t * World) :=
  match objects (db w) !! (bucket, path) with
  | Some o =>
      if Sql.objects_select (uid w) bucket path
      then Ok (StorageObject.content o, w)
      else Err NotFound
  | None => Err NotFound
  end.

(** [insert into public.books]: the defaults of [id], [cover_url] and
    [uploaded_at], the insert policy, the primary key, the reference to
    [auth.users] and the column type of [file_size]. *)
Definition insert_book (user_id : uuid) (title : string) (author : option string)
    (file_path : string) (file_size : Z) (file_type : string) (w : World)
    : result (() * World) :=
  let '(id, w) := gen_random_uuid w in
  let row := Book.mk id user_id title author file_path file_size (Some file_type)
               None (clock w) in
  if negb (Sql.books_insert (uid w) row) then Err PolicyViolation
  else if negb (bigintb file_size) then Err OutOfRange
  else if bool_decide (Exists (λ b, Book.id b = id) (books (db w)))
  then Err ConstraintViolation
  else if negb (bool_decide (Exists (λ u, AuthUser.id u = user_id) (auth_users (db w))))
  then Err ConstraintViolation
  else Ok ((), with_db (with_books (books (db w) ++ [row]) (db w)) w).

(** [delete from public.books where id = ...]: the rows the delete policy
    admits; no error when there is none. *)
Definition delete_book (id : uuid) (w : World) : result (() * World) :=
  Ok ((), with_db (with_books
                     (filter (λ b, ¬ (Book.id b = id ∧ Sql.books_delete (uid w) b))
                        (books (db w)))
                     (db w)) w).

(** [order by uploaded_at desc]; rows of equal time in no promised order. *)
Fixpoint insert_desc (b : Book.t) (l : list Book.t) : list Book.t :=
  match l with
  | [] => [b]
  | c :: l' =>
      if Book.uploaded_at c <? Book.uploaded_at b then b :: c :: l'
      else c :: insert_desc b l'
  end.

Definition order_desc (l : list Book.t) : list Book.t := foldr insert_desc [] l.

(** [select * from public.books where user_id = ... order by uploaded_at desc]
    under the select policy. *)
Definition select_books (user_id : uuid) (w : World)
    : result (list Book.t * World) :=
  Ok (order_desc (filter (λ b, Sql.books_select (uid w) b ∧ Book.user_id b = user_id)
                    (books (db w))), w).

(** [rpc("get_user_storage_used")]: [security definer], no policy applies;
    an error the function raises is the error of the request. *)
Definition get_user_storage_used (user_uuid : uuid) (w : World)
    : result (Z * World) :=
  match Sql.get_user_storage_used user_uuid (db w) with
  | Some total => Ok (total, w)
  | None => Err OutOfRange
  end.

End Platform.

(** ** The client library: a request, its outcome, its log entry *)

Module Supabase.

(** Whether the coming request gets through, and the rest of the schedule. *)
Definition deliver (w : World) : bool * World :=
  match net w with
  | [] => (true, w)
  | ok :: rest => (ok, mkWorld (db w) (session w) (clock w) rest (rng w) (log w))
  end.

(** One request: it is lost if the schedule says so, else the platform
    answers; the outcome is logged. *)
Definition call {A} (r : Request) (f : World → result (A * World)) : M (result A) :=
  λ s,
    let '(ok, w) := deliver (world s) in
    match (if ok then f w else Err NetworkError) with
    | Ok (a, w') => (Ok a, mkApp (logged (Call r None) w') (library s) (dialog s))
    | Err e => (Err e, mkApp (logged (Call r (Some e)) w) (library s) (dialog s))
    end.

(** [supabase.auth.getUser()]: [user] is null on any error. *)
Definition auth_getUser : M (option User.t) :=
  r ← call AuthGetUser Platform.getUser;
  mret (match r with Ok u => Some u | Err _ => None end).

(** [supabase.storage.from(bucket).upload(path, file)] *)
Definition storage_upload (bucket path : string) (file : File.t) : M (result ()) :=
  call (StorageUpload bucket path file) (Platform.upload bucket path file).

(** [supabase.storage.from(bucket).remove(paths)] *)
Definition storage_remove (bucket : string) (paths : list string) : M (result ()) :=
  call (StorageRemove bucket paths) (Platform.remove bucket paths).

(** [supabase.storage.from(bucket).download(path)] *)
Definition storage_download (bucket path : string) : M (result File.t) :=
  call (StorageDownload bucket path) (Platform.download bucket path).

(** [supabase.from("books").insert({...})] *)
Definition books_insert (user_id : uuid) (title : string) (author : option string)
    (file_path : string) (file_size : Z) (file_type : string) : M (result ()) :=
  call (BooksInsert user_id title author file_path file_size file_type)
    (Platform.insert_book user_id title author file_path file_size file_type).

(** [supabase.from("books").delete().eq("id", id)] *)
Definition books_delete_eq_id (id : uuid) : M (result ()) :=
  call (BooksDelete id) (Platform.delete_book id).

(** A row of an answer as the page gets it: the answer is JSON, and the
    [bigint] of [file_size] arrives as a Number. *)
Definition row_of_json (b : Book.t) : Book.t :=
  Book.mk (Book.id b) (Book.user_id b) (Book.title b) (Book.author b) (Book.file_path b)
    (Js.json_number (Book.file_size b)) (Book.file_type b) (Book.cover_url b)
    (Book.uploaded_at b).

(** [supabase.from("books").select("*").eq("user_id", id).order("uploaded_at", ...)] *)
Definition books_select_eq_user_id (user_id : uuid) : M (result (list Book.t)) :=
  r ← call (BooksSelect user_id) (Platform.select_books user_id);
  mret (match r with
        | Ok rows => Ok (row_of_json <$> rows)
        | Err e => Err e
        end).

(** [supabase.rpc("get_user_storage_used", { user_uuid })]: the [bigint] of
    the answer arrives as a Number. *)
Definition rpc_get_user_storage_used (user_uuid : uuid) : M (result Z) :=
  r ← call (RpcGetUserStorageUsed user_uuid) (Platform.get_user_storage_used user_uuid);
  mret (match r with
        | Ok total => Ok (Js.json_number total)
        | Err e => Err e
        end).

End Supabase.

(** ** UploadBookDialog.tsx *)

Module UploadBookDialog.

(** The props the handlers read. *)
Record Props := mkProps {
  onBookUploaded : M ();
  storageUsed : Z;
  storageLimit : Z
}.

(** [files] is [e.target.files], empty when it is null.  The numbers are
    integral, and the sum of two Numbers is the Number nearest to their
    exact sum: it is greater than the limit, which is exact, exactly when
    the exact sum is. *)
Definition handleFileChange (p : Props) (files : list File.t) : M () :=
  match files with
  | selectedFile :: _ =>
      if decide (storageUsed p + File.size selectedFile > storageLimit p) then
        toast_error "This file would exceed your storage limit of 200MB"
      else
        setFile (Some selectedFile)
  | [] => mret ()
  end.

Definition handleUpload (p : Props) : M () :=
  st ← gets dialog;
  match DialogState.file st with
  | None => toast_error "Please select a file"
  | Some file =>
      setUploading true;;
      user ← Supabase.auth_getUser;
      match user with
      | None =>
          toast_error "You must be logged in to upload books";;
          setUploading false
      | Some user =>
          let fileExt := Js.pop (Js.split "." (File.name file)) in
          now ← Date_now;
          let fileName :=
            User.id user +:+ "/" +:+ Js.number now +:+ "." +:+ Js.hole fileExt in
          uploadError ← Supabase.storage_upload "books" fileName file;
          match uploadError with
          | Err _ =>
              toast_error "Failed to upload file";;
              setUploading false
          | Ok _ =>
              dbError ← Supabase.books_insert (User.id user) (DialogState.title st)
                          (Js.or_null (DialogState.author st)) fileName
                          (File.size file) (File.type file);
              match dbError with
              | Err _ =>
                  Supabase.storage_remove "books" [fileName];;
                  toast_error "Failed to save book information";;
                  setUploading false
              | Ok _ =>
                  toast_success "Book uploaded successfully!";;
                  setTitle "";;
                  setAuthor "";;
                  setFile None;;
                  setUploading false;;
                  onBookUploaded p
              end
          end
      end
  end.

End UploadBookDialog.

(** ** BookCard.tsx *)

Module BookCard.

(** The [downloading] flag is local to the card and only disables its
    button; it is left out. *)
Definition handleDownload (book : Book.t) : M () :=
  r ← Supabase.storage_download "books" (Book.file_path book);
  match r with
  | Err _ => toast_error "Failed to download book"
  | Ok data =>
      emit (SaveFile (Book.title book +:+ "." +:+
                        Js.hole (Js.pop (Js.split "." (Book.file_path book)))) data);;
      toast_success "Book downloaded successfully"
  end.

End BookCard.

(** ** Library.tsx *)

Module Library.

(** [200 * 1024 * 1024] *)
Definition STORAGE_LIMIT : Z := 200 * 1024 * 1024.

Definition fetchBooks : M () :=
  user ← gets (λ s, LibraryState.user (library s));
  match user with
  | None => mret ()
  | Some user =>
      r ← Supabase.books_select_eq_user_id (User.id user);
      match r with
      | Err _ => toast_error "Failed to load books"
      | Ok data => setBooks data
      end;;
      setLoading false
  end.

(** [data] is not null when there is no error: the function returns a
    [bigint], coalesced. *)
Definition fetchStorageUsed : M () :=
  user ← gets (λ s, LibraryState.user (library s));
  match user with
  | None => mret ()
  | Some user =>
      r ← Supabase.rpc_get_user_storage_used (User.id user);
      match r with
      | Ok data => setStorageUsed data
      | Err _ => mret ()
      end
  end.

Definition handleDeleteBook (book : Book.t) : M () :=
  user ← gets (λ s, LibraryState.user (library s));
  match user with
  | None => mret ()
  | Some _ =>
      dbError ← Supabase.books_delete_eq_id (Book.id book);
      match dbError with
      | Err _ => toast_error "Failed to delete book"
      | Ok _ =>
          storageError ← Supabase.storage_remove "books" [Book.file_path book];
          match storageError with
          | Err _ => console_error "Storage deletion error:"
          | Ok _ => mret ()
          end;;
          toast_success "Book deleted successfully";;
          fetchBooks;;
          fetchStorageUsed
      end
  end.

Definition handleBookUploaded : M () :=
  fetchBooks;;
  fetchStorageUsed;;
  setUploadDialogOpen false.

(** The props [Library] passes to the dialog at a render. *)
Definition dialog_props (l : LibraryState.t) : UploadBookDialog.Props :=
  UploadBookDialog.mkProps handleBookUploaded (LibraryState.storageUsed l) STORAGE_LIMIT.

End Library.

(** ** The application as a reactive system *)

(** What can happen to the page.  Each handler runs to its end before the
    next event; other clients of the platform are not part of the model.
    [UserEffect] is the body of [useEffect(..., [user])]: its two fetches
    are not awaited, so the page takes other events before their answers
    arrive; the event stands for the moment they do. *)
Inductive Event :=
  | AuthStateChange (u : option User.t)   (* sign-in or sign-out reaches the page *)
  | UserEffect                            (* [fetchBooks(); fetchStorageUsed()] answered *)
  | ChangeTitle (v : string)
  | ChangeAuthor (v : string)
  | ChangeFile (files : list File.t)
  | Submit
  | ClickRead (book : Book.t)
  | ClickDelete (book : Book.t)
  | Tick (ms : N).

Definition step (e : Event) : M () :=
  match e with
  | AuthStateChange u =>
      on_world (λ w, mkWorld (db w) u (clock w) (net w) (rng w) (log w));;
      setUser u
  | UserEffect =>
      user ← gets (λ s, LibraryState.user (library s));
      if user is Some _ then Library.fetchBooks;; Library.fetchStorageUsed else mret ()
  | ChangeTitle v => setTitle v
  | ChangeAuthor v => setAuthor v
  | ChangeFile files =>
      l ← gets library;
      UploadBookDialog.handleFileChange (Library.dialog_props l) files
  | Submit =>
      l ← gets library;
      UploadBookDialog.handleUpload (Library.dialog_props l)
  | ClickRead book =>
      shown ← gets (λ s, LibraryState.books (library s));
      if decide (book ∈ shown) then BookCard.handleDownload book else mret ()
  | ClickDelete book =>
      shown ← gets (λ s, LibraryState.books (library s));
      if decide (book ∈ shown) then Library.handleDeleteBook book else mret ()
  | Tick ms =>
      on_world (λ w, mkWorld (db w) (session w) (clock w + Z.of_N ms) (net w) (rng w)
                       (log w))
  end.

Fixpoint run (es : list Event) (s : App) : App :=
  match es with
  | [] => s
  | e :: es' => run es' (step e s).2
  end.

(** The state a handler leaves, and what it appended to the log. *)
Definition exec {A} (m : M A) (s : App) : App := (m s).2.
Definition trace (s : App) : list Effect := log (world s).

(** ** The storage-used aggregate, in the words of the specification *)

(** The sum of [file_size] across the book rows of one user. *)
Fixpoint size_of_rows_of (u : uuid) (rows : list Book.t) : Z :=
  match rows with
  | [] => 0
  | b :: rows' =>
      (if decide (Book.user_id b = u) then Book.file_size b else 0)
      + size_of_rows_of u rows'
  end.


(** ** Vocabulary of the statements *)

(** The profile row and the role row the trigger writes for [new]. *)
Definition profile_of (new : AuthUser.t) (now : Z) : Profile.t :=
  Profile.mk (AuthUser.id new) (AuthUser.email new)
    (AuthUser.raw_user_meta_data new !! "full_name") now.
Definition role_of (new : AuthUser.t) (role_id : uuid) : UserRole.t :=
  UserRole.mk role_id (AuthUser.id new) AppRole.user.

(** References into [auth.users] hold: every profile and every role row
    belongs to an identity. *)
Definition referential (d : Database) : Prop :=
  Forall (λ p, Exists (λ u, AuthUser.id u = Profile.id p) (auth_users d)) (profiles d)
  ∧ Forall (λ r, Exists (λ u, AuthUser.id u = UserRole.user_id r) (auth_users d))
      (user_roles d).

(** What a handler appended to the log. *)
Definition new_effects {A} (m : M A) (s : App) : list Effect :=
  drop (length (trace s)) (trace (exec m s)).

(** The object path [handleUpload] builds: [`${user.id}/${Date.now()}.${fileExt}`]. *)
Definition upload_path (u : User.t) (now : Z) (file : File.t) : string :=
  User.id u +:+ "/" +:+ Js.number now +:+ "." +:+
  Js.hole (Js.pop (Js.split "." (File.name file))).

(** The row the platform stores for the insert of [handleUpload]. *)
Definition upload_row (id : uuid) (u : User.t) (now : Z) (st : DialogState.t)
    (file : File.t) : Book.t :=
  Book.mk id (User.id u) (DialogState.title st) (Js.or_null (DialogState.author st))
    (upload_path u now file) (File.size file) (Some (File.type file)) None now.

(** The ways [handleUpload] can go, read off its branches: the state it
    starts in, the state it leaves. *)
Inductive upload_run (p : UploadBookDialog.Props) (s : App) : App → Prop :=
  | upload_no_file s' :
      DialogState.file (dialog s) = None →
      trace s' = trace s ++ [ToastError "Please select a file"] →
      db (world s') = db (world s) →
      library s' = library s →
      dialog s' = dialog s →
      upload_run p s s'
  | upload_no_user file e s' :
      DialogState.file (dialog s) = Some file →
      session (world s) = None ∨ (Supabase.deliver (world s)).1 = false →
      trace s' = trace s ++ [Call AuthGetUser (Some e);
                             ToastError "You must be logged in to upload books"] →
      db (world s') = db (world s) →
      library s' = library s →
      DialogState.file (dialog s') = Some file →
      upload_run p s s'
  | upload_rejected file u e s' :
      DialogState.file (dialog s) = Some file →
      session (world s) = Some u →
      let path := upload_path u (clock (world s)) file in
      trace s' = trace s ++ [Call AuthGetUser None;
                             Call (StorageUpload "books" path file) (Some e);
                             ToastError "Failed to upload file"] →
      db (world s') = db (world s) →
      library s' = library s →
      DialogState.file (dialog s') = Some file →
      upload_run p s s'
  | upload_compensated file u e r s' :
      DialogState.file (dialog s) = Some file →
      session (world s) = Some u →
      let path := upload_path u (clock (world s)) file in
      let st := dialog s in
      trace s' = trace s ++ [Call AuthGetUser None;
                             Call (StorageUpload "books" path file) None;
                             Call (BooksInsert (User.id u) (DialogState.title st)
                                     (Js.or_null (DialogState.author st)) path
                                     (File.size file) (File.type file)) (Some e);
                             Call (StorageRemove "books" [path]) r;
                             ToastError "Failed to save book information"] →
      objects (db (world s)) !! ("books", path) = None →
      Sql.objects_insert (Some (User.id u)) "books" path = true →
      books (db (world s')) = books (db (world s)) →
      objects (db (world s')) =
        (if r is None then objects (db (world s))
         else <[("books", path) := StorageObject.mk (User.id u) file]>
                (objects (db (world s)))) →
      library s' = library s →
      DialogState.file (dialog s') = Some file →
      upload_run p s s'
  | upload_done file u id s4 s' :
      DialogState.file (dialog s) = Some file →
      session (world s) = Some u →
      let path := upload_path u (clock (world s)) file in
      let st := dialog s in
      trace s4 = trace s ++ [Call AuthGetUser None;
                             Call (StorageUpload "books" path file) None;
                             Call (BooksInsert (User.id u) (DialogState.title st)
                                     (Js.or_null (DialogState.author st)) path
                                     (File.size file) (File.type file)) None;
                             ToastSuccess "Book uploaded successfully!"] →
      objects (db (world s)) !! ("books", path) = None →
      Sql.objects_insert (Some (User.id u)) "books" path = true →
      File.size file <= file_size_limit →
      books (db (world s4)) =
        books (db (world s)) ++ [upload_row id u (clock (world s)) st file] →
      objects (db (world s4)) =
        <[("books", path) := StorageObject.mk (User.id u) file]> (objects (db (world s))) →
      auth_users (db (world s4)) = auth_users (db (world s)) →
      session (world s4) = Some u →
      clock (world s4) = clock (world s) →
      library s4 = library s →
      dialog s4 = DialogState.initial →
      s' = exec (UploadBookDialog.onBookUploaded p) s4 →
      upload_run p s s'.

(** Requests that change a table or the bucket. *)
Definition is_write (e : Effect) : bool :=
  match e with
  | Call (StorageUpload _ _ _) _ | Call (StorageRemove _ _) _
  | Call (BooksInsert _ _ _ _ _ _) _ | Call (BooksDelete _) _ => true
  | _ => false
  end.

(** A handler that only reads the platform: it may change what [Library]
    shows, nothing else. *)
Definition observes (s s' : App) : Prop :=
  db (world s') = db (world s)
  ∧ session (world s') = session (world s)
  ∧ clock (world s') = clock (world s)
  ∧ dialog s' = dialog s
  ∧ ∃ t, trace s' = trace s ++ t ∧ Forall (λ e, is_write e = false) t.

(** The ways [handleDeleteBook] can go, read off its branches. *)
Inductive delete_run (book : Book.t) (s : App) : App → Prop :=
  | delete_no_user :
      LibraryState.user (library s) = None →
      delete_run book s s
  | delete_failed e s' :
      trace s' = trace s ++ [Call (BooksDelete (Book.id book)) (Some e);
                             ToastError "Failed to delete book"] →
      db (world s') = db (world s) →
      library s' = library s →
      dialog s' = dialog s →
      delete_run book s s'
  | delete_done r s3 s' :
      trace s3 = trace s ++ [Call (BooksDelete (Book.id book)) None;
                             Call (StorageRemove "books" [Book.file_path book]) r]
                   ++ (if r is Some _ then [ConsoleError "Storage deletion error:"] else [])
                   ++ [ToastSuccess "Book deleted successfully"] →
      books (db (world s3)) =
        filter (λ b, ¬ (Book.id b = Book.id book
                        ∧ Sql.books_delete (Platform.uid (world s)) b))
          (books (db (world s))) →
      objects (db (world s3)) =
        (if r is None
         then Platform.remove_one (Platform.uid (world s)) "books"
                (objects (db (world s))) (Book.file_path book)
         else objects (db (world s))) →
      session (world s3) = session (world s) →
      dialog s3 = dialog s →
      observes s3 s' →
      delete_run book s s'.

(** What the platform answers to a list request for [queried] that has
    reached it. *)
Definition listed (queried : uuid) (w : World) : list Book.t :=
  match Platform.select_books queried w with
  | Ok (rows, _) => rows
  | Err _ => []
  end.

(** The file selections of a run: for each [ChangeFile] that carries a
    file, the usage [Library] showed at that moment and the file. *)
Fixpoint selections (es : list Event) (s : App) : list (Z * File.t) :=
  match es with
  | [] => []
  | e :: es' =>
      match e with
      | ChangeFile (f :: _) => [(LibraryState.storageUsed (library s), f)]
      | _ => []
      end ++ selections es' (exec (step e) s)
  end.

(** A row as [handleUpload] creates it: its path is
    [`${user_id}/${timestamp}.${ext}`]. *)
Definition upload_shaped (b : Book.t) : Prop :=
  ∃ (now : Z) (ext : string),
    Book.file_path b = Book.user_id b +:+ "/" +:+ Js.number now +:+ "." +:+ ext.

(** The first segment of the path of a row is its owner. *)
Definition namespaced (b : Book.t) : Prop :=
  Sql.foldername (Book.file_path b) !! 0%nat = Some (Book.user_id b).

(** What one event from [s] to [s1] can do: it requests uploads of the
    selected file only; the selected file stays, is cleared, or is a file
    that has just passed the quota check; a row of the table was there
    before or results from an upload whose path the insert policy of the
    bucket admitted. *)
Definition framed (e : Event) (s s1 : App) : Prop :=
  (∃ t, trace s1 = trace s ++ t
        ∧ ∀ bucket path f r, Call (StorageUpload bucket path f) r ∈ t →
                             DialogState.file (dialog s) = Some f)
  ∧ (DialogState.file (dialog s1) = DialogState.file (dialog s)
     ∨ DialogState.file (dialog s1) = None
     ∨ ∃ f fs, e = ChangeFile (f :: fs)
               ∧ LibraryState.storageUsed (library s) + File.size f
                 <= Library.STORAGE_LIMIT
               ∧ DialogState.file (dialog s1) = Some f)
  ∧ (∀ b, b ∈ books (db (world s1)) →
          b ∈ books (db (world s))
          ∨ ∃ id u now st file,
              b = upload_row id u now st file
              ∧ Sql.objects_insert (Some (User.id u)) "books"
                  (upload_path u now file) = true).

(** ** Sample data: two users, a few files, a few states *)

Module Sample.

Definition alice : uuid := "a11ce000-0000-4000-8000-000000000001".
Definition bob : uuid := "b0b00000-0000-4000-8000-000000000002".

Definition alice_identity : AuthUser.t :=
  AuthUser.mk alice (Some "alice@example.org") {["full_name" := "Alice Liddell"]}.
Definition bob_identity : AuthUser.t :=
  AuthUser.mk bob (Some "bob@example.org") ∅.

Definition moby : File.t := File.mk "moby.dick.pdf" 1000 "application/pdf".
Definition notes : File.t := File.mk "notes.txt" 10 "text/plain".
(** A file that fills the quota to the byte on an empty account. *)
Definition brim : File.t := File.mk "brim.epub" 209715200 "application/epub+zip".

Definition alice_book : Book.t :=
  Book.mk "0000000a-0000-4000-8000-00000000000a" alice "Alice's Adventures"
    (Some "Lewis Carroll") (alice +:+ "/1699999999000.epub") 209715200
    (Some "application/epub+zip") None 1699999999000.
Definition bob_book : Book.t :=
  Book.mk "0000000b-0000-4000-8000-00000000000b" bob "Bob's Burgers"
    None (bob +:+ "/1699999999001.pdf") 5000 (Some "application/pdf") None
    1699999999001.

Definition object_of (b : Book.t) : StorageObject.t :=
  StorageObject.mk (Book.user_id b)
    (File.mk "upload" (Book.file_size b) (default "" (Book.file_type b))).

(** Both identities, no rows. *)
Definition fresh_db : Database :=
  mkDatabase [alice_identity; bob_identity] [] [] [] ∅.

(** Both identities, one book each. *)
Definition stocked_db : Database :=
  mkDatabase [alice_identity; bob_identity] [] [] [alice_book; bob_book]
    (<[("books", Book.file_path alice_book) := object_of alice_book]>
       (<[("books", Book.file_path bob_book) := object_of bob_book]> ∅)).

Definition ids : list uuid :=
  ["00000001-0000-4000-8000-000000000000"; "00000002-0000-4000-8000-000000000000"].

(** A page just loaded, nobody signed in; [net] schedules the requests. *)
Definition page (d : Database) (net : list bool) : App :=
  initial (mkWorld d None 1700000000000 net ids []).

Definition signed_in (who : uuid) : list Event :=
  [AuthStateChange (Some (User.mk who)); UserEffect].

(** Alice has typed a title and chosen [moby]. *)
Definition ready (d : Database) (net : list bool) : App :=
  run (signed_in alice ++ [ChangeTitle "Moby-Dick"; ChangeAuthor "Herman Melville";
                           ChangeFile [moby]])
    (page d (true :: true :: net)).

Definition moby_path : string := alice +:+ "/1700000000000.pdf".

(** Alice chooses [notes] while the usage of her account is still being
    fetched; the answer (her book fills the quota) arrives afterwards. *)
Definition late_usage : App :=
  run [AuthStateChange (Some (User.mk alice)); ChangeFile [notes]; UserEffect]
    (page stocked_db []).

Definition notes_path : string := alice +:+ "/1700000000000.txt".


(** Two rows of Alice with the largest [file_size] the column can hold. *)
Definition vast (id : uuid) (n : Z) : Book.t :=
  Book.mk id alice "Vast" None (alice +:+ "/" +:+ Js.number n +:+ ".bin")
    9223372036854775807 None None n.
Definition vast_db : Database :=
  mkDatabase [alice_identity; bob_identity] [] []
    [vast "0000000c-0000-4000-8000-00000000000c" 1699999999002;
     vast "0000000d-0000-4000-8000-00000000000d" 1699999999003] ∅.

End Sample.

(** ** Vocabulary of the further statements *)

(** The keys of the migration hold: the primary keys of [auth.users],
    [profiles] and [user_roles], and [unique (user_id, role)]. *)
Definition keys_unique (d : Database) : Prop :=
  NoDup (AuthUser.id <$> auth_users d)
  ∧ NoDup (Profile.id <$> profiles d)
  ∧ NoDup (UserRole.id <$> user_roles d)
  ∧ NoDup ((λ r, (UserRole.user_id r, UserRole.role r)) <$> user_roles d).

(** Every identity has the one profile row and the one role row the trigger
    wrote for it. *)
Definition bootstrapped (d : Database) : Prop :=
  ∀ u, u ∈ auth_users d →
       (∃ now, filter (λ p, Profile.id p = AuthUser.id u) (profiles d)
               = [profile_of u now])
       ∧ (∃ role_id, filter (λ r, UserRole.user_id r = AuthUser.id u) (user_roles d)
                     = [role_of u role_id]).

(** A sequence of signup attempts: for each, the new identity, the time and
    the id drawn for its role row. *)
Definition signups (attempts : list (AuthUser.t * Z * uuid)) (d : Database) : Database :=
  foldl (λ d a, (Sql.signup a.1.1 a.1.2 a.2 d).1) d attempts.

(** [a.join(sep)], the inverse of [split]. *)
Fixpoint join_with (sep : ascii) (a : list string) : string :=
  match a with
  | [] => ""
  | [x] => x
  | x :: a' => x +:+ String sep (join_with sep a')
  end.


(** The name [handleDownload] gives the saved file. *)
Definition saved_name (book : Book.t) : string :=
  Book.title book +:+ "." +:+ Js.hole (Js.pop (Js.split "." (Book.file_path book))).


(** What one event does to the books table and to the bucket, by whose
    authority: it leaves the table, appends one row of the session's user
    under an unused id, or deletes the rows of one id that the delete
    policy admits for the session; it leaves the bucket, stores one object
    under a path the insert policy admits for the session, or removes one
    object if the delete policy admits it. *)
Definition changes (s s' : App) : Prop :=
  (books (db (world s')) = books (db (world s))
   ∨ (∃ row u, session (world s) = Some u
               ∧ Book.user_id row = User.id u
               ∧ ¬ Exists (λ b, Book.id b = Book.id row) (books (db (world s)))
               ∧ books (db (world s')) = books (db (world s)) ++ [row])
   ∨ (∃ id, books (db (world s'))
            = filter (λ b, ¬ (Book.id b = id
                              ∧ Sql.books_delete (Platform.uid (world s)) b))
                (books (db (world s)))))
  ∧ (objects (db (world s')) = objects (db (world s))
     ∨ (∃ u path o, session (world s) = Some u
                    ∧ Sql.objects_insert (Some (User.id u)) "books" path = true
                    ∧ objects (db (world s'))
                      = <[("books", path) := o]> (objects (db (world s))))
     ∨ (∃ path, objects (db (world s'))
                = Platform.remove_one (Platform.uid (world s)) "books"
                    (objects (db (world s))) path)).

(** An event that does not sign [B] in. *)
Definition foreign_to (B : uuid) (e : Event) : Prop :=
  match e with
  | AuthStateChange (Some u) => User.id u ≠ B
  | _ => True
  end.

(** An event that signs nobody in. *)
Definition no_sign_in (e : Event) : Prop :=
  match e with
  | AuthStateChange (Some _) => False
  | _ => True
  end.

(** ** More sample data *)

Module Scenario.

(** Alice signs up, tries again under another role-row id, then Bob signs up. *)
Definition attempts : list (AuthUser.t * Z * uuid) :=
  [(Sample.alice_identity, 1700000000000, "00000003-0000-4000-8000-000000000000");
   (Sample.alice_identity, 1700000000001, "00000004-0000-4000-8000-000000000000");
   (Sample.bob_identity, 1700000000002, "00000005-0000-4000-8000-000000000000")].

(** One byte more than the quota. *)
Definition huge : File.t := File.mk "huge.pdf" 209715201 "application/pdf".

(** Alice's page on the stocked database, lists fetched; [net] schedules
    the requests that follow. *)
Definition alice_page (net : list bool) : App :=
  run (Sample.signed_in Sample.alice) (Sample.page Sample.stocked_db (true :: true :: net)).

(** Bob's page on the stocked database, lists fetched. *)
Definition bob_page : App :=
  run (Sample.signed_in Sample.bob) (Sample.page Sample.stocked_db []).

(** Alice has signed in, nothing is fetched yet. *)
Definition alice_arrives : App :=
  run [AuthStateChange (Some (User.mk Sample.alice))] (Sample.page Sample.stocked_db []).

(** Alice deletes her book, then uploads [moby]. *)
Definition alice_session : list Event :=
  Sample.signed_in Sample.alice
  ++ [ClickDelete Sample.alice_book; ChangeTitle "Moby-Dick"; ChangeFile [Sample.moby];
      Submit].

(** What a visitor without a session can try. *)
Definition visitor_session : list Event :=
  [UserEffect; ChangeTitle "Moby-Dick"; ChangeFile [Sample.moby]; Submit;
   ClickRead Sample.bob_book; ClickDelete Sample.bob_book; Tick 5].

End Scenario.
(** * Properties of the migration *)

Section Aggregate.

Implicit Types (u : uuid) (d : Database) (rows : list Book.t).

Lemma sum_coalesce (l : list Z) : Sql.coalesce (Sql.sum l) 0 = foldr Z.add 0 l.
Proof. destruct l; reflexivity. Qed.

Lemma foldr_sizes u rows :
  foldr Z.add 0 (Book.file_size <$> filter (λ b, Book.user_id b = u) rows)
  = size_of_rows_of u rows.
Proof.
  induction rows as [|b rows IH]; [reflexivity|].
  rewrite filter_cons. cbn [size_of_rows_of].
  destruct (decide (Book.user_id b = u)); cbn; lia.
Qed.

Lemma size_of_rows_of_app u rows1 rows2 :
  size_of_rows_of u (rows1 ++ rows2)
  = size_of_rows_of u rows1 + size_of_rows_of u rows2.
Proof. induction rows1 as [|b rows1 IH]; cbn; lia. Qed.

(** Rows of bounded size add up to a bounded total: with the sizes the
    bucket admits, the aggregate of a table of fewer than 2^35 rows fits
    the [bigint] the function returns. *)
Lemma size_of_rows_of_bounds u rows (k : Z) :
  0 <= k →
  Forall (λ b, 0 <= Book.file_size b <= k) rows →
  0 <= size_of_rows_of u rows <= k * Z.of_nat (length rows).
Proof.
  intros Hk. induction 1 as [|b rows Hb _ IH]; [cbn; lia|].
  cbn [size_of_rows_of length]. destruct (decide (Book.user_id b = u)); nia.
Qed.

Lemma bigintb_spec (z : Z) : bigintb z = true ↔ bigint z.
Proof.
  unfold bigintb, bigint. rewrite andb_true_iff, Z.leb_le, Z.ltb_lt. tauto.
Qed.

Lemma to_bigint_Some (z total : Z) :
  Sql.to_bigint z = Some total ↔ total = z ∧ bigint z.
Proof.
  unfold Sql.to_bigint. destruct (bigintb z) eqn:E.
  - apply bigintb_spec in E. split; [by intros [= ->]|by intros [-> _]].
  - split; [done|]. intros [_ H]. apply bigintb_spec in H. congruence.
Qed.

Lemma to_bigint_None (z : Z) : Sql.to_bigint z = None ↔ ¬ bigint z.
Proof.
  unfold Sql.to_bigint. destruct (bigintb z) eqn:E.
  - apply bigintb_spec in E. split; [done|tauto].
  - split; [|done]. intros _ H. apply bigintb_spec in H. congruence.
Qed.

(** The function computes the sum and casts it. *)
Lemma storage_used_as_sum u d :
  Sql.get_user_storage_used u d = Sql.to_bigint (size_of_rows_of u (books d)).
Proof.
  unfold Sql.get_user_storage_used. by rewrite sum_coalesce, foldr_sizes.
Qed.

Lemma storage_used_fits_bigint u d :
  Forall (λ b, 0 <= Book.file_size b <= file_size_limit) (books d) →
  Z.of_nat (length (books d)) < 2 ^ 35 →
  bigint (size_of_rows_of u (books d)).
Proof.
  intros Hrows Hlen. unfold bigint.
  pose proof (size_of_rows_of_bounds u (books d) file_size_limit) as Hb.
  unfold file_size_limit in *. specialize (Hb ltac:(lia) Hrows).
  change (2 ^ 35) with 34359738368 in Hlen.
  change (2 ^ 63) with 9223372036854775808. lia.
Qed.

(** C6, as the code has it.  For every user id and every state of the
    books table, [get_user_storage_used] returns exactly the sum of
    [file_size] over the book rows of that user when this sum is a
    [bigint]; when it is not, the call raises and returns nothing.  The
    sum is a [bigint] for every table of fewer than 2^35 rows whose sizes
    the bucket admits. *)
Theorem get_user_storage_used_is_sum u d :
  let total := size_of_rows_of u (books d) in
  (bigint total → Sql.get_user_storage_used u d = Some total)
  ∧ (¬ bigint total → Sql.get_user_storage_used u d = None)
  ∧ (∀ answer, Sql.get_user_storage_used u d = Some answer → answer = total)
  ∧ (Forall (λ b, 0 <= Book.file_size b <= file_size_limit) (books d) →
     Z.of_nat (length (books d)) < 2 ^ 35 →
     Sql.get_user_storage_used u d = Some total).
Proof.
  intros total. subst total. rewrite storage_used_as_sum.
  split; [|split; [|split]].
  - intros H. by apply to_bigint_Some.
  - intros H. by apply to_bigint_None.
  - intros answer H. by apply to_bigint_Some in H as [-> _].
  - intros Hrows Hlen. apply to_bigint_Some. split; [done|].
    by apply storage_used_fits_bigint.
Qed.

Lemma no_rows_filter u rows :
  (∀ b, b ∈ rows → Book.user_id b ≠ u) →
  filter (λ b, Book.user_id b = u) rows = [].
Proof.
  intros H. induction rows as [|b rows IH]; [reflexivity|].
  rewrite filter_cons_False by (apply H; left).
  apply IH. intros c Hc. apply H. now right.
Qed.

(** C10.  For a user without book rows the sum ranges over no row and is
    NULL; [coalesce] turns it into 0, which is what the function returns:
    the call does not raise and its answer is 0. *)
Theorem get_user_storage_used_no_rows u d :
  (∀ b, b ∈ books d → Book.user_id b ≠ u) →
  Sql.sum (Book.file_size <$> filter (λ b, Book.user_id b = u) (books d)) = None
  ∧ Sql.get_user_storage_used u d = Some 0.
Proof.
  intros H. unfold Sql.get_user_storage_used.
  rewrite (no_rows_filter _ _ H). split; reflexivity.
Qed.

End Aggregate.

Section Lists.

Context {A : Type} (P : A → Prop) `{!∀ x, Decision (P x)}.

Lemma filter_absent (l : list A) : ¬ Exists P l → filter P l = [].
Proof.
  intros Hn. induction l as [|x l IH]; [reflexivity|].
  rewrite filter_cons_False by (intros Hx; apply Hn; now left).
  apply IH. intros Hl. apply Hn. now right.
Qed.

Lemma filter_snoc_first (l : list A) (x : A) :
  ¬ Exists P l → P x → filter P (l ++ [x]) = [x].
Proof.
  intros Hl Hx. rewrite filter_app, (filter_absent l Hl).
  now rewrite filter_cons_True.
Qed.

End Lists.

Section Signup.

Implicit Types (d : Database) (new : AuthUser.t).

Lemma insert_profile_Some p d d' :
  Sql.insert_profile p d = Some d' →
  ¬ Exists (λ q, Profile.id q = Profile.id p) (profiles d)
  ∧ d' = with_profiles (profiles d ++ [p]) d.
Proof.
  unfold Sql.insert_profile. repeat case_bool_decide; naive_solver.
Qed.

Lemma insert_user_role_Some r d d' :
  Sql.insert_user_role r d = Some d' →
  ¬ Exists (λ q, UserRole.id q = UserRole.id r) (user_roles d)
  ∧ ¬ Exists (λ q, UserRole.user_id q = UserRole.user_id r
                   ∧ UserRole.role q = UserRole.role r) (user_roles d)
  ∧ d' = with_user_roles (user_roles d ++ [r]) d.
Proof.
  unfold Sql.insert_user_role. repeat case_bool_decide; naive_solver.
Qed.

Lemma handle_new_user_Some new now role_id d d' :
  Sql.handle_new_user new now role_id d = Some d' →
  ¬ Exists (λ q, Profile.id q = AuthUser.id new) (profiles d)
  ∧ ¬ Exists (λ q, UserRole.user_id q = AuthUser.id new
                   ∧ UserRole.role q = AppRole.user) (user_roles d)
  ∧ d' = with_user_roles (user_roles d ++ [role_of new role_id])
           (with_profiles (profiles d ++ [profile_of new now]) d).
Proof.
  unfold Sql.handle_new_user. intros H.
  destruct (Sql.insert_profile _ d) as [d1|] eqn:E1; [|discriminate].
  cbn in H. apply insert_profile_Some in E1 as [Hp ->].
  apply insert_user_role_Some in H as (_ & Hr & ->). auto.
Qed.

(** C7.  A signup is one statement: the insert into [auth.users] with the
    trigger [handle_new_user] behind it.  When it creates the identity,
    the tables hold exactly one profile row for it, carrying its id, its
    email and the full name of its metadata, and exactly one role row
    with role [user] for it; when the trigger fails, the statement is
    aborted, the identity is not created, and no table has changed. *)
Theorem signup_all_or_nothing new now role_id d d' created :
  Sql.signup new now role_id d = (d', created) →
  (if created then
     auth_users d' = auth_users d ++ [new]
     ∧ profiles d' = profiles d ++ [profile_of new now]
     ∧ user_roles d' = user_roles d ++ [role_of new role_id]
     ∧ filter (λ p, Profile.id p = AuthUser.id new) (profiles d')
       = [profile_of new now]
     ∧ filter (λ r, UserRole.user_id r = AuthUser.id new
                    ∧ UserRole.role r = AppRole.user) (user_roles d')
       = [role_of new role_id]
   else d' = d)
  ∧ (Sql.handle_new_user new now role_id
       (with_auth_users (auth_users d ++ [new]) d) = None →
     created = false ∧ d' = d).
Proof.
  unfold Sql.signup, Sql.insert_auth_user. intros H. split.
  - case_bool_decide; [by simplify_eq|].
    destruct (Sql.handle_new_user _ _ _ _) as [d1|] eqn:E; simplify_eq; [|done].
    apply handle_new_user_Some in E as (Hp & Hr & ->). cbn.
    repeat split; [by apply filter_snoc_first | by apply filter_snoc_first].
  - intros E. rewrite E in H. by case_bool_decide; simplify_eq.
Qed.

(** With the references in place, a new identity and an unused role-row
    id, the trigger cannot fail, and the role row it writes is the only
    role row of the identity. *)
Lemma signup_succeeds new now role_id d :
  referential d →
  ¬ Exists (λ u, AuthUser.id u = AuthUser.id new) (auth_users d) →
  ¬ Exists (λ q, UserRole.id q = role_id) (user_roles d) →
  ∃ d', Sql.signup new now role_id d = (d', true)
        ∧ filter (λ r, UserRole.user_id r = AuthUser.id new) (user_roles d')
          = [role_of new role_id].
Proof.
  intros [Hp Hr] Hnew Hid.
  assert (Hnp : ¬ Exists (λ q, Profile.id q = AuthUser.id new) (profiles d)).
  { rewrite Exists_exists. intros (q & Hq & Heq).
    rewrite Forall_forall in Hp. specialize (Hp q Hq). by rewrite Heq in Hp. }
  assert (Hnr : ¬ Exists (λ q, UserRole.user_id q = AuthUser.id new) (user_roles d)).
  { rewrite Exists_exists. intros (q & Hq & Heq).
    rewrite Forall_forall in Hr. specialize (Hr q Hq). by rewrite Heq in Hr. }
  assert (Hin : Exists (λ u, AuthUser.id u = AuthUser.id new) (auth_users d ++ [new])).
  { apply Exists_app. right. by left. }
  eexists. unfold Sql.signup, Sql.insert_auth_user, Sql.handle_new_user,
    Sql.insert_profile, Sql.insert_user_role. cbn.
  rewrite (bool_decide_eq_false_2 _ Hnew), (bool_decide_eq_false_2 _ Hnp),
    (bool_decide_eq_true_2 _ Hin). cbn.
  rewrite (bool_decide_eq_false_2 _ Hid), (bool_decide_eq_true_2 _ Hin).
  rewrite bool_decide_eq_false_2.
  - split; [reflexivity|]. cbn. by apply filter_snoc_first.
  - rewrite Exists_exists. intros (q & Hq & Heq & _).
    apply Hnr, Exists_exists. eauto.
Qed.

End Signup.

(** * Properties of the client library *)

Section Calls.

Context {A : Type} (r : Request) (f : World → result (A * World)).

Lemma deliver_same (w : World) :
  let w1 := (Supabase.deliver w).2 in
  db w1 = db w ∧ session w1 = session w ∧ clock w1 = clock w
  ∧ rng w1 = rng w ∧ log w1 = log w.
Proof. unfold Supabase.deliver. destruct (net w); cbn; auto. Qed.

Lemma call_Ok (s s' : App) (a : A) :
  Supabase.call r f s = (Ok a, s') →
  ∃ w', (Supabase.deliver (world s)).1 = true
        ∧ f (Supabase.deliver (world s)).2 = Ok (a, w')
        ∧ s' = mkApp (logged (Call r None) w') (library s) (dialog s).
Proof.
  unfold Supabase.call. destruct (Supabase.deliver (world s)) as [ok w].
  destruct ok; [|discriminate]. cbn.
  destruct (f w) as [[a' w']|e]; intros H; simplify_eq. eauto.
Qed.

Lemma call_Err (s s' : App) (e : Error) :
  Supabase.call r f s = (Err e, s') →
  ((Supabase.deliver (world s)).1 = false
   ∨ f (Supabase.deliver (world s)).2 = Err e)
  ∧ s' = mkApp (logged (Call r (Some e)) (Supabase.deliver (world s)).2)
           (library s) (dialog s).
Proof.
  unfold Supabase.call. destruct (Supabase.deliver (world s)) as [ok w].
  destruct ok; cbn.
  - destruct (f w) as [[a' w']|e']; intros H; simplify_eq. auto.
  - intros H; simplify_eq. auto.
Qed.

End Calls.

Section Order.

Lemma insert_desc_perm (b : Book.t) (l : list Book.t) :
  Platform.insert_desc b l ≡ₚ b :: l.
Proof.
  induction l as [|c l IH]; cbn; [done|].
  destruct (Book.uploaded_at c <? Book.uploaded_at b); [done|].
  rewrite IH. apply perm_swap.
Qed.

Lemma order_desc_perm (l : list Book.t) : Platform.order_desc l ≡ₚ l.
Proof.
  induction l as [|b l IH]; cbn; [done|].
  by rewrite insert_desc_perm, IH.
Qed.

End Order.

Section Paths.

Lemma split_nonempty (sep : ascii) (s : string) : Js.split sep s ≠ [].
Proof.
  destruct s as [|c s]; cbn; [done|].
  case_decide; [done|]. by destruct (Js.split sep s).
Qed.

Lemma split_at_first (sep : ascii) (a b : string) :
  Js.occurs sep a = false →
  Js.split sep (a +:+ String sep b) = a :: Js.split sep b.
Proof.
  induction a as [|c a IH]; intros Hocc.
  - change (Js.split sep (String sep b) = "" :: Js.split sep b).
    cbn. by rewrite decide_True.
  - change (Js.split sep (String c (a +:+ String sep b))
            = String c a :: Js.split sep b).
    cbn in Hocc. apply orb_false_iff in Hocc as [Hc Ha].
    apply bool_decide_eq_false in Hc.
    cbn. rewrite decide_False by done. by rewrite (IH Ha).
Qed.

Lemma all_chars_occurs (p : ascii → bool) (c : ascii) (s : string) :
  p c = false → all_chars p s = true → Js.occurs c s = false.
Proof.
  intros Hc. induction s as [|d s IH]; cbn; [done|].
  intros [Hd Hs]%andb_true_iff. rewrite (IH Hs), orb_false_r.
  apply bool_decide_eq_false. intros ->. congruence.
Qed.

Lemma uuid_no_slash (s : string) : is_uuid s = true → Js.occurs "/" s = false.
Proof.
  unfold is_uuid. intros [_ H]%andb_true_iff.
  by apply (all_chars_occurs uuid_char).
Qed.

Lemma foldername_first (a b : string) :
  Js.occurs "/" a = false → Sql.foldername (a +:+ "/" +:+ b) !! 0%nat = Some a.
Proof.
  intros Ha. unfold Sql.foldername, Sql.string_to_array.
  change ("/" +:+ b) with (String "/" b).
  rewrite decide_False by (by destruct a).
  rewrite (split_at_first _ _ _ Ha).
  pose proof (split_nonempty "/" b). by destruct (Js.split "/" b).
Qed.

(** The path [handleUpload] builds for a user with a well-formed id lies
    in the folder of that user. *)
Lemma upload_path_folder (u : User.t) (now : Z) (file : File.t) :
  is_uuid (User.id u) = true →
  Sql.foldername (upload_path u now file) !! 0%nat = Some (User.id u).
Proof. intros Hu. apply foldername_first. by apply uuid_no_slash. Qed.

End Paths.

(** * What the platform does, inverted *)

Section PlatformFacts.

Implicit Types (w : World) (s : App).

Lemma deliver_db w : db (Supabase.deliver w).2 = db w.
Proof. apply deliver_same. Qed.
Lemma deliver_session w : session (Supabase.deliver w).2 = session w.
Proof. apply deliver_same. Qed.
Lemma deliver_clock w : clock (Supabase.deliver w).2 = clock w.
Proof. apply deliver_same. Qed.
Lemma deliver_rng w : rng (Supabase.deliver w).2 = rng w.
Proof. apply deliver_same. Qed.
Lemma deliver_log w : log (Supabase.deliver w).2 = log w.
Proof. apply deliver_same. Qed.
Lemma deliver_uid w : Platform.uid (Supabase.deliver w).2 = Platform.uid w.
Proof. unfold Platform.uid. by rewrite deliver_session. Qed.

Lemma getUser_Ok w u w' : Platform.getUser w = Ok (u, w') → session w = Some u ∧ w' = w.
Proof. unfold Platform.getUser. destruct (session w); naive_solver. Qed.

Lemma upload_Ok bucket path file w w' :
  Platform.upload bucket path file w = Ok ((), w') →
  bucket = books_bucket
  ∧ File.size file <= file_size_limit
  ∧ ∃ u, Platform.uid w = Some u
         ∧ Sql.objects_insert (Some u) bucket path = true
         ∧ objects (db w) !! (bucket, path) = None
         ∧ w' = Platform.with_db
                  (with_objects (<[(bucket, path) := StorageObject.mk u file]>
                                   (objects (db w))) (db w)) w.
Proof.
  unfold Platform.upload. case_bool_decide; [|discriminate]. cbn.
  destruct (file_size_limit <? File.size file) eqn:Hsz; [discriminate|].
  apply Z.ltb_ge in Hsz.
  destruct (Platform.uid w) as [u|]; [|discriminate].
  destruct (Sql.objects_insert _ _ _) eqn:Hpol; [|discriminate]. cbn.
  destruct (objects (db w) !! _) eqn:Hfree; [discriminate|].
  intros [= <-]. eauto 10.
Qed.

Lemma insert_book_Ok user_id title author path size type w w' :
  Platform.insert_book user_id title author path size type w = Ok ((), w') →
  ∃ id, let row := Book.mk id user_id title author path size (Some type) None (clock w) in
        Sql.books_insert (Platform.uid w) row = true
        ∧ books (db w') = books (db w) ++ [row]
        ∧ objects (db w') = objects (db w)
        ∧ auth_users (db w') = auth_users (db w)
        ∧ session w' = session w ∧ clock w' = clock w ∧ log w' = log w.
Proof.
  unfold Platform.insert_book.
  destruct (Platform.gen_random_uuid w) as [id w1] eqn:Hid.
  assert (db w1 = db w ∧ session w1 = session w ∧ clock w1 = clock w ∧ log w1 = log w)
    as (Hdb & Hs & Hc & Hl).
  { unfold Platform.gen_random_uuid in Hid. destruct (rng w); by simplify_eq. }
  destruct (Sql.books_insert _ _) eqn:Hpol; [|discriminate]. cbn.
  destruct (bigintb size); [|discriminate]. cbn.
  case_bool_decide; [discriminate|]. case_bool_decide; [|discriminate]. cbn.
  intros [= <-]. exists id. cbn.
  unfold Platform.uid in *. rewrite Hs, Hc, Hdb in *. auto 10.
Qed.

Lemma remove_one_objects (caller : uuid) (path : string)
    (m : gmap (string * string) StorageObject.t) :
  Sql.objects_insert (Some caller) "books" path = true →
  Platform.remove_one (Some caller) "books" m path = delete ("books", path) m.
Proof. unfold Platform.remove_one, Sql.objects_delete, Sql.objects_insert. by intros ->. Qed.

End PlatformFacts.

(** * What the page gets of an answer *)

Section Selects.

Lemma json_number_exact (z : Z) :
  Z.abs z <= Js.MAX_SAFE_INTEGER → Js.json_number z = z.
Proof.
  intros Hz. unfold Js.json_number. cbv zeta.
  destruct (Z.log2 (Z.abs z) - 52 <=? 0) eqn:E; [done|]. exfalso.
  apply Z.leb_gt in E.
  assert (Hpos : 0 < Z.abs z).
  { destruct (decide (Z.abs z = 0)) as [H0|]; [|lia]. rewrite H0 in E. cbn in E. lia. }
  assert (Hlt : Z.log2 (Z.abs z) < 53).
  { apply Z.log2_lt_pow2; [done|]. unfold Js.MAX_SAFE_INTEGER in Hz. lia. }
  lia.
Qed.

Lemma row_of_json_exact (b : Book.t) :
  Z.abs (Book.file_size b) <= Js.MAX_SAFE_INTEGER → Supabase.row_of_json b = b.
Proof.
  intros H. unfold Supabase.row_of_json. rewrite (json_number_exact _ H). by destruct b.
Qed.

(** The answer of a list request that got through: the rows of the
    platform, parsed. *)
Lemma select_books_Ok (queried : uuid) (s : App) (rows : list Book.t) (s' : App) :
  Supabase.books_select_eq_user_id queried s = (Ok rows, s') →
  rows = Supabase.row_of_json
           <$> Platform.order_desc
                 (filter (λ b, Sql.books_select (Platform.uid (world s)) b
                               ∧ Book.user_id b = queried)
                    (books (db (world s)))).
Proof.
  unfold Supabase.books_select_eq_user_id, mbind, M_bind, mret, M_ret.
  destruct (Supabase.call _ _ s) as [[rows0|e] s1] eqn:E; [|discriminate].
  intros [= <- <-]. apply call_Ok in E as (w' & _ & H & _).
  unfold Platform.select_books in H. simplify_eq.
  by rewrite deliver_uid, deliver_db.
Qed.

Lemma elem_of_parsed (b : Book.t) (rows : list Book.t) :
  b ∈ Supabase.row_of_json <$> rows →
  ∃ r, r ∈ rows ∧ b = Supabase.row_of_json r
       ∧ Book.id b = Book.id r ∧ Book.user_id b = Book.user_id r.
Proof. intros (r & -> & Hr)%list_elem_of_fmap. by exists r. Qed.

End Selects.

(** * Row-level security *)

Section Isolation.

Lemma own_row_iff (caller : option uuid) (owner : uuid) :
  Sql.own_row caller owner = true ↔ caller = Some owner.
Proof. unfold Sql.own_row. apply bool_decide_eq_true. Qed.

Lemma own_folder_iff (caller : option uuid) (bucket name : string) :
  Sql.own_folder caller bucket name = true ↔
  bucket = "books" ∧ ∃ u, caller = Some u ∧ Sql.foldername name !! 0%nat = Some u.
Proof.
  unfold Sql.own_folder. rewrite andb_true_iff, bool_decide_eq_true.
  destruct caller as [u|], (Sql.foldername name !! 0%nat) as [folder|];
    try rewrite bool_decide_eq_true.
  - split; [intros [-> ->]; eauto|]. intros (-> & v & Hv & Hf). by simplify_eq.
  - split; [by intros [_ ?]|]. by intros (_ & v & _ & ?).
  - split; [by intros [_ ?]|]. by intros (_ & v & ? & _).
  - split; [by intros [_ ?]|]. by intros (_ & v & ? & _).
Qed.

(** C2.  Let A and B be distinct users and let the caller be authenticated
    as A.  The select policy of [books] admits a row exactly when its
    [user_id] is A, and the select policy of [storage.objects] admits an
    object exactly when it lies in bucket [books] and the first segment of
    its path is A; hence no row that a list request returns belongs to B,
    whichever user id the request names, and no download of an object in
    B's folder returns data. *)
Theorem rls_isolation (A B : uuid) (s : App) :
  A ≠ B →
  session (world s) = Some (User.mk A) →
  (∀ b, Sql.books_select (Some A) b = true ↔ Book.user_id b = A)
  ∧ (∀ bucket name, Sql.objects_select (Some A) bucket name = true ↔
                    bucket = "books" ∧ Sql.foldername name !! 0%nat = Some A)
  ∧ (∀ queried rows s',
       Supabase.books_select_eq_user_id queried s = (Ok rows, s') →
       ∀ b, b ∈ rows → Book.user_id b = A ∧ Book.user_id b ≠ B)
  ∧ (∀ bucket path data s',
       Sql.foldername path !! 0%nat = Some B →
       Supabase.storage_download bucket path s ≠ (Ok data, s')).
Proof.
  intros Hne Hs.
  assert (Hobj : ∀ bucket name, Sql.objects_select (Some A) bucket name = true ↔
                   bucket = "books" ∧ Sql.foldername name !! 0%nat = Some A).
  { intros. unfold Sql.objects_select. rewrite own_folder_iff.
    split; [intros (-> & u & Hu & Hf); by simplify_eq | intros [-> Hf]; eauto]. }
  split; [|split; [exact Hobj|split]].
  - intros b. unfold Sql.books_select. rewrite own_row_iff.
    split; [by intros [= ->] | by intros ->].
  - intros queried rows s' H b Hb.
    apply select_books_Ok in H. subst rows.
    apply elem_of_parsed in Hb as (r & Hb & _ & _ & ->).
    rewrite order_desc_perm in Hb. apply list_elem_of_filter in Hb as [[Hb _] _].
    unfold Sql.books_select, Platform.uid in Hb.
    rewrite Hs in Hb. apply Is_true_true, own_row_iff in Hb.
    cbn in Hb. split; congruence.
  - intros bucket path data s' HB H.
    apply call_Ok in H as (w' & _ & H & _).
    pose proof (deliver_same (world s)) as (_ & Hsess & _).
    unfold Platform.download in H.
    destruct (objects _ !! _); [|discriminate].
    destruct (Sql.objects_select _ _ _) eqn:E; [|discriminate].
    unfold Platform.uid in E. cbn in Hsess. rewrite Hsess, Hs in E. cbn in E.
    apply Hobj in E as [_ E]. congruence.
Qed.

End Isolation.


(** * The handlers, branch by branch *)

Create Rewrite HintDb world.
#[local] Hint Rewrite deliver_db deliver_session deliver_clock deliver_rng deliver_log
  deliver_uid : world.

Ltac unfold_M :=
  unfold exec, trace, mbind, mret, M_bind, M_ret, gets, modify, on_world, on_library,
    on_dialog, toast_error, toast_success, console_error, emit, Date_now,
    setUser, setBooks, setStorageUsed, setUploadDialogOpen, setLoading,
    setTitle, setAuthor, setFile, setUploading in *.

(** Case analysis on the next request of the goal: its answer [d] from the
    platform state [w], or its error. *)
Ltac next_call E d w :=
  match goal with
  | |- context [Supabase.call ?r ?f ?s] =>
      let res := fresh "res" in
      let s' := fresh "s" in
      destruct (Supabase.call r f s) as [res s'] eqn:E;
      destruct res as [d|?e];
      [ apply call_Ok in E as (w & _ & E & ->) | apply call_Err in E as [E ->] ]
  end.

Ltac world_simpl :=
  repeat (progress (cbn in *; autorewrite with world in * )).

Ltac solve_log :=
  unfold trace; world_simpl;
  repeat match goal with H : log _ = _ |- _ => rewrite H end;
  world_simpl; rewrite <- ?app_assoc; reflexivity.

Section Handlers.

Implicit Types (s : App) (p : UploadBookDialog.Props).

Lemma handleUpload_run p s :
  upload_run p s (exec (UploadBookDialog.handleUpload p) s).
Proof.
  unfold UploadBookDialog.handleUpload. unfold_M. cbn.
  destruct (DialogState.file (dialog s)) as [file|] eqn:Hfile; cbn.
  2: { by apply upload_no_file. }
  unfold Supabase.auth_getUser, Supabase.storage_upload, Supabase.books_insert,
    Supabase.storage_remove. unfold_M.
  next_call E1 u0 w1; cbn in *.
  2: { eapply upload_no_user; eauto; try solve_log; world_simpl; auto.
       destruct E1 as [E1|E1]; [by right|left].
       unfold Platform.getUser in E1. world_simpl.
       by destruct (session (world s)). }
  apply getUser_Ok in E1 as [Hu ->]. autorewrite with world in Hu.
  next_call E2 d2 w2; cbn in *.
  2: { eapply upload_rejected; eauto; try solve_log; world_simpl; auto. }
  destruct d2. apply upload_Ok in E2 as (_ & Hsz & u & Huid & Hpol & Hfree & ->).
  world_simpl.
  unfold Platform.uid in Huid. rewrite Hu in Huid. cbn in Huid. simplify_eq.
  next_call E3 d3 w3; cbn in *.
  - destruct d3.
    apply insert_book_Ok in E3 as (id & Hrow & Hb & Ho & Ha & Hs & Hc & Hl).
    world_simpl.
    eapply upload_done with (id := id) (u := u0); cycle -1.
    { unfold exec. reflexivity. }
    all: try solve_log; world_simpl; auto; try congruence.
  - world_simpl. next_call E4 d4 w4; world_simpl.
    + unfold Platform.remove in E4. simplify_eq.
      eapply upload_compensated with (r := None);
        eauto; try solve_log; world_simpl; auto.
      unfold Platform.uid. world_simpl. rewrite Hu. cbn.
      rewrite remove_one_objects by done. by rewrite delete_insert_eq, delete_id.
    + eapply upload_compensated with (r := Some e0);
        eauto; try solve_log; world_simpl; auto.
Qed.

Lemma observes_refl s : observes s s.
Proof.
  repeat split. exists []. split; [by rewrite app_nil_r | constructor].
Qed.

Lemma observes_trans s1 s2 s3 : observes s1 s2 → observes s2 s3 → observes s1 s3.
Proof.
  intros (Hd1 & Hs1 & Hc1 & Hg1 & t1 & Ht1 & Hq1) (Hd2 & Hs2 & Hc2 & Hg2 & t2 & Ht2 & Hq2).
  repeat split; try congruence.
  exists (t1 ++ t2). split; [by rewrite Ht2, Ht1, app_assoc | by apply Forall_app].
Qed.

Lemma fetchBooks_observes s : observes s (exec Library.fetchBooks s).
Proof.
  unfold Library.fetchBooks, Supabase.books_select_eq_user_id. unfold_M. cbn.
  destruct (LibraryState.user (library s)) as [u|]; [|apply observes_refl]. cbn.
  next_call E rows w; world_simpl.
  - unfold Platform.select_books in E. simplify_eq. world_simpl.
    repeat split; world_simpl; auto. eexists. split; [solve_log|]. by repeat constructor.
  - repeat split; world_simpl; auto. eexists. split; [solve_log|]. by repeat constructor.
Qed.

Lemma fetchStorageUsed_observes s : observes s (exec Library.fetchStorageUsed s).
Proof.
  unfold Library.fetchStorageUsed, Supabase.rpc_get_user_storage_used. unfold_M. cbn.
  destruct (LibraryState.user (library s)) as [u|]; [|apply observes_refl]. cbn.
  next_call E used w; world_simpl.
  - unfold Platform.get_user_storage_used in E.
    destruct (Sql.get_user_storage_used _ _); simplify_eq. world_simpl.
    repeat split; world_simpl; auto. eexists. split; [solve_log|]. by repeat constructor.
  - repeat split; world_simpl; auto. eexists. split; [solve_log|]. by repeat constructor.
Qed.

Lemma exec_seq {A B} (m : M A) (k : M B) s :
  ((m ;; k) s).2 = (k (m s).2).2.
Proof. unfold mbind, M_bind. cbn. by destruct (m s). Qed.

Lemma on_library_observes (f : LibraryState.t → LibraryState.t) s :
  observes s (exec (on_library f) s).
Proof.
  unfold_M. cbn. repeat split. exists []. split; [by rewrite app_nil_r | constructor].
Qed.

Lemma handleBookUploaded_observes s : observes s (exec Library.handleBookUploaded s).
Proof.
  unfold Library.handleBookUploaded, exec. rewrite !exec_seq.
  eapply observes_trans; [apply fetchBooks_observes|].
  eapply observes_trans; [apply fetchStorageUsed_observes|].
  apply on_library_observes.
Qed.

Lemma handleDownload_observes book s : observes s (exec (BookCard.handleDownload book) s).
Proof.
  unfold BookCard.handleDownload, Supabase.storage_download. unfold_M. cbn.
  next_call E data w; world_simpl.
  - assert (w = (Supabase.deliver (world s)).2) as ->.
    { unfold Platform.download in E. repeat case_match; by simplify_eq. }
    repeat split; world_simpl; auto. eexists. split; [solve_log|]. by repeat constructor.
  - repeat split; world_simpl; auto. eexists. split; [solve_log|]. by repeat constructor.
Qed.

Lemma handleDeleteBook_run book s :
  delete_run book s (exec (Library.handleDeleteBook book) s).
Proof.
  unfold Library.handleDeleteBook.
  unfold mbind at 1, M_bind at 1, gets at 1, exec. cbn.
  destruct (LibraryState.user (library s)) as [u|] eqn:Hu; cbn.
  2: { by apply delete_no_user. }
  unfold Supabase.books_delete_eq_id, mbind at 1, M_bind at 1.
  next_call E1 d1 w1.
  2: { unfold_M. eapply delete_failed; try solve_log; world_simpl; auto. }
  unfold Platform.delete_book in E1. simplify_eq.
  unfold Supabase.storage_remove, mbind at 1, M_bind at 1.
  next_call E2 d2 w2.
  - unfold Platform.remove in E2. simplify_eq.
    rewrite !(exec_seq (A:=())). 
    eapply delete_done with (r := None);
      [| | | | | eapply observes_trans;
                   [apply fetchBooks_observes | apply fetchStorageUsed_observes]].
    all: unfold_M; try solve_log; world_simpl; auto.
  - rewrite !(exec_seq (A:=())). 
    eapply delete_done with (r := Some e);
      [| | | | | eapply observes_trans;
                   [apply fetchBooks_observes | apply fetchStorageUsed_observes]].
    all: unfold_M; try solve_log; world_simpl; auto.
Qed.

End Handlers.

(** * Upload and delete: partial failures *)

(** Membership in a short explicit list, as a disjunction of equations. *)
Ltac in_list H :=
  repeat (apply elem_of_cons in H as [H|H]; [try discriminate H|]);
  try (apply elem_of_nil in H; destruct H).

Section PartialFailure.

Implicit Types (s : App) (l : LibraryState.t).

Lemma new_effects_app {A} (m : M A) s (t : list Effect) :
  trace (exec m s) = trace s ++ t → new_effects m s = t.
Proof. unfold new_effects. intros ->. by rewrite drop_app_length. Qed.

Lemma observes_trace s s' :
  observes s s' → ∃ t, trace s' = trace s ++ t ∧ Forall (λ e, is_write e = false) t.
Proof. by intros (_ & _ & _ & _ & H). Qed.

Lemma not_write_in (t : list Effect) (e : Effect) :
  Forall (λ e, is_write e = false) t → e ∈ t → is_write e = false.
Proof. rewrite Forall_forall. auto. Qed.

(** C4.  When the object upload went through and the insert of the
    metadata row failed, [handleUpload] has issued exactly these effects:
    the user lookup, the upload, the failed insert, a removal of the very
    path it uploaded to, and the error toast.  No success toast is among
    them, the callback did not run (the state of [Library] is untouched),
    the books table is as before, and if the removal went through the
    bucket is as before, too. *)
Theorem upload_compensation l s bucket path file uid title author file_path
    file_size file_type e :
  let p := Library.dialog_props l in
  let s' := exec (UploadBookDialog.handleUpload p) s in
  let t := new_effects (UploadBookDialog.handleUpload p) s in
  Call (StorageUpload bucket path file) None ∈ t →
  Call (BooksInsert uid title author file_path file_size file_type) (Some e) ∈ t →
  bucket = "books" ∧ file_path = path
  ∧ (∃ r, t = [Call AuthGetUser None;
               Call (StorageUpload "books" path file) None;
               Call (BooksInsert uid title author path file_size file_type) (Some e);
               Call (StorageRemove "books" [path]) r;
               ToastError "Failed to save book information"]
          ∧ (r = None → objects (db (world s')) = objects (db (world s))))
  ∧ (∀ msg, ToastSuccess msg ∉ t)
  ∧ library s' = library s
  ∧ books (db (world s')) = books (db (world s)).
Proof.
  intros p s' t. subst t s'. unfold new_effects.
  destruct (handleUpload_run p s) as
    [s' Hf Ht | f0 e0 s' Hf Hwhy Ht | f0 u e0 s' Hf Hu path0 Ht
    | f0 u e0 r s' Hf Hu path0 st Ht Hfree Hpol Hb Ho Hl Hd
    | f0 u id s4 s' Hf Hu path0 st Ht Hfree Hpol Hsz Hb Ho Ha Hs Hc Hl Hd Hs'].
  - rewrite Ht, drop_app_length. intros Hin. in_list Hin.
  - rewrite Ht, drop_app_length. intros Hin. in_list Hin.
  - rewrite Ht, drop_app_length. intros Hin. in_list Hin.
  - rewrite Ht, drop_app_length. intros H1 H2. in_list H1. in_list H2.
    simplify_eq. repeat split; auto.
    + exists r. split; [done|]. by intros ->.
    + intros msg Hin. in_list Hin.
  - pose proof (handleBookUploaded_observes s4) as Hobs.
    apply observes_trace in Hobs as (tq & Htq & Hq).
    rewrite Hs'. change (UploadBookDialog.onBookUploaded p) with Library.handleBookUploaded.
    rewrite Htq, Ht, <- app_assoc, drop_app_length. cbn.
    intros _ H2. in_list H2. by apply (not_write_in _ _ Hq) in H2.
Qed.


End PartialFailure.

(** Decide a closed proposition by evaluation. *)
Ltac by_evaluation :=
  match goal with |- ?P => apply (bool_decide_unpack P); vm_compute; exact I end.

(** On the sample data: Alice uploads [moby]; the object is stored, the
    insert is lost on the way, and so is the removal. *)
Lemma upload_compensation_witness :
  Call (StorageUpload "books" Sample.moby_path Sample.moby) None
    ∈ new_effects (UploadBookDialog.handleUpload (Library.dialog_props LibraryState.initial))
        (Sample.ready Sample.fresh_db [true; true; false; false])
  ∧ Call (BooksInsert Sample.alice "Moby-Dick" (Some "Herman Melville") Sample.moby_path
            1000 "application/pdf") (Some NetworkError)
    ∈ new_effects (UploadBookDialog.handleUpload (Library.dialog_props LibraryState.initial))
        (Sample.ready Sample.fresh_db [true; true; false; false])
  ∧ library (exec (UploadBookDialog.handleUpload (Library.dialog_props LibraryState.initial))
               (Sample.ready Sample.fresh_db [true; true; false; false]))
    = library (Sample.ready Sample.fresh_db [true; true; false; false]).
Proof.
  assert (H1 : Call (StorageUpload "books" Sample.moby_path Sample.moby) None
    ∈ new_effects (UploadBookDialog.handleUpload (Library.dialog_props LibraryState.initial))
        (Sample.ready Sample.fresh_db [true; true; false; false])) by by_evaluation.
  assert (H2 : Call (BooksInsert Sample.alice "Moby-Dick" (Some "Herman Melville")
                       Sample.moby_path 1000 "application/pdf") (Some NetworkError)
    ∈ new_effects (UploadBookDialog.handleUpload (Library.dialog_props LibraryState.initial))
        (Sample.ready Sample.fresh_db [true; true; false; false])) by by_evaluation.
  split; [exact H1|]. split; [exact H2|].
  exact (proj1 (proj2 (proj2 (proj2 (proj2
    (upload_compensation _ _ _ _ _ _ _ _ _ _ _ _ H1 H2)))))).
Defined.



(** * The quota check *)

Section Quota.

Implicit Types (s : App) (f : File.t).

Lemma step_Submit s :
  exec (step Submit) s
  = exec (UploadBookDialog.handleUpload (Library.dialog_props (library s))) s.
Proof. reflexivity. Qed.

Lemma step_ChangeFile files s :
  exec (step (ChangeFile files)) s
  = exec (UploadBookDialog.handleFileChange (Library.dialog_props (library s)) files) s.
Proof. reflexivity. Qed.

(** With a file held, a session, and a user lookup that gets through,
    [Submit] sends the upload of the held file. *)
Lemma submit_uploads s f u :
  DialogState.file (dialog s) = Some f →
  session (world s) = Some u →
  (Supabase.deliver (world s)).1 = true →
  ∃ r rest, new_effects (step Submit) s
            = Call AuthGetUser None
              :: Call (StorageUpload "books" (upload_path u (clock (world s)) f) f) r
              :: rest.
Proof.
  intros Hf Hu Hnet. unfold new_effects. rewrite step_Submit.
  destruct (handleUpload_run (Library.dialog_props (library s)) s) as
    [s' Hf' Ht | f0 e0 s' Hf' Hwhy Ht | f0 u0 e0 s' Hf' Hu' path0 Ht
    | f0 u0 e0 r s' Hf' Hu' path0 st Ht
    | f0 u0 id s4 s' Hf' Hu' path0 st Ht Hfree Hpol Hsz Hb Ho Ha Hs Hc Hl Hd Hs'].
  - congruence.
  - destruct Hwhy; congruence.
  - subst path0. simplify_eq. rewrite Ht, drop_app_length. eauto.
  - subst path0. simplify_eq. rewrite Ht, drop_app_length. eauto.
  - subst path0. simplify_eq.
    destruct (handleBookUploaded_observes s4) as (_ & _ & _ & _ & tq & Htq & _).
    change (UploadBookDialog.onBookUploaded _) with Library.handleBookUploaded.
    rewrite Htq, Ht, <- app_assoc, drop_app_length. cbn. eauto.
Qed.

(** C9.  The limit is 209,715,200 bytes and the check is strict: a file
    that brings the usage shown to exactly the limit is stored as the
    selected file without any notification, and the next [Submit] sends
    its upload; a file is turned away, with the toast, exactly when the
    total is greater than the limit. *)
Theorem quota_check_is_strict f (fs : list File.t) s :
  let used := LibraryState.storageUsed (library s) in
  let s1 := exec (step (ChangeFile (f :: fs))) s in
  Library.STORAGE_LIMIT = 209715200
  ∧ (used + File.size f = 209715200 →
     DialogState.file (dialog s1) = Some f
     ∧ trace s1 = trace s
     ∧ ∀ u, session (world s) = Some u →
            (Supabase.deliver (world s)).1 = true →
            ∃ r rest, new_effects (step Submit) s1
                      = Call AuthGetUser None
                        :: Call (StorageUpload "books"
                                   (upload_path u (clock (world s)) f) f) r
                        :: rest)
  ∧ (used + File.size f <= 209715200 ↔
     DialogState.file (dialog s1) = Some f ∧ trace s1 = trace s)
  ∧ (used + File.size f > 209715200 ↔
     new_effects (step (ChangeFile (f :: fs))) s
     = [ToastError "This file would exceed your storage limit of 200MB"]).
Proof.
  intros used s1. subst used s1. unfold new_effects. rewrite step_ChangeFile.
  unfold UploadBookDialog.handleFileChange. cbn [Library.dialog_props
    UploadBookDialog.storageUsed UploadBookDialog.storageLimit].
  change Library.STORAGE_LIMIT with 209715200.
  split; [reflexivity|].
  destruct (decide (LibraryState.storageUsed (library s) + File.size f > 209715200))
    as [Hgt|Hle]; unfold_M; cbn.
  - split; [lia|]. split; [split; [lia|]|].
    + intros [_ Heq]. apply (f_equal length) in Heq. rewrite length_app in Heq.
      cbn in Heq. lia.
    + rewrite drop_app_length. by split.
  - split; [|split; [split; [done|lia]|]].
    + intros _. split; [done|]. split; [done|]. intros u Hu Hnet.
      by apply (submit_uploads (mkApp _ _ _) f u).
    + rewrite drop_all. split; [lia|discriminate].
Qed.

End Quota.

(** On the sample data: an empty account and a file of exactly 200MB. *)
Lemma quota_check_is_strict_witness :
  LibraryState.storageUsed (library (run (Sample.signed_in Sample.alice)
                                       (Sample.page Sample.fresh_db [])))
  + File.size Sample.brim = 209715200
  ∧ DialogState.file
      (dialog (exec (step (ChangeFile [Sample.brim]))
                 (run (Sample.signed_in Sample.alice) (Sample.page Sample.fresh_db []))))
    = Some Sample.brim.
Proof.
  assert (H : LibraryState.storageUsed
                (library (run (Sample.signed_in Sample.alice)
                            (Sample.page Sample.fresh_db [])))
              + File.size Sample.brim = 209715200) by reflexivity.
  split; [exact H|].
  exact (proj1 (proj1 (proj2 (quota_check_is_strict Sample.brim [] _)) H)).
Defined.

(** * Runs of the application *)

Section Steps.

Implicit Types (s : App) (e : Event).

Lemma run_app (es1 es2 : list Event) s : run (es1 ++ es2) s = run es2 (run es1 s).
Proof. revert s. induction es1 as [|e es1 IH]; intros s; cbn; [done|]. apply IH. Qed.

(** What a handler that only reads leaves of interest to the invariants. *)
Lemma observes_frame s s' :
  observes s s' →
  (∃ t, trace s' = trace s ++ t
        ∧ ∀ bucket path f r, Call (StorageUpload bucket path f) r ∉ t)
  ∧ DialogState.file (dialog s') = DialogState.file (dialog s)
  ∧ books (db (world s')) = books (db (world s)).
Proof.
  intros (Hd & _ & _ & Hg & t & Ht & Hq). split; [|split; congruence].
  exists t. split; [done|]. intros bucket path f r Hin.
  by apply (not_write_in _ _ Hq) in Hin.
Qed.

Lemma framed_still e s s1 :
  trace s1 = trace s →
  DialogState.file (dialog s1) = DialogState.file (dialog s) →
  books (db (world s1)) = books (db (world s)) →
  framed e s s1.
Proof.
  intros Ht Hf Hb. split; [|split; [by left|]].
  - exists []. split; [by rewrite app_nil_r|]. intros ???? Hin. by apply elem_of_nil in Hin.
  - intros b Hin. left. by rewrite <- Hb.
Qed.

Lemma framed_observes e s s1 : observes s s1 → framed e s s1.
Proof.
  intros Hobs. apply observes_frame in Hobs as ((t & Ht & Hno) & Hf & Hb).
  split; [|split; [by left|]].
  - exists t. split; [done|]. intros ???? Hin. by apply Hno in Hin.
  - intros b Hin. left. by rewrite <- Hb.
Qed.

Lemma step_framed e s : framed e s (exec (step e) s).
Proof.
  destruct e as [u| |v|v|files| |book|book|ms].
  - by apply framed_still.
  - unfold step, exec. unfold mbind at 1, M_bind at 1, gets at 1. cbn.
    destruct (LibraryState.user (library s)); [|by apply framed_still].
    rewrite exec_seq. apply framed_observes.
    eapply observes_trans; [apply fetchBooks_observes | apply fetchStorageUsed_observes].
  - by apply framed_still.
  - by apply framed_still.
  - rewrite step_ChangeFile. unfold UploadBookDialog.handleFileChange.
    destruct files as [|f fs]; [by apply framed_still|].
    cbn [Library.dialog_props UploadBookDialog.storageUsed UploadBookDialog.storageLimit].
    case_decide as Hgt.
    + apply framed_observes. unfold_M. cbn. repeat split; auto.
      eexists. split; [reflexivity|]. by repeat constructor.
    + split; [|split].
      * exists []. split; [by rewrite app_nil_r|].
        intros ???? Hin. by apply elem_of_nil in Hin.
      * right; right. exists f, fs. split; [done|]. split; [lia|done].
      * intros b Hin. by left.
  - rewrite step_Submit.
    destruct (handleUpload_run (Library.dialog_props (library s)) s) as
      [s' Hf Ht Hd Hl Hg | f0 e0 s' Hf Hwhy Ht Hd Hl Hg | f0 u0 e0 s' Hf Hu path0 Ht Hd Hl Hg
      | f0 u0 e0 r s' Hf Hu path0 st Ht Hfree Hpol Hb Ho Hl Hg
      | f0 u0 id s4 s' Hf Hu path0 st Ht Hfree Hpol Hsz Hb Ho Ha Hs Hc Hl Hd Hs'].
    + split; [|split; [left; congruence|intros b Hin; left; by rewrite <- Hd]].
      eexists. split; [exact Ht|]. intros ???? Hin. in_list Hin.
    + split; [|split; [left; congruence|intros b Hin; left; by rewrite <- Hd]].
      eexists. split; [exact Ht|]. intros ???? Hin. in_list Hin.
    + split; [|split; [left; congruence|intros b Hin; left; by rewrite <- Hd]].
      eexists. split; [exact Ht|]. intros ???? Hin. in_list Hin. by simplify_eq.
    + split; [|split; [left; congruence|intros b Hin; left; by rewrite <- Hb]].
      eexists. split; [exact Ht|]. intros ???? Hin. in_list Hin. by simplify_eq.
    + pose proof (handleBookUploaded_observes s4) as Hobs.
      change (UploadBookDialog.onBookUploaded _) with Library.handleBookUploaded in Hs'.
      rewrite <- Hs' in Hobs.
      apply observes_frame in Hobs as ((tq & Htq & Hno) & Hfq & Hbq).
      split; [|split].
      * eexists. split; [by rewrite Htq, Ht, <- app_assoc|].
        intros ???? Hin. apply elem_of_app in Hin as [Hin|Hin]; [|by apply Hno in Hin].
        in_list Hin. by simplify_eq.
      * right; left. by rewrite Hfq, Hd.
      * intros b Hin. rewrite Hbq, Hb in Hin.
        apply elem_of_app in Hin as [Hin|Hin]; [by left|right].
        apply list_elem_of_singleton in Hin. eauto 10.
  - unfold step, exec. unfold mbind at 1, M_bind at 1, gets at 1. cbn.
    case_decide; [|by apply framed_still].
    apply framed_observes, handleDownload_observes.
  - unfold step, exec. unfold mbind at 1, M_bind at 1, gets at 1. cbn.
    case_decide; [|by apply framed_still].
    change ((Library.handleDeleteBook book s).2)
      with (exec (Library.handleDeleteBook book) s).
    destruct (handleDeleteBook_run book s) as
      [Hu | e0 s' Ht Hd Hl Hg | r s3 s' Ht Hb Ho Hs Hg Hobs].
    + by apply framed_still.
    + split; [|split; [left; congruence|intros b Hin; left; by rewrite <- Hd]].
      eexists. split; [exact Ht|]. intros ???? Hin. in_list Hin.
    + apply observes_frame in Hobs as ((tq & Htq & Hno) & Hfq & Hbq).
      split; [|split].
      * eexists. split; [by rewrite Htq, Ht, <- app_assoc|].
        intros ???? Hin. apply elem_of_app in Hin as [Hin|Hin]; [|by apply Hno in Hin].
        destruct r; cbn in Hin; in_list Hin.
      * left. by rewrite Hfq, Hg.
      * intros b Hin. rewrite Hbq, Hb in Hin.
        apply list_elem_of_filter in Hin as [_ Hin]. by left.
  - by apply framed_still.
Qed.

End Steps.

Section Runs.

Implicit Types (s : App) (es : list Event).

Lemma run_trace es s : ∃ t, trace (run es s) = trace s ++ t.
Proof.
  revert s. induction es as [|e es IH]; intros s; cbn.
  - exists []. by rewrite app_nil_r.
  - destruct (step_framed e s) as ((t & Ht & _) & _).
    destruct (IH (exec (step e) s)) as (t' & Ht').
    exists (t ++ t'). unfold exec in *. by rewrite Ht', Ht, app_assoc.
Qed.

(** Every upload a run requests is the upload of a file that was held
    when the run began or that passed the quota check at its selection. *)
Lemma uploads_selected es s (Q : File.t → Prop) :
  (∀ f, DialogState.file (dialog s) = Some f → Q f) →
  ∀ bucket path f r,
    Call (StorageUpload bucket path f) r ∈ drop (length (trace s)) (trace (run es s)) →
    Q f ∨ ∃ used, (used, f) ∈ selections es s
                  ∧ used + File.size f <= Library.STORAGE_LIMIT.
Proof.
  revert s Q. induction es as [|e es IH]; intros s Q Hheld bucket path f r Hin.
  - cbn in Hin. rewrite drop_all in Hin. by apply elem_of_nil in Hin.
  - cbn [run selections] in *. fold (exec (step e) s) in *.
    destruct (step_framed e s) as ((t & Ht & Hup) & Hfile & _).
    destruct (run_trace es (exec (step e) s)) as (t' & Ht').
    assert (Ht'' : t' = drop (length (trace (exec (step e) s)))
                          (trace (run es (exec (step e) s)))).
    { by rewrite Ht', drop_app_length. }
    rewrite Ht', Ht, <- app_assoc, drop_app_length in Hin.
    apply elem_of_app in Hin as [Hin|Hin].
    { left. eapply Hheld, Hup, Hin. }
    rewrite Ht'' in Hin.
    set (Q' := λ g, Q g ∨ ∃ fs, e = ChangeFile (g :: fs)
                        ∧ LibraryState.storageUsed (library s) + File.size g
                          <= Library.STORAGE_LIMIT).
    assert (Hheld' : ∀ g, DialogState.file (dialog (exec (step e) s)) = Some g → Q' g).
    { intros g Hg. destruct Hfile as [Hsame|[Hnone|(g' & fs & He & Hle & Hg')]].
      - left. apply Hheld. congruence.
      - congruence.
      - right. exists fs. split; congruence. }
    destruct (IH _ Q' Hheld' _ _ _ _ Hin) as [[HQ|(fs & -> & Hle)]|(used & Hsel & Hle)].
    + by left.
    + right. eexists. split; [|exact Hle]. apply elem_of_app. left. by left.
    + right. exists used. split; [|exact Hle]. apply elem_of_app. by right.
Qed.

(** Every row of the table after a run was there before or results from
    an upload whose path the insert policy of the bucket admitted. *)
Lemma rows_of_run es s (b : Book.t) :
  b ∈ books (db (world (run es s))) →
  b ∈ books (db (world s))
  ∨ ∃ id u now st file,
      b = upload_row id u now st file
      ∧ Sql.objects_insert (Some (User.id u)) "books" (upload_path u now file) = true.
Proof.
  revert s. induction es as [|e es IH]; intros s Hin; cbn in Hin; [by left|].
  apply IH in Hin as [Hin|Hin]; [|by right].
  destruct (step_framed e s) as (_ & _ & Hrows). by apply Hrows.
Qed.

End Runs.

Section QuotaRuns.

(** C1, as the code has it.  A file whose size brings the usage shown to
    more than the limit is turned away when it is selected: the handler
    shows the toast, sends no request, and leaves the selected file, the
    state of [Library] and the platform as they were.  [handleUpload]
    itself does not look at the usage; what holds of a whole run that
    starts without a selected file is that every upload it requests is
    the upload of a file which passed the check, with the usage shown at
    that moment, when it was selected. *)
Theorem quota_checked_at_selection :
  (∀ (f : File.t) (fs : list File.t) (s : App),
     LibraryState.storageUsed (library s) + File.size f > Library.STORAGE_LIMIT →
     let s1 := exec (step (ChangeFile (f :: fs))) s in
     new_effects (step (ChangeFile (f :: fs))) s
     = [ToastError "This file would exceed your storage limit of 200MB"]
     ∧ dialog s1 = dialog s ∧ library s1 = library s
     ∧ db (world s1) = db (world s) ∧ net (world s1) = net (world s))
  ∧ (∀ (es : list Event) (s : App) bucket path (f : File.t) r,
       DialogState.file (dialog s) = None →
       Call (StorageUpload bucket path f) r
         ∈ drop (length (trace s)) (trace (run es s)) →
       ∃ used, (used, f) ∈ selections es s
               ∧ used + File.size f <= Library.STORAGE_LIMIT).
Proof.
  split.
  - intros f fs s Hgt s1. subst s1. unfold new_effects. rewrite step_ChangeFile.
    unfold UploadBookDialog.handleFileChange.
    cbn [Library.dialog_props UploadBookDialog.storageUsed UploadBookDialog.storageLimit].
    case_decide; [|lia]. unfold_M. cbn. by rewrite drop_app_length.
  - intros es s bucket path f r Hnone Hin.
    destruct (uploads_selected es s (λ _, False)) with (2 := Hin) as [[]|H]; [|done].
    intros g Hg. congruence.
Qed.

(** C5.  Rows enter the books table through [handleUpload] only, and each
    row it creates has the path [`${user_id}/${timestamp}.${ext}`], whose
    first segment is the owner of the row: the upload that precedes the
    insert is admitted by the insert policy of the bucket only for such a
    path.  Hence a table whose rows have their owner as first path segment
    keeps this property along every run. *)
Theorem book_paths_namespaced (es : list Event) (s : App) :
  (∀ b, b ∈ books (db (world (run es s))) →
        b ∈ books (db (world s)) ∨ (upload_shaped b ∧ namespaced b))
  ∧ (Forall namespaced (books (db (world s))) →
     Forall namespaced (books (db (world (run es s)))))
  ∧ (∀ (u : User.t) (now : Z) (file : File.t),
       is_uuid (User.id u) = true →
       Sql.foldername (upload_path u now file) !! 0%nat = Some (User.id u)).
Proof.
  split; [|split; [|apply upload_path_folder]]; revert es s;
    [intros es s|intros es s Hinv; apply Forall_forall; intros b Hin;
                 rewrite Forall_forall in Hinv].
  all: cycle 1.
  { apply rows_of_run in Hin as [Hin|(id & u & now & st & file & -> & Hpol)]; [by auto|].
    unfold Sql.objects_insert in Hpol.
    apply own_folder_iff in Hpol as (_ & u' & Hu' & Hfolder).
    unfold namespaced. cbn. congruence. }
  intros b Hin.
  apply rows_of_run in Hin as [Hin|(id & u & now & st & file & -> & Hpol)];
    [by left|right]. split.
  - exists now, (Js.hole (Js.pop (Js.split "." (File.name file)))). reflexivity.
  - unfold Sql.objects_insert in Hpol.
    apply own_folder_iff in Hpol as (_ & u' & Hu' & Hfolder).
    unfold namespaced. cbn. congruence.
Qed.

End QuotaRuns.

(** C1, as the specification has it, fails: here a file is held, the usage
    shown plus its size exceeds the limit, and [Submit] sends its upload,
    which the platform accepts. *)
Lemma upload_sent_over_quota :
  DialogState.file (dialog Sample.late_usage) = Some Sample.notes
  ∧ LibraryState.storageUsed (library Sample.late_usage) + File.size Sample.notes
    > Library.STORAGE_LIMIT
  ∧ Call (StorageUpload "books" Sample.notes_path Sample.notes) None
      ∈ new_effects (step Submit) Sample.late_usage.
Proof. split; [reflexivity|]. split; [reflexivity|by_evaluation]. Qed.

(** On the sample data: Alice selects [moby] on an empty account and
    submits. *)
Lemma quota_checked_at_selection_witness :
  DialogState.file (dialog (Sample.page Sample.fresh_db [])) = None
  ∧ Call (StorageUpload "books" Sample.moby_path Sample.moby) None
      ∈ drop (length (trace (Sample.page Sample.fresh_db [])))
          (trace (run (Sample.signed_in Sample.alice ++ [ChangeFile [Sample.moby]; Submit])
                    (Sample.page Sample.fresh_db [])))
  ∧ ∃ used, (used, Sample.moby)
              ∈ selections (Sample.signed_in Sample.alice ++ [ChangeFile [Sample.moby]; Submit])
                  (Sample.page Sample.fresh_db [])
            ∧ used + File.size Sample.moby <= Library.STORAGE_LIMIT.
Proof.
  assert (H1 : DialogState.file (dialog (Sample.page Sample.fresh_db [])) = None)
    by reflexivity.
  assert (H2 : Call (StorageUpload "books" Sample.moby_path Sample.moby) None
      ∈ drop (length (trace (Sample.page Sample.fresh_db [])))
          (trace (run (Sample.signed_in Sample.alice ++ [ChangeFile [Sample.moby]; Submit])
                    (Sample.page Sample.fresh_db [])))) by by_evaluation.
  split; [exact H1|]. split; [exact H2|].
  exact (proj2 quota_checked_at_selection _ _ _ _ _ _ H1 H2).
Defined.

(** On the sample data: Bob adds [moby] to a table of two rows. *)
Lemma book_paths_namespaced_witness :
  Forall namespaced (books (db (world (Sample.page Sample.stocked_db []))))
  ∧ length (books (db (world (run (Sample.signed_in Sample.bob
                                     ++ [ChangeFile [Sample.moby]; Submit])
                                (Sample.page Sample.stocked_db []))))) = 3%nat
  ∧ Forall namespaced
      (books (db (world (run (Sample.signed_in Sample.bob
                                ++ [ChangeFile [Sample.moby]; Submit])
                           (Sample.page Sample.stocked_db []))))).
Proof.
  assert (H : Forall namespaced (books (db (world (Sample.page Sample.stocked_db [])))))
    by (repeat constructor).
  split; [exact H|]. split; [reflexivity|].
  exact (proj1 (proj2 (book_paths_namespaced _ _)) H).
Defined.

(** * Instances on the sample data *)

(** On the sample data: Alice's one book. *)
Lemma get_user_storage_used_is_sum_witness :
  bigint (size_of_rows_of Sample.alice (books Sample.stocked_db))
  ∧ Sql.get_user_storage_used Sample.alice Sample.stocked_db = Some 209715200.
Proof.
  assert (H : bigint (size_of_rows_of Sample.alice (books Sample.stocked_db)))
    by (unfold bigint; by_evaluation).
  split; [exact H|].
  exact (proj1 (get_user_storage_used_is_sum Sample.alice Sample.stocked_db) H).
Defined.

(** C6, as the specification has it, fails: two rows of Alice, each with
    a [file_size] the column can hold, add up to more than a [bigint]
    holds; the function raises instead of returning the sum, and the
    request of the page fails. *)
Lemma get_user_storage_used_out_of_range :
  Forall (λ b, bigint (Book.file_size b)) (books Sample.vast_db)
  ∧ size_of_rows_of Sample.alice (books Sample.vast_db) = 18446744073709551614
  ∧ Sql.get_user_storage_used Sample.alice Sample.vast_db = None
  ∧ new_effects Library.fetchStorageUsed
      (run [AuthStateChange (Some (User.mk Sample.alice))]
         (Sample.page Sample.vast_db []))
    = [Call (RpcGetUserStorageUsed Sample.alice) (Some OutOfRange)].
Proof.
  split; [repeat constructor; by_evaluation|].
  split; [reflexivity|]. split; reflexivity.
Qed.

(** On the sample data: a table that holds Bob's book only. *)
Lemma get_user_storage_used_no_rows_witness :
  (∀ b, b ∈ books (with_books [Sample.bob_book] Sample.fresh_db) →
        Book.user_id b ≠ Sample.alice)
  ∧ Sql.get_user_storage_used Sample.alice (with_books [Sample.bob_book] Sample.fresh_db)
    = Some 0.
Proof.
  assert (H : ∀ b, b ∈ books (with_books [Sample.bob_book] Sample.fresh_db) →
                   Book.user_id b ≠ Sample.alice).
  { intros b Hin. cbn in Hin. in_list Hin. subst b. discriminate. }
  split; [exact H|].
  exact (proj2 (get_user_storage_used_no_rows _ _ H)).
Defined.

(** On the sample data: Alice signs up on an empty database. *)
Lemma signup_all_or_nothing_witness :
  Sql.signup Sample.alice_identity 1700000000000 "00000003-0000-4000-8000-000000000000"
    empty_database
  = ((Sql.signup Sample.alice_identity 1700000000000
        "00000003-0000-4000-8000-000000000000" empty_database).1, true)
  ∧ profiles (Sql.signup Sample.alice_identity 1700000000000
                "00000003-0000-4000-8000-000000000000" empty_database).1
    = [Profile.mk Sample.alice (Some "alice@example.org") (Some "Alice Liddell")
         1700000000000].
Proof.
  assert (H : Sql.signup Sample.alice_identity 1700000000000
                "00000003-0000-4000-8000-000000000000" empty_database
              = ((Sql.signup Sample.alice_identity 1700000000000
                    "00000003-0000-4000-8000-000000000000" empty_database).1, true))
    by (vm_compute; reflexivity).
  split; [exact H|].
  exact (proj1 (proj2 (proj1 (signup_all_or_nothing _ _ _ _ _ _ H)))).
Defined.

(** On the sample data: Alice asks for the file of Bob's book. *)
Lemma rls_isolation_witness :
  Sample.alice ≠ Sample.bob
  ∧ session (world (run (Sample.signed_in Sample.alice) (Sample.page Sample.stocked_db [])))
    = Some (User.mk Sample.alice)
  ∧ Sql.foldername (Book.file_path Sample.bob_book) !! 0%nat = Some Sample.bob
  ∧ Supabase.storage_download "books" (Book.file_path Sample.bob_book)
      (run (Sample.signed_in Sample.alice) (Sample.page Sample.stocked_db []))
    ≠ (Ok (StorageObject.content (Sample.object_of Sample.bob_book)),
       run (Sample.signed_in Sample.alice) (Sample.page Sample.stocked_db [])).
Proof.
  assert (H1 : Sample.alice ≠ Sample.bob) by discriminate.
  assert (H2 : session (world (run (Sample.signed_in Sample.alice)
                                 (Sample.page Sample.stocked_db [])))
               = Some (User.mk Sample.alice)) by reflexivity.
  assert (H3 : Sql.foldername (Book.file_path Sample.bob_book) !! 0%nat = Some Sample.bob)
    by reflexivity.
  split; [exact H1|]. split; [exact H2|]. split; [exact H3|].
  exact (proj2 (proj2 (proj2 (rls_isolation _ _ _ H1 H2))) _ _ _ _ H3).
Defined.

(** * Further properties of the migration *)

Section SignupMore.

Implicit Types (d : Database) (new : AuthUser.t).

Lemma signup_created new now role_id d d' :
  Sql.signup new now role_id d = (d', true) →
  ¬ Exists (λ u, AuthUser.id u = AuthUser.id new) (auth_users d)
  ∧ ¬ Exists (λ p, Profile.id p = AuthUser.id new) (profiles d)
  ∧ ¬ Exists (λ r, UserRole.id r = role_id) (user_roles d)
  ∧ ¬ Exists (λ r, UserRole.user_id r = AuthUser.id new
                   ∧ UserRole.role r = AppRole.user) (user_roles d)
  ∧ d' = mkDatabase (auth_users d ++ [new]) (profiles d ++ [profile_of new now])
           (user_roles d ++ [role_of new role_id]) (books d) (objects d).
Proof.
  unfold Sql.signup, Sql.insert_auth_user. case_bool_decide as E1; [by intros [=]|].
  destruct (Sql.handle_new_user _ _ _ _) as [d1|] eqn:E; [|by intros [=]].
  intros [= ->]. unfold Sql.handle_new_user in E.
  destruct (Sql.insert_profile _ _) as [d2|] eqn:E2; [|discriminate]. cbn in E.
  apply insert_profile_Some in E2 as [Hp ->].
  apply insert_user_role_Some in E as (Hid & Hr & ->). cbn in *. auto 10.
Qed.

Lemma not_Exists_fmap {A B} (f : A → B) (l : list A) (b : B) :
  ¬ Exists (λ a, f a = b) l ↔ b ∉ f <$> l.
Proof.
  rewrite Exists_exists, list_elem_of_fmap. split; intros H (a & H1 & H2); apply H; eauto.
Qed.

Lemma NoDup_fmap_snoc {A B} (f : A → B) (l : list A) (a : A) :
  NoDup (f <$> l) → f a ∉ f <$> l → NoDup (f <$> (l ++ [a])).
Proof.
  intros Hl Ha. rewrite fmap_app. apply NoDup_app. split; [done|]. split.
  - intros b Hb Hb'. apply list_elem_of_singleton in Hb'. by subst.
  - apply NoDup_singleton.
Qed.

Lemma filter_snoc_other {A} (P : A → Prop) `{!∀ x, Decision (P x)} (l : list A) (x : A) :
  ¬ P x → filter P (l ++ [x]) = filter P l.
Proof. intros Hx. by rewrite filter_app, filter_cons_False, filter_nil, app_nil_r. Qed.

(** One signup attempt keeps the references, the keys and the bootstrap
    rows. *)
Lemma signup_consistent new now role_id d :
  referential d → keys_unique d → bootstrapped d →
  let d' := (Sql.signup new now role_id d).1 in
  referential d' ∧ keys_unique d' ∧ bootstrapped d'.
Proof.
  intros Href Hkeys Hboot.
  destruct (Sql.signup new now role_id d) as [d' created] eqn:E. cbn.
  destruct created.
  2: { unfold Sql.signup in E. by destruct (Sql.insert_auth_user _ _ _ _); simplify_eq. }
  apply signup_created in E as (Hu & Hp & Hid & Hr & ->).
  destruct Href as [Hrp Hrr]. destruct Hkeys as (Ku & Kp & Kr & Kur).
  assert (Hnr : ¬ Exists (λ r, UserRole.user_id r = AuthUser.id new) (user_roles d)).
  { rewrite Exists_exists. intros (r & Hin & Heq).
    rewrite Forall_forall in Hrr. specialize (Hrr r Hin). by rewrite Heq in Hrr. }
  split; [|split].
  - split; cbn.
    + apply Forall_app. split.
      * eapply Forall_impl; [exact Hrp|]. intros p Hx. apply Exists_app. by left.
      * repeat constructor. apply Exists_app. right. by left.
    + apply Forall_app. split.
      * eapply Forall_impl; [exact Hrr|]. intros r Hx. apply Exists_app. by left.
      * repeat constructor. apply Exists_app. right. by left.
  - repeat split; cbn.
    + apply NoDup_fmap_snoc; [done|]. by apply not_Exists_fmap.
    + apply NoDup_fmap_snoc; [done|]. by apply not_Exists_fmap.
    + apply NoDup_fmap_snoc; [done|]. by apply not_Exists_fmap.
    + apply NoDup_fmap_snoc; [done|]. cbn.
      apply (not_Exists_fmap (λ r, (UserRole.user_id r, UserRole.role r))).
      intros Hex. apply Hr. eapply Exists_impl; [exact Hex|]. by intros r [= -> ->].
  - intros u Hin. cbn in *. apply elem_of_app in Hin as [Hin|Hin].
    + destruct (Hboot u Hin) as [[n Hn] [i Hi]].
      assert (Hne : AuthUser.id new ≠ AuthUser.id u).
      { intros Heq. apply Hu, Exists_exists. eauto. }
      split; [exists n|exists i].
      * by rewrite filter_snoc_other.
      * by rewrite filter_snoc_other.
    + apply list_elem_of_singleton in Hin as ->.
      split; [exists now|exists role_id].
      * by apply filter_snoc_first.
      * by apply filter_snoc_first.
Qed.

(** X2.  Signups keep the database consistent: starting from a database
    in which references and keys hold and every identity has its bootstrap
    rows (the empty database is one), after any sequence of signup
    attempts, refused ones included, references and keys still hold, every
    identity has exactly one profile row and exactly one role row, that row
    grants [user], and [has_role] reports [admin] for none of them. *)
Theorem signups_consistent (attempts : list (AuthUser.t * Z * uuid)) d :
  referential d → keys_unique d → bootstrapped d →
  let d' := signups attempts d in
  referential d' ∧ keys_unique d' ∧ bootstrapped d'
  ∧ ∀ u, u ∈ auth_users d' →
         Sql.has_role (AuthUser.id u) AppRole.user d' = true
         ∧ Sql.has_role (AuthUser.id u) AppRole.admin d' = false.
Proof.
  intros Href Hkeys Hboot d'. subst d'.
  assert (Hinv : referential (signups attempts d) ∧ keys_unique (signups attempts d)
                 ∧ bootstrapped (signups attempts d)).
  { revert d Href Hkeys Hboot. unfold signups.
    induction attempts as [|[[new now] role_id] attempts IH]; intros d Href Hkeys Hboot;
      cbn; [done|].
    destruct (signup_consistent new now role_id d Href Hkeys Hboot) as (H1 & H2 & H3).
    by apply IH. }
  destruct Hinv as (H1 & H2 & H3).
  split; [exact H1|]. split; [exact H2|]. split; [exact H3|].
  intros u H. split.
  - apply bool_decide_eq_true. destruct (H3 u H) as [_ [i Hi]].
    assert (Hin : role_of u i ∈ filter (λ r, UserRole.user_id r = AuthUser.id u)
                                 (user_roles (signups attempts d))).
    { rewrite Hi. by left. }
    apply list_elem_of_filter in Hin as [_ Hin]. apply Exists_exists.
    exists (role_of u i). by split.
  - apply bool_decide_eq_false. rewrite Exists_exists. intros (r & Hin & Hu & Hr).
    destruct (H3 u H) as [_ [i Hi]].
    assert (Hin' : r ∈ filter (λ r, UserRole.user_id r = AuthUser.id u)
                         (user_roles (signups attempts d))).
    { by apply list_elem_of_filter. }
    rewrite Hi in Hin'. apply list_elem_of_singleton in Hin'. subst r. discriminate.
Qed.

End SignupMore.

(** * Further properties of the handlers *)

Section UploadMore.

Implicit Types (s : App) (p : UploadBookDialog.Props) (w : World).

Lemma insert_book_fresh user_id title author path size type w w' :
  Platform.insert_book user_id title author path size type w = Ok ((), w') →
  ∃ id, books (db w')
        = books (db w) ++ [Book.mk id user_id title author path size (Some type) None
                             (clock w)]
        ∧ ¬ Exists (λ b, Book.id b = id) (books (db w))
        ∧ Platform.uid w = Some user_id
        ∧ bigint size
        ∧ auth_users (db w') = auth_users (db w)
        ∧ profiles (db w') = profiles (db w)
        ∧ user_roles (db w') = user_roles (db w)
        ∧ objects (db w') = objects (db w)
        ∧ session w' = session w ∧ clock w' = clock w ∧ log w' = log w.
Proof.
  unfold Platform.insert_book.
  destruct (Platform.gen_random_uuid w) as [id w1] eqn:Hid.
  assert (db w1 = db w ∧ session w1 = session w ∧ clock w1 = clock w ∧ log w1 = log w)
    as (Hdb & Hs & Hc & Hl).
  { unfold Platform.gen_random_uuid in Hid. destruct (rng w); by simplify_eq. }
  destruct (Sql.books_insert _ _) eqn:Hpol; [|discriminate]. cbn.
  destruct (bigintb size) eqn:Hbig; [|discriminate]. cbn.
  case_bool_decide as Hfresh; [discriminate|]. case_bool_decide; [|discriminate]. cbn.
  intros [= <-]. exists id. cbn.
  unfold Sql.books_insert in Hpol. cbn in Hpol. apply own_row_iff in Hpol.
  unfold Platform.uid in *. rewrite Hs, Hc, Hdb in *.
  apply andb_true_iff in Hbig as [H1 H2]. apply Z.leb_le in H1. apply Z.ltb_lt in H2.
  unfold bigint. auto 15.
Qed.

(** [handleUpload] once more, branch by branch, for what it leaves of the
    form, the session, the tables and the bucket. *)
Lemma handleUpload_more p s :
  let s' := exec (UploadBookDialog.handleUpload p) s in
  (∃ t, trace s' = trace s ++ t
        ∧ (∀ msg, ToastSuccess msg ∉ t)
        ∧ session (world s') = session (world s)
        ∧ clock (world s') = clock (world s)
        ∧ books (db (world s')) = books (db (world s))
        ∧ library s' = library s
        ∧ (DialogState.file (dialog s) = None ∧ dialog s' = dialog s
           ∨ DialogState.file (dialog s) ≠ None
             ∧ dialog s' = DialogState.mk (DialogState.title (dialog s))
                             (DialogState.author (dialog s))
                             (DialogState.file (dialog s)) false)
        ∧ (objects (db (world s')) = objects (db (world s))
           ∨ ∃ u file,
               session (world s) = Some u
               ∧ DialogState.file (dialog s) = Some file
               ∧ Sql.objects_insert (Some (User.id u)) "books"
                   (upload_path u (clock (world s)) file) = true
               ∧ objects (db (world s'))
                 = <[("books", upload_path u (clock (world s)) file)
                     := StorageObject.mk (User.id u) file]> (objects (db (world s)))))
  ∨ (∃ s4 id u file,
       s' = exec (UploadBookDialog.onBookUploaded p) s4
       ∧ DialogState.file (dialog s) = Some file
       ∧ session (world s) = Some u
       ∧ trace s4 = trace s ++ [Call AuthGetUser None;
                                Call (StorageUpload "books"
                                        (upload_path u (clock (world s)) file) file) None;
                                Call (BooksInsert (User.id u) (DialogState.title (dialog s))
                                        (Js.or_null (DialogState.author (dialog s)))
                                        (upload_path u (clock (world s)) file)
                                        (File.size file) (File.type file)) None;
                                ToastSuccess "Book uploaded successfully!"]
       ∧ session (world s4) = session (world s)
       ∧ clock (world s4) = clock (world s)
       ∧ books (db (world s4))
         = books (db (world s)) ++ [upload_row id u (clock (world s)) (dialog s) file]
       ∧ ¬ Exists (λ b, Book.id b = id) (books (db (world s)))
       ∧ Sql.objects_insert (Some (User.id u)) "books"
           (upload_path u (clock (world s)) file) = true
       ∧ objects (db (world s)) !! ("books", upload_path u (clock (world s)) file) = None
       ∧ objects (db (world s4))
         = <[("books", upload_path u (clock (world s)) file)
             := StorageObject.mk (User.id u) file]> (objects (db (world s)))
       ∧ library s4 = library s
       ∧ dialog s4 = DialogState.initial
       ∧ File.size file <= file_size_limit).
Proof.
  unfold UploadBookDialog.handleUpload. unfold_M. cbn.
  destruct (DialogState.file (dialog s)) as [file|] eqn:Hfile; cbn.
  2: { left. eexists. split; [reflexivity|]. repeat split; auto.
       intros msg Hin. in_list Hin. }
  unfold Supabase.auth_getUser, Supabase.storage_upload, Supabase.books_insert,
    Supabase.storage_remove. unfold_M.
  next_call E1 u0 w1; cbn in *.
  2: { left. eexists. split; [solve_log|]. world_simpl. repeat split; auto.
       - intros msg Hin. in_list Hin.
       - right. by rewrite Hfile. }
  apply getUser_Ok in E1 as [Hu ->]. autorewrite with world in Hu.
  next_call E2 d2 w2; cbn in *.
  2: { left. eexists. split; [solve_log|]. world_simpl. repeat split; auto.
       - intros msg Hin. in_list Hin.
       - right. by rewrite Hfile. }
  destruct d2. apply upload_Ok in E2 as (_ & Hsz & u & Huid & Hpol & Hfree & ->).
  world_simpl.
  unfold Platform.uid in Huid. rewrite Hu in Huid. cbn in Huid. simplify_eq.
  next_call E3 d3 w3; cbn in *.
  - right. destruct d3.
    apply insert_book_fresh in E3
      as (id & Hb & Hfresh & _ & _ & Ha & Hp & Hr & Ho & Hs & Hc & Hl).
    world_simpl.
    eexists _, id, u0, file. split; [reflexivity|].
    repeat split; try solve_log; world_simpl; auto; try congruence.
  - world_simpl. left. next_call E4 d4 w4; world_simpl.
    + unfold Platform.remove in E4. simplify_eq.
      eexists. split; [solve_log|]. world_simpl. repeat split; auto.
      * intros msg Hin. in_list Hin.
      * right. by rewrite Hfile.
      * left. unfold Platform.uid. world_simpl. rewrite Hu. cbn.
        rewrite remove_one_objects by done. by rewrite delete_insert_eq, delete_id.
    + eexists. split; [solve_log|]. world_simpl. repeat split; auto.
      * intros msg Hin. in_list Hin.
      * right. by rewrite Hfile.
      * right. exists u0, file. auto.
Qed.

End UploadMore.

(** * File names and object paths *)

Section Names.

Implicit Types (sep : ascii) (s a b e : string).

Lemma append_assoc a b e : (a +:+ b) +:+ e = a +:+ (b +:+ e).
Proof.
  induction a as [|c a IH]; [done|].
  change (String c ((a +:+ b) +:+ e) = String c (a +:+ (b +:+ e))). by f_equal.
Qed.

Lemma split_cons_sep sep s : Js.split sep (String sep s) = "" :: Js.split sep s.
Proof. cbn. by rewrite decide_True. Qed.

Lemma split_cons_other sep (c : ascii) s :
  c ≠ sep →
  ∃ h t, Js.split sep s = h :: t ∧ Js.split sep (String c s) = String c h :: t.
Proof.
  intros Hc. destruct (Js.split sep s) as [|h t] eqn:E; [by apply split_nonempty in E|].
  exists h, t. split; [done|]. cbn. by rewrite decide_False, E.
Qed.

(** Splitting distributes over a separator in the middle. *)
Lemma split_app sep a b :
  Js.split sep (a +:+ String sep b) = Js.split sep a ++ Js.split sep b.
Proof.
  induction a as [|c a IH].
  - change (Js.split sep (String sep b) = [""] ++ Js.split sep b). apply split_cons_sep.
  - change (Js.split sep (String c (a +:+ String sep b))
            = Js.split sep (String c a) ++ Js.split sep b).
    destruct (decide (c = sep)) as [->|Hc].
    + by rewrite !split_cons_sep, IH.
    + destruct (split_cons_other sep c a Hc) as (h & t & Ha & ->).
      destruct (split_cons_other sep c (a +:+ String sep b) Hc) as (h' & t' & Hab & ->).
      rewrite IH, Ha in Hab. cbn in Hab. by simplify_eq.
Qed.

Lemma split_whole sep s : Js.occurs sep s = false → Js.split sep s = [s].
Proof.
  induction s as [|c s IH]; cbn; [done|]. intros [Hc Hs]%orb_false_iff.
  apply bool_decide_eq_false in Hc. by rewrite decide_False, (IH Hs).
Qed.

Lemma split_parts sep s : Forall (λ x, Js.occurs sep x = false) (Js.split sep s).
Proof.
  induction s as [|c s IH]; [by repeat constructor|].
  destruct (decide (c = sep)) as [->|Hc].
  - rewrite split_cons_sep. by constructor.
  - destruct (split_cons_other sep c s Hc) as (h & t & Hs & ->).
    rewrite Hs in IH. apply Forall_cons in IH as [Hh Ht].
    constructor; [|done]. cbn. rewrite Hh, orb_false_r. by apply bool_decide_eq_false.
Qed.

Lemma join_cons sep (x y : string) (l : list string) :
  join_with sep (x :: y :: l) = x +:+ String sep (join_with sep (y :: l)).
Proof. reflexivity. Qed.

Lemma join_split sep s : join_with sep (Js.split sep s) = s.
Proof.
  induction s as [|c s IH]; [done|].
  destruct (decide (c = sep)) as [->|Hc].
  - rewrite split_cons_sep.
    destruct (Js.split sep s) as [|h t] eqn:E; [by apply split_nonempty in E|].
    by rewrite join_cons, IH.
  - destruct (split_cons_other sep c s Hc) as (h & t & Hs & ->).
    rewrite Hs in IH. destruct t as [|h' t].
    + cbn in *. by subst.
    + rewrite join_cons in *. by rewrite <- IH.
Qed.

Lemma join_snoc sep (l : list string) e :
  l ≠ [] → join_with sep (l ++ [e]) = join_with sep l +:+ String sep e.
Proof.
  induction l as [|x l IH]; [done|]. intros _.
  destruct l as [|y l]; [done|].
  change ((x :: y :: l) ++ [e]) with (x :: y :: (l ++ [e])).
  rewrite !join_cons. change (y :: l ++ [e]) with ((y :: l) ++ [e]).
  rewrite IH by done. by rewrite append_assoc.
Qed.

Lemma file_ext_parts (name : string) :
  ∃ ext, Js.pop (Js.split "." name) = Some ext ∧ Js.occurs "." ext = false.
Proof.
  unfold Js.pop.
  destruct (Js.split "." name) as [|h t] eqn:E using rev_ind;
    [by apply split_nonempty in E|]. clear IHt.
  exists h. rewrite last_snoc. split; [done|].
  pose proof (split_parts "." name) as Hparts. rewrite E in Hparts.
  apply Forall_app in Hparts as [_ Hh]. by apply Forall_cons in Hh as [Hh _].
Qed.

(** X3.  [name.split(".").pop()] is never undefined: it is the part of the
    name after its last dot, the whole name when there is no dot, and it
    contains no dot itself. *)
Theorem file_ext_is_last_segment (name : string) :
  ∃ ext, Js.pop (Js.split "." name) = Some ext
         ∧ Js.occurs "." ext = false
         ∧ (name = ext ∧ Js.occurs "." name = false
            ∨ ∃ stem, name = stem +:+ "." +:+ ext).
Proof.
  unfold Js.pop.
  destruct (Js.split "." name) as [|h t] eqn:E using rev_ind;
    [by apply split_nonempty in E|]. clear IHt.
  exists h. rewrite last_snoc. split; [done|].
  pose proof (split_parts "." name) as Hparts. rewrite E in Hparts.
  apply Forall_app in Hparts as [_ Hh]. apply Forall_cons in Hh as [Hh _].
  split; [done|].
  pose proof (join_split "." name) as Hj. rewrite E in Hj.
  destruct t as [|x t].
  - left. cbn in Hj. by subst.
  - right. rewrite join_snoc in Hj by done. eauto.
Qed.

(** X4.  The extension [handleDownload] appends to the title is the
    extension [handleUpload] took from the name of the file: the last
    dot-segment of the object path is the last dot-segment of the file
    name, whatever the user id, the time and the name. *)
Theorem download_extension_is_upload_extension (u : User.t) (now : Z) (file : File.t) :
  Js.pop (Js.split "." (upload_path u now file)) = Js.pop (Js.split "." (File.name file)).
Proof.
  destruct (file_ext_parts (File.name file)) as (ext & Hext & Hdot).
  unfold upload_path. rewrite Hext. change (Js.hole (Some ext)) with ext.
  assert (Hp : User.id u +:+ "/" +:+ Js.number now +:+ "." +:+ ext
               = (User.id u +:+ "/" +:+ Js.number now) +:+ String "." ext).
  { by rewrite !append_assoc. }
  rewrite Hp, split_app, (split_whole _ _ Hdot).
  unfold Js.pop. by rewrite last_snoc.
Qed.

End Names.

(** * Reading: download, list, usage *)

Section Reads.

Implicit Types (s : App) (w : World).

Lemma download_Ok bucket path w data w' :
  Platform.download bucket path w = Ok (data, w') →
  w' = w
  ∧ Sql.objects_select (Platform.uid w) bucket path = true
  ∧ ∃ o, objects (db w) !! (bucket, path) = Some o ∧ StorageObject.content o = data.
Proof.
  unfold Platform.download. destruct (objects (db w) !! (bucket, path)) as [o|]; [|done].
  destruct (Sql.objects_select _ _ _); [|done]. intros [= <- <-]. eauto.
Qed.

Lemma download_Err bucket path w e :
  Platform.download bucket path w = Err e →
  objects (db w) !! (bucket, path) = None
  ∨ Sql.objects_select (Platform.uid w) bucket path = false.
Proof.
  unfold Platform.download. destruct (objects (db w) !! (bucket, path)) as [o|]; [|by left].
  destruct (Sql.objects_select _ _ _); [done|by right].
Qed.

Lemma handleDownload_cases (book : Book.t) s :
  let s' := exec (BookCard.handleDownload book) s in
  let path := Book.file_path book in
  db (world s') = db (world s) ∧ session (world s') = session (world s)
  ∧ library s' = library s ∧ dialog s' = dialog s
  ∧ ((∃ o, objects (db (world s)) !! ("books", path) = Some o
           ∧ Sql.objects_select (Platform.uid (world s)) "books" path = true
           ∧ (Supabase.deliver (world s)).1 = true
           ∧ trace s' = trace s ++ [Call (StorageDownload "books" path) None;
                                    SaveFile (saved_name book) (StorageObject.content o);
                                    ToastSuccess "Book downloaded successfully"])
     ∨ (∃ e, (objects (db (world s)) !! ("books", path) = None
              ∨ Sql.objects_select (Platform.uid (world s)) "books" path = false
              ∨ (Supabase.deliver (world s)).1 = false)
             ∧ trace s' = trace s ++ [Call (StorageDownload "books" path) (Some e);
                                      ToastError "Failed to download book"])).
Proof.
  unfold BookCard.handleDownload, Supabase.storage_download. unfold_M. cbn.
  destruct (Supabase.call _ _ s) as [[data|e] s1] eqn:E.
  - pose proof E as E'. apply call_Ok in E as (w & Hnet & E & ->).
    apply download_Ok in E as (-> & Hpol & o & Ho & <-).
    world_simpl. repeat split; auto. left. exists o. repeat split; auto. solve_log.
  - apply call_Err in E as [E ->]. world_simpl. repeat split; auto. right. exists e.
    split; [|solve_log].
    destruct E as [E|E]; [auto|]. apply download_Err in E. world_simpl. tauto.
Qed.

(** X5.  [handleDownload] saves a file only when the download succeeded:
    the data saved is the content of the object stored under the path of
    the book, an object the select policy admits for the caller, and the
    name is the title, a dot, and the last dot-segment of the path; the
    success toast follows.  When the error toast is shown, nothing is
    saved.  In no case does the handler change the platform. *)
Theorem handleDownload_saves (book : Book.t) s :
  let s' := exec (BookCard.handleDownload book) s in
  let t := new_effects (BookCard.handleDownload book) s in
  db (world s') = db (world s)
  ∧ (∀ name data,
       SaveFile name data ∈ t →
       name = saved_name book
       ∧ (∃ o, objects (db (world s)) !! ("books", Book.file_path book) = Some o
               ∧ StorageObject.content o = data)
       ∧ Sql.objects_select (Platform.uid (world s)) "books" (Book.file_path book) = true
       ∧ ToastSuccess "Book downloaded successfully" ∈ t)
  ∧ (∀ msg, ToastError msg ∈ t → ∀ name data, SaveFile name data ∉ t).
Proof.
  intros s' t. subst s' t. unfold new_effects.
  destruct (handleDownload_cases book s)
    as (Hdb & _ & _ & _ & [(o & Ho & Hpol & _ & Ht)|(e & _ & Ht)]);
    rewrite Ht, drop_app_length; (split; [done|]); split.
  - intros name data Hin. in_list Hin. simplify_eq. repeat split; eauto.
    by right; right; left.
  - intros msg Hin. in_list Hin.
  - intros name data Hin. in_list Hin.
  - intros msg _ name data Hin. in_list Hin.
Qed.

(** X6.  Upload, then read.  After an upload that reports success, a click
    on Read for the new row, if the request gets through, saves exactly the
    file that was uploaded, under the title typed and the extension of the
    original file name. *)
Theorem download_after_upload (l : LibraryState.t) s :
  let p := Library.dialog_props l in
  let s' := exec (UploadBookDialog.handleUpload p) s in
  ToastSuccess "Book uploaded successfully!"
    ∈ new_effects (UploadBookDialog.handleUpload p) s →
  ∃ row file,
    DialogState.file (dialog s) = Some file
    ∧ books (db (world s')) = books (db (world s)) ++ [row]
    ∧ ((Supabase.deliver (world s')).1 = true →
       new_effects (BookCard.handleDownload row) s'
       = [Call (StorageDownload "books" (Book.file_path row)) None;
          SaveFile (DialogState.title (dialog s) +:+ "." +:+
                      Js.hole (Js.pop (Js.split "." (File.name file)))) file;
          ToastSuccess "Book downloaded successfully"]).
Proof.
  intros p s'. subst s'. unfold new_effects at 1.
  destruct (handleUpload_more p s)
    as [(t & Ht & Hno & _)
       |(s4 & id & u & file & -> & Hf & Hu & Ht & Hs & Hc & Hb & _ & Hpol & _ & Ho & _)].
  { rewrite Ht, drop_app_length. intros Hin. by apply Hno in Hin. }
  intros _. change (UploadBookDialog.onBookUploaded p) with Library.handleBookUploaded.
  destruct (handleBookUploaded_observes s4) as (Hdb & Hsess & _).
  set (s' := exec Library.handleBookUploaded s4) in *.
  set (row := upload_row id u (clock (world s)) (dialog s) file).
  exists row, file. split; [done|]. split; [by rewrite Hdb|].
  intros Hnet. unfold new_effects.
  assert (Hext : Js.pop (Js.split "." (Book.file_path row))
                 = Js.pop (Js.split "." (File.name file))).
  { destruct (file_ext_parts (File.name file)) as (ext & Hext & Hdot).
    cbn. unfold upload_path. rewrite Hext. change (Js.hole (Some ext)) with ext.
    assert (Hp : User.id u +:+ "/" +:+ Js.number (clock (world s)) +:+ "." +:+ ext
                 = (User.id u +:+ "/" +:+ Js.number (clock (world s))) +:+ String "." ext).
    { by rewrite !append_assoc. }
    rewrite Hp, split_app, (split_whole _ _ Hdot). unfold Js.pop. by rewrite last_snoc. }
  destruct (handleDownload_cases row s')
    as (_ & _ & _ & _ & [(o & Hobj & _ & _ & Ht')|(e & Hwhy & _)]).
  - rewrite Ht', drop_app_length. unfold saved_name. rewrite Hext.
    rewrite Hdb, Ho in Hobj. cbn in Hobj. rewrite lookup_insert_eq in Hobj.
    by simplify_eq.
  - exfalso. rewrite Hdb, Ho in Hwhy. cbn in Hwhy. rewrite lookup_insert_eq in Hwhy.
    unfold Platform.uid in Hwhy. rewrite Hsess, Hs, Hu in Hwhy. cbn in Hwhy.
    unfold Sql.objects_select in Hwhy. unfold Sql.objects_insert in Hpol.
    destruct Hwhy as [?|[?|?]]; congruence.
Qed.

End Reads.

Section Fetches.

Implicit Types (s : App) (w : World) (rows : list Book.t).



Lemma listed_deliver (queried : uuid) w :
  listed queried (Supabase.deliver w).2 = listed queried w.
Proof.
  unfold listed, Platform.select_books. by rewrite deliver_uid, deliver_db.
Qed.


Lemma fetchBooks_cases s (u : User.t) :
  LibraryState.user (library s) = Some u →
  let s' := exec Library.fetchBooks s in
  db (world s') = db (world s) ∧ session (world s') = session (world s)
  ∧ dialog s' = dialog s
  ∧ LibraryState.user (library s') = Some u
  ∧ LibraryState.storageUsed (library s') = LibraryState.storageUsed (library s)
  ∧ LibraryState.uploadDialogOpen (library s') = LibraryState.uploadDialogOpen (library s)
  ∧ LibraryState.loading (library s') = false
  ∧ (if (Supabase.deliver (world s)).1
     then trace s' = trace s ++ [Call (BooksSelect (User.id u)) None]
          ∧ LibraryState.books (library s')
            = Supabase.row_of_json <$> listed (User.id u) (world s)
     else trace s' = trace s ++ [Call (BooksSelect (User.id u)) (Some NetworkError);
                                 ToastError "Failed to load books"]
          ∧ LibraryState.books (library s') = LibraryState.books (library s)).
Proof.
  intros Hu. unfold Library.fetchBooks, Supabase.books_select_eq_user_id. unfold_M. cbn.
  rewrite Hu. cbn. unfold Supabase.call.
  destruct (Supabase.deliver (world s)) as [ok w] eqn:E.
  assert (Hw : w = (Supabase.deliver (world s)).2) by by rewrite E.
  destruct ok; cbn; subst w; world_simpl; repeat split; auto; try solve_log.
Qed.

Lemma fetchStorageUsed_cases s (u : User.t) :
  LibraryState.user (library s) = Some u →
  let s' := exec Library.fetchStorageUsed s in
  db (world s') = db (world s) ∧ session (world s') = session (world s)
  ∧ dialog s' = dialog s
  ∧ LibraryState.user (library s') = Some u
  ∧ LibraryState.books (library s') = LibraryState.books (library s)
  ∧ LibraryState.uploadDialogOpen (library s') = LibraryState.uploadDialogOpen (library s)
  ∧ LibraryState.loading (library s') = LibraryState.loading (library s)
  ∧ ∃ r, trace s' = trace s ++ [Call (RpcGetUserStorageUsed (User.id u)) r]
         ∧ match r with
           | None =>
               (Supabase.deliver (world s)).1 = true
               ∧ ∃ total,
                   Sql.get_user_storage_used (User.id u) (db (world s)) = Some total
                   ∧ LibraryState.storageUsed (library s') = Js.json_number total
           | Some e =>
               LibraryState.storageUsed (library s') = LibraryState.storageUsed (library s)
               ∧ ((Supabase.deliver (world s)).1 = false ∧ e = NetworkError
                  ∨ (Supabase.deliver (world s)).1 = true ∧ e = OutOfRange
                    ∧ Sql.get_user_storage_used (User.id u) (db (world s)) = None)
           end.
Proof.
  intros Hu. unfold Library.fetchStorageUsed, Supabase.rpc_get_user_storage_used.
  unfold_M. cbn. rewrite Hu. cbn. unfold Supabase.call, Platform.get_user_storage_used.
  destruct (Supabase.deliver (world s)) as [ok w] eqn:E.
  assert (Hw : w = (Supabase.deliver (world s)).2) by by rewrite E.
  destruct ok; cbn; subst w; world_simpl.
  - destruct (Sql.get_user_storage_used (User.id u) (db (world s))) as [total|] eqn:Hget;
      cbn; world_simpl; repeat split; auto.
    + exists None. split; [solve_log|]. split; [done|]. by exists total.
    + exists (Some OutOfRange). split; [solve_log|]. split; [done|]. right. auto.
  - repeat split; auto. exists (Some NetworkError). split; [solve_log|]. split; [done|].
    left. auto.
Qed.




(** X8.  [fetchStorageUsed] with a user in [Library]: when the request gets
    through and the sum of [file_size] over the rows of this user is a
    [bigint], the usage shown becomes that sum as a Number, which is the
    sum itself when it is a safe integer, whoever holds the session (the
    function is [security definer] and no policy applies).  When the sum
    is not a [bigint] the request fails.  When the request fails, the
    usage shown stays as it was and nothing but the request is logged: no
    notification. *)
Theorem fetchStorageUsed_shows s (u : User.t) :
  LibraryState.user (library s) = Some u →
  let s' := exec Library.fetchStorageUsed s in
  let t := new_effects Library.fetchStorageUsed s in
  let total := size_of_rows_of (User.id u) (books (db (world s))) in
  (Call (RpcGetUserStorageUsed (User.id u)) None ∈ t →
   bigint total
   ∧ LibraryState.storageUsed (library s') = Js.json_number total
   ∧ (Z.abs total <= Js.MAX_SAFE_INTEGER →
      LibraryState.storageUsed (library s') = total))
  ∧ (∀ e, Call (RpcGetUserStorageUsed (User.id u)) (Some e) ∈ t →
          LibraryState.storageUsed (library s') = LibraryState.storageUsed (library s)
          ∧ t = [Call (RpcGetUserStorageUsed (User.id u)) (Some e)])
  ∧ (¬ bigint total → ∃ e, Call (RpcGetUserStorageUsed (User.id u)) (Some e) ∈ t).
Proof.
  intros Hu s' t total. subst s' t total. unfold new_effects.
  destruct (fetchStorageUsed_cases s u Hu) as (_ & _ & _ & _ & _ & _ & _ & r & Ht & Hr).
  rewrite Ht, drop_app_length. destruct r as [e0|].
  - destruct Hr as [Hv _]. split; [|split].
    + intros Hin. in_list Hin.
    + intros e Hin. in_list Hin. by simplify_eq.
    + intros _. exists e0. by left.
  - destruct Hr as (_ & total & Hget & Hv).
    rewrite storage_used_as_sum in Hget. apply to_bigint_Some in Hget as [-> Hbig].
    split; [|split].
    + intros _. split; [done|]. split; [done|]. intros Hsafe.
      by rewrite Hv, json_number_exact.
    + intros e Hin. in_list Hin.
    + intros Hno. by destruct Hno.
Qed.

End Fetches.

(** * What the page changes on the platform *)

Section Changes.

Implicit Types (s : App) (e : Event).

Lemma changes_none s s' : db (world s') = db (world s) → changes s s'.
Proof. intros H. split; left; by rewrite H. Qed.

Lemma observes_session s s' : observes s s' → session (world s') = session (world s).
Proof. by intros (_ & H & _). Qed.

Lemma observes_db s s' : observes s s' → db (world s') = db (world s).
Proof. by intros (H & _). Qed.

Lemma handleDeleteBook_session (book : Book.t) s :
  session (world (exec (Library.handleDeleteBook book) s)) = session (world s).
Proof.
  unfold Library.handleDeleteBook.
  unfold mbind at 1, M_bind at 1, gets at 1, exec. cbn.
  destruct (LibraryState.user (library s)) as [u|] eqn:Hu; cbn; [|done].
  unfold Supabase.books_delete_eq_id, mbind at 1, M_bind at 1.
  next_call E1 d1 w1.
  2: { unfold_M. by world_simpl. }
  unfold Platform.delete_book in E1. simplify_eq.
  unfold Supabase.storage_remove, mbind at 1, M_bind at 1.
  next_call E2 d2 w2.
  - unfold Platform.remove in E2. simplify_eq. rewrite !(exec_seq (A:=())).
    etransitivity; [exact (observes_session _ _ (fetchStorageUsed_observes _))|].
    etransitivity; [exact (observes_session _ _ (fetchBooks_observes _))|].
    unfold_M. by world_simpl.
  - rewrite !(exec_seq (A:=())).
    etransitivity; [exact (observes_session _ _ (fetchStorageUsed_observes _))|].
    etransitivity; [exact (observes_session _ _ (fetchBooks_observes _))|].
    unfold_M. by world_simpl.
Qed.

Lemma step_UserEffect s :
  exec (step UserEffect) s
  = match LibraryState.user (library s) with
    | Some _ => exec Library.fetchStorageUsed (exec Library.fetchBooks s)
    | None => s
    end.
Proof.
  unfold step, exec. unfold mbind at 1, M_bind at 1, gets at 1. cbn.
  destruct (LibraryState.user (library s)); [|done]. by rewrite exec_seq.
Qed.

Lemma step_ClickRead (book : Book.t) s :
  exec (step (ClickRead book)) s
  = if decide (book ∈ LibraryState.books (library s))
    then exec (BookCard.handleDownload book) s else s.
Proof.
  unfold step, exec. unfold mbind at 1, M_bind at 1, gets at 1. cbn. by case_decide.
Qed.

Lemma step_ClickDelete (book : Book.t) s :
  exec (step (ClickDelete book)) s
  = if decide (book ∈ LibraryState.books (library s))
    then exec (Library.handleDeleteBook book) s else s.
Proof.
  unfold step, exec. unfold mbind at 1, M_bind at 1, gets at 1. cbn. by case_decide.
Qed.

(** One event, for the table, the bucket and the session. *)
Lemma step_changes e s :
  changes s (exec (step e) s)
  ∧ ((∀ u, e ≠ AuthStateChange u) →
     session (world (exec (step e) s)) = session (world s)).
Proof.
  destruct e as [u| |v|v|files| |book|book|ms].
  - split; [by apply changes_none|]. intros H. by destruct (H u).
  - rewrite step_UserEffect.
    destruct (LibraryState.user (library s)); [|split; [by apply changes_none|done]].
    pose proof (observes_trans _ _ _ (fetchBooks_observes s)
                  (fetchStorageUsed_observes _)) as Hobs.
    split; [apply changes_none, (observes_db _ _ Hobs)|].
    intros _. exact (observes_session _ _ Hobs).
  - split; [by apply changes_none|done].
  - split; [by apply changes_none|done].
  - rewrite step_ChangeFile. unfold UploadBookDialog.handleFileChange.
    destruct files as [|f fs]; [split; [by apply changes_none|done]|].
    case_decide; unfold_M; cbn; (split; [by apply changes_none|done]).
  - rewrite step_Submit.
    destruct (handleUpload_more (Library.dialog_props (library s)) s)
      as [(t & _ & _ & Hs & _ & Hb & _ & _ & Ho)
         |(s4 & id & u & file & -> & Hf & Hu & _ & Hs & _ & Hb & Hfresh & Hpol & _ & Ho & _)].
    + split; [|done]. split; [by left|].
      destruct Ho as [Ho|(u & file & Hu & _ & Hpol & Ho)]; [by left|].
      right; left. eauto 10.
    + change (UploadBookDialog.onBookUploaded _) with Library.handleBookUploaded.
      pose proof (handleBookUploaded_observes s4) as Hobs.
      rewrite (observes_session _ _ Hobs). split; [|done].
      split; rewrite (observes_db _ _ Hobs).
      * right; left. exists (upload_row id u (clock (world s)) (dialog s) file), u.
        by repeat split.
      * right; left. eauto 10.
  - rewrite step_ClickRead. case_decide; [|split; [by apply changes_none|done]].
    pose proof (handleDownload_observes book s) as Hobs.
    split; [apply changes_none, (observes_db _ _ Hobs)|].
    intros _. exact (observes_session _ _ Hobs).
  - rewrite step_ClickDelete. case_decide; [|split; [by apply changes_none|done]].
    split; [|intros _; apply handleDeleteBook_session].
    destruct (handleDeleteBook_run book s) as
      [Hu | e0 s' Ht Hd Hl Hg | r s3 s' Ht Hb Ho Hs Hg Hobs].
    + by apply changes_none.
    + by apply changes_none.
    + rewrite <- (observes_db _ _ Hobs) in Hb, Ho. split.
      * right; right. eauto.
      * destruct r; [by left|right; right; eauto].
  - split; [by apply changes_none|done].
Qed.

End Changes.

Section Integrity.

Implicit Types (s : App) (e : Event) (es : list Event) (B : uuid).

Lemma filter_filter_impl {A} (P Q : A → Prop) `{!∀ x, Decision (P x)}
    `{!∀ x, Decision (Q x)} (l : list A) :
  (∀ x, P x → Q x) → filter P (filter Q l) = filter P l.
Proof.
  intros HPQ. induction l as [|x l IH]; [done|].
  destruct (decide (P x)) as [HP|HP].
  - rewrite (filter_cons_True Q) by auto. by rewrite !(filter_cons_True P), IH.
  - rewrite (filter_cons_False P) by done.
    destruct (decide (Q x)).
    + rewrite (filter_cons_True Q) by done. by rewrite (filter_cons_False P).
    + by rewrite (filter_cons_False Q).
Qed.

Lemma filter_all {A} (Q : A → Prop) `{!∀ x, Decision (Q x)} (l : list A) :
  (∀ x, Q x) → filter Q l = l.
Proof.
  intros HQ. induction l as [|x l IH]; [done|]. by rewrite filter_cons_True, IH.
Qed.

(** One step leaves alone what belongs to somebody else than the session. *)
Lemma changes_foreign B s s' :
  changes s s' → Platform.uid (world s) ≠ Some B →
  filter (λ b, Book.user_id b = B) (books (db (world s')))
  = filter (λ b, Book.user_id b = B) (books (db (world s)))
  ∧ ∀ bucket name,
      Sql.foldername name !! 0%nat = Some B →
      objects (db (world s')) !! (bucket, name) = objects (db (world s)) !! (bucket, name).
Proof.
  intros [Hb Ho] HB. split.
  - destruct Hb as [->|[(row & u & Hu & Hrow & _ & ->)|(id & ->)]]; [done| |].
    + apply filter_snoc_other. intros Heq. apply HB.
      unfold Platform.uid. rewrite Hu. cbn. congruence.
    + apply filter_filter_impl. intros b Hb [_ Hown].
      unfold Sql.books_delete in Hown. apply Is_true_true, own_row_iff in Hown.
      congruence.
  - intros bucket name Hname.
    destruct Ho as [->|[(u & path & o & Hu & Hpol & ->)|(path & ->)]]; [done| |].
    + apply lookup_insert_ne. intros [= <- <-].
      apply own_folder_iff in Hpol as (_ & v & [= <-] & Hv).
      apply HB. unfold Platform.uid. rewrite Hu. cbn. congruence.
    + unfold Platform.remove_one.
      destruct (Sql.objects_delete _ _ _) eqn:Hpol; [|done].
      apply lookup_delete_ne. intros [= <- <-].
      apply own_folder_iff in Hpol as (_ & v & Hv & Hv'). congruence.
Qed.

(** X10.  Write isolation.  Along a run in which [B] holds the session
    neither at the start nor after any sign-in, nothing the page does
    touches what is B's: the rows of B in the books table and the objects
    in B's folder, in any bucket, are after the run what they were before,
    whatever was uploaded, deleted or left half done in between. *)
Theorem write_isolation B es s :
  Platform.uid (world s) ≠ Some B →
  Forall (foreign_to B) es →
  filter (λ b, Book.user_id b = B) (books (db (world (run es s))))
  = filter (λ b, Book.user_id b = B) (books (db (world s)))
  ∧ ∀ bucket name,
      Sql.foldername name !! 0%nat = Some B →
      objects (db (world (run es s))) !! (bucket, name)
      = objects (db (world s)) !! (bucket, name).
Proof.
  intros HB Hes. revert s HB. induction Hes as [|e es He Hes IH]; intros s HB; [done|].
  cbn [run]. fold (exec (step e) s).
  destruct (step_changes e s) as [Hch Hsess].
  destruct (changes_foreign B _ _ Hch HB) as [Hrows Hobjs].
  assert (HB' : Platform.uid (world (exec (step e) s)) ≠ Some B).
  { destruct e as [[u|]| | | | | | | |];
      try (unfold Platform.uid in *; rewrite Hsess; done).
    - cbn in He. unfold exec, step, Platform.uid. unfold_M. cbn. congruence.
    - unfold exec, step, Platform.uid. unfold_M. by cbn. }
  destruct (IH _ HB') as [IHrows IHobjs]. split; [congruence|].
  intros bucket name Hname. by rewrite IHobjs, Hobjs.
Qed.

(** X11.  The primary key of [books] holds along every run: if the ids of
    the rows are pairwise distinct, they are so after any sequence of
    events. *)
Theorem book_ids_stay_unique es s :
  NoDup (Book.id <$> books (db (world s))) →
  NoDup (Book.id <$> books (db (world (run es s)))).
Proof.
  revert s. induction es as [|e es IH]; intros s Hs; [done|].
  cbn [run]. apply IH. fold (exec (step e) s).
  destruct (step_changes e s) as [[Hb _] _].
  destruct Hb as [->|[(row & u & _ & _ & Hfresh & ->)|(id & ->)]]; [done| |].
  - apply NoDup_fmap_snoc; [done|]. by apply not_Exists_fmap.
  - eapply sublist_NoDup; [exact Hs|]. apply fmap_sublist, sublist_filter.
Qed.

(** X12.  A page without a session changes nothing: along a run that starts
    signed out and contains no sign-in, the books table and the bucket stay
    as they are and the session stays empty, whatever is submitted, read or
    deleted. *)
Theorem signed_out_page_changes_nothing es s :
  session (world s) = None →
  Forall no_sign_in es →
  books (db (world (run es s))) = books (db (world s))
  ∧ objects (db (world (run es s))) = objects (db (world s))
  ∧ session (world (run es s)) = None.
Proof.
  intros Hs Hes. revert s Hs. induction Hes as [|e es He Hes IH]; intros s Hs; [done|].
  cbn [run]. fold (exec (step e) s).
  destruct (step_changes e s) as [[Hb Ho] Hsess].
  assert (Hs' : session (world (exec (step e) s)) = None).
  { destruct e as [[u|]| | | | | | | |]; try (rewrite Hsess; done); done. }
  destruct (IH _ Hs') as (IHb & IHo & IHs). rewrite IHb, IHo. split; [|split; [|done]].
  - destruct Hb as [->|[(row & u & Hu & _)|(id & ->)]]; [done|congruence|].
    apply filter_all. intros b [_ Hown].
    unfold Sql.books_delete, Platform.uid in Hown. rewrite Hs in Hown.
    by apply Is_true_true, own_row_iff in Hown.
  - destruct Ho as [->|[(u & path & o & Hu & _)|(path & ->)]]; [done|congruence|].
    unfold Platform.remove_one, Platform.uid. rewrite Hs. cbn.
    unfold Sql.objects_delete, Sql.own_folder. by rewrite andb_false_r.
Qed.

End Integrity.

(** * Submitting the form *)

Section SubmitMore.

Implicit Types (s : App) (l : LibraryState.t).

(** X13.  The form after a submit.  When success is reported the form is
    cleared: no title, no author, no file, not uploading.  Otherwise title,
    author and selected file are what they were, so the user can submit
    again.  The [uploading] flag is never left set: it is off after every
    submit that had a file, and untouched by a submit without one. *)
Theorem handleUpload_form l s :
  let p := Library.dialog_props l in
  let s' := exec (UploadBookDialog.handleUpload p) s in
  let t := new_effects (UploadBookDialog.handleUpload p) s in
  (ToastSuccess "Book uploaded successfully!" ∈ t → dialog s' = DialogState.initial)
  ∧ (ToastSuccess "Book uploaded successfully!" ∉ t →
     DialogState.title (dialog s') = DialogState.title (dialog s)
     ∧ DialogState.author (dialog s') = DialogState.author (dialog s)
     ∧ DialogState.file (dialog s') = DialogState.file (dialog s))
  ∧ (DialogState.file (dialog s) ≠ None → DialogState.uploading (dialog s') = false)
  ∧ (DialogState.file (dialog s) = None →
     DialogState.uploading (dialog s') = DialogState.uploading (dialog s)).
Proof.
  intros p s' t. subst s' t. unfold new_effects.
  destruct (handleUpload_more p s)
    as [(t & Ht & Hno & _ & _ & _ & _ & Hform & _)
       |(s4 & id & u & file & -> & Hf & _ & Ht & _ & _ & _ & _ & _ & _ & _ & _ & Hd & _)].
  - rewrite Ht, drop_app_length. split; [by intros Hin; apply Hno in Hin|].
    destruct Hform as [[Hf ->]|[Hf ->]]; repeat split; cbn; congruence.
  - change (UploadBookDialog.onBookUploaded p) with Library.handleBookUploaded.
    destruct (handleBookUploaded_observes s4) as (_ & _ & _ & Hg & tq & Htq & _).
    rewrite Htq, Ht, <- app_assoc, drop_app_length, Hg, Hd.
    split; [done|]. split; [|split; [done|congruence]].
    intros Hno. exfalso. apply Hno. cbn. by do 3 right; left.
Qed.

(** X14.  The requests of one submit come in a fixed order, each only after
    the one before had the outcome that calls for it: a row is inserted
    only after the upload of the object under the same path has succeeded,
    with the id of the session's user and the size and type of that file;
    a removal is requested only after the insert has failed, and for that
    path alone. *)
Theorem upload_requests_in_order l s :
  let p := Library.dialog_props l in
  let t := new_effects (UploadBookDialog.handleUpload p) s in
  (∀ uid title author path size type r,
     Call (BooksInsert uid title author path size type) r ∈ t →
     ∃ u file,
       session (world s) = Some u ∧ DialogState.file (dialog s) = Some file
       ∧ uid = User.id u ∧ path = upload_path u (clock (world s)) file
       ∧ size = File.size file ∧ type = File.type file
       ∧ title = DialogState.title (dialog s)
       ∧ author = Js.or_null (DialogState.author (dialog s))
       ∧ Call (StorageUpload "books" path file) None ∈ t)
  ∧ (∀ bucket paths r,
       Call (StorageRemove bucket paths) r ∈ t →
       ∃ uid title author path size type e,
         bucket = "books" ∧ paths = [path]
         ∧ Call (BooksInsert uid title author path size type) (Some e) ∈ t).
Proof.
  intros p t. subst t. unfold new_effects.
  destruct (handleUpload_run p s) as
    [s' Hf Ht | f0 e0 s' Hf Hwhy Ht | f0 u e0 s' Hf Hu path0 Ht
    | f0 u e0 r0 s' Hf Hu path0 st Ht
    | f0 u id s4 s' Hf Hu path0 st Ht Hfree Hpol Hsz Hb Ho Ha Hs Hc Hl Hd Hs'].
  1-3: rewrite Ht, drop_app_length;
    (split; [intros ??????? Hin|intros ??? Hin]; in_list Hin).
  - rewrite Ht, drop_app_length. subst path0 st. split.
    + intros ??????? Hin. in_list Hin. simplify_eq. exists u, f0.
      repeat split; try done. by right; left.
    + intros ??? Hin. in_list Hin. simplify_eq. do 7 eexists.
      split; [done|]. split; [done|]. by do 2 right; left.
  - pose proof (handleBookUploaded_observes s4) as Hobs.
    apply observes_trace in Hobs as (tq & Htq & Hq).
    rewrite Hs'. change (UploadBookDialog.onBookUploaded p) with Library.handleBookUploaded.
    rewrite Htq, Ht, <- app_assoc, drop_app_length. subst path0 st. split.
    + intros ??????? Hin. apply elem_of_app in Hin as [Hin|Hin];
        [|by apply (not_write_in _ _ Hq) in Hin].
      in_list Hin. simplify_eq. exists u, f0.
      repeat split; try done. apply elem_of_app. left. by right; left.
    + intros ??? Hin. apply elem_of_app in Hin as [Hin|Hin];
        [|by apply (not_write_in _ _ Hq) in Hin].
      in_list Hin.
Qed.


(** X15.  The cleanup is best effort.  When the insert has failed and the
    removal fails as well, the object just uploaded stays in the bucket
    under a path that was free before, and the books table is as before:
    the submit has left no row for the object, and a row names its path
    afterwards only if one did before.  The user sees the error toast of
    the insert only. *)
Theorem orphan_after_failed_cleanup l s bucket paths e :
  let p := Library.dialog_props l in
  let s' := exec (UploadBookDialog.handleUpload p) s in
  let t := new_effects (UploadBookDialog.handleUpload p) s in
  Call (StorageRemove bucket paths) (Some e) ∈ t →
  ∃ u file,
    session (world s) = Some u ∧ DialogState.file (dialog s) = Some file
    ∧ paths = [upload_path u (clock (world s)) file]
    ∧ objects (db (world s)) !! ("books", upload_path u (clock (world s)) file) = None
    ∧ objects (db (world s')) !! ("books", upload_path u (clock (world s)) file)
      = Some (StorageObject.mk (User.id u) file)
    ∧ books (db (world s')) = books (db (world s))
    ∧ (¬ Exists (λ b, Book.file_path b = upload_path u (clock (world s)) file)
           (books (db (world s))) →
       ¬ Exists (λ b, Book.file_path b = upload_path u (clock (world s)) file)
           (books (db (world s'))))
    ∧ (∀ msg, ToastError msg ∈ t → msg = "Failed to save book information")
    ∧ (∀ msg, ConsoleError msg ∉ t).
Proof.
  intros p s' t. subst s' t. unfold new_effects.
  destruct (handleUpload_run p s) as
    [s' Hf Ht | f0 e0 s' Hf Hwhy Ht | f0 u e0 s' Hf Hu path0 Ht
    | f0 u e0 r0 s' Hf Hu path0 st Ht Hfree Hpol Hb Ho
    | f0 u id s4 s' Hf Hu path0 st Ht Hfree Hpol Hsz Hb Ho Ha Hs Hc Hl Hd Hs'].
  1-3: rewrite Ht, drop_app_length; intros Hin; in_list Hin.
  - rewrite Ht, drop_app_length. subst path0 st. intros Hin. in_list Hin. simplify_eq.
    exists u, f0. rewrite Ho, lookup_insert_eq, Hb. repeat split; try done.
    + intros msg Hin. in_list Hin. by simplify_eq.
    + intros msg Hin. in_list Hin.
  - pose proof (handleBookUploaded_observes s4) as Hobs.
    apply observes_trace in Hobs as (tq & Htq & Hq).
    rewrite Hs'. change (UploadBookDialog.onBookUploaded p) with Library.handleBookUploaded.
    rewrite Htq, Ht, <- app_assoc, drop_app_length.
    intros Hin. apply elem_of_app in Hin as [Hin|Hin];
      [in_list Hin|by apply (not_write_in _ _ Hq) in Hin].
Qed.

End SubmitMore.

Section Usage.

Implicit Types (s : App) (l : LibraryState.t).


Lemma size_of_rows_of_snoc (v : uuid) (rows : list Book.t) (row : Book.t) :
  size_of_rows_of v (rows ++ [row])
  = size_of_rows_of v rows + (if decide (Book.user_id row = v) then Book.file_size row else 0).
Proof. rewrite size_of_rows_of_app. cbn. lia. Qed.

(** The callback of the dialog: what it leaves in [Library]. *)
Lemma handleBookUploaded_library s :
  let s' := exec Library.handleBookUploaded s in
  LibraryState.uploadDialogOpen (library s') = false
  ∧ LibraryState.user (library s') = LibraryState.user (library s)
  ∧ ∀ v, Call (RpcGetUserStorageUsed v) None ∈ drop (length (trace s)) (trace s') →
         ∃ total, Sql.get_user_storage_used v (db (world s)) = Some total
                  ∧ LibraryState.storageUsed (library s') = Js.json_number total.
Proof.
  unfold Library.handleBookUploaded, exec. rewrite !exec_seq.
  fold (exec Library.fetchBooks s).
  fold (exec Library.fetchStorageUsed (exec Library.fetchBooks s)).
  set (s1 := exec Library.fetchBooks s).
  set (s2 := exec Library.fetchStorageUsed s1).
  assert (Hend : library (setUploadDialogOpen false s2).2
                 = LibraryState.mk (LibraryState.user (library s2))
                     (LibraryState.books (library s2))
                     (LibraryState.storageUsed (library s2)) false
                     (LibraryState.loading (library s2))
                 ∧ trace (setUploadDialogOpen false s2).2 = trace s2) by done.
  destruct Hend as [-> ->]. split; [done|]. cbn.
  destruct (LibraryState.user (library s)) as [u|] eqn:Hu.
  - destruct (fetchBooks_cases s u Hu) as (Hdb & _ & _ & Hu1 & _ & _ & _ & Hres).
    fold s1 in Hdb, Hu1, Hres.
    destruct (fetchStorageUsed_cases s1 u Hu1)
      as (_ & _ & _ & Hu2 & _ & _ & _ & r & Ht2 & Hr).
    fold s2 in Hu2, Ht2, Hr. split; [done|]. intros v.
    assert (∃ t1, trace s1 = trace s ++ t1
                  ∧ Call (RpcGetUserStorageUsed v) None ∉ t1) as (t1 & Ht1 & Hno).
    { destruct (Supabase.deliver (world s)).1; destruct Hres as [Ht _];
        eexists; (split; [exact Ht|]); intros Hin; in_list Hin. }
    rewrite Ht2, Ht1, <- app_assoc, drop_app_length. intros Hin.
    apply elem_of_app in Hin as [Hin|Hin]; [done|]. in_list Hin. simplify_eq.
    destruct Hr as (_ & total & Hget & Hv). exists total. by rewrite <- Hdb.
  - assert (s2 = s) as ->.
    { subst s2 s1. unfold Library.fetchBooks, Library.fetchStorageUsed. unfold_M. cbn.
      rewrite Hu. cbn. rewrite Hu. by destruct s. }
    split; [done|]. intros v. rewrite drop_all. intros Hin. by apply elem_of_nil in Hin.
Qed.

(** X16.  Usage after an upload.  An upload that reports success raises the
    sum of [file_size] over the rows of the uploading user by exactly the
    size of the file and leaves the sum of every other user as it was;
    [get_user_storage_used] returns the new sum, or raises if it is no
    [bigint].  The callback then closes the dialog, and if its usage
    request got through, the usage [Library] shows is the answer of the
    function for the user it asked for, as a Number: the answer itself
    when that is a safe integer. *)
Theorem usage_after_upload l s :
  let p := Library.dialog_props l in
  let s' := exec (UploadBookDialog.handleUpload p) s in
  let t := new_effects (UploadBookDialog.handleUpload p) s in
  ToastSuccess "Book uploaded successfully!" ∈ t →
  ∃ u file,
    session (world s) = Some u ∧ DialogState.file (dialog s) = Some file
    ∧ (∀ v, size_of_rows_of v (books (db (world s')))
            = size_of_rows_of v (books (db (world s)))
              + (if decide (User.id u = v) then File.size file else 0))
    ∧ (∀ v, Sql.get_user_storage_used v (db (world s'))
            = Sql.to_bigint
                (size_of_rows_of v (books (db (world s)))
                 + (if decide (User.id u = v) then File.size file else 0)))
    ∧ LibraryState.uploadDialogOpen (library s') = false
    ∧ (∀ v, Call (RpcGetUserStorageUsed v) None ∈ t →
            ∃ total,
              Sql.get_user_storage_used v (db (world s')) = Some total
              ∧ LibraryState.storageUsed (library s') = Js.json_number total
              ∧ (Z.abs total <= Js.MAX_SAFE_INTEGER →
                 LibraryState.storageUsed (library s') = total)).
Proof.
  intros p s' t. subst s' t. unfold new_effects.
  destruct (handleUpload_more p s)
    as [(t & Ht & Hno & _)
       |(s4 & id & u & file & -> & Hf & Hu & Ht & _ & _ & Hb & _)].
  { rewrite Ht, drop_app_length. intros Hin. by apply Hno in Hin. }
  intros _. change (UploadBookDialog.onBookUploaded p) with Library.handleBookUploaded.
  destruct (handleBookUploaded_observes s4) as (Hdb & _ & _ & _ & tq & Htq & _).
  destruct (handleBookUploaded_library s4) as (Hopen & _ & Hused).
  exists u, file. split; [done|]. split; [done|]. rewrite Hdb.
  assert (Hsum : ∀ v, size_of_rows_of v (books (db (world s4)))
                      = size_of_rows_of v (books (db (world s)))
                        + (if decide (User.id u = v) then File.size file else 0)).
  { intros v. by rewrite Hb, size_of_rows_of_snoc. }
  split; [exact Hsum|]. split; [|split; [done|]].
  - intros v. by rewrite storage_used_as_sum, Hsum.
  - intros v. rewrite Htq, Ht, <- app_assoc, drop_app_length.
    intros Hin. apply elem_of_app in Hin as [Hin|Hin]; [in_list Hin|].
    destruct (Hused v) as (total & Hget & Hv); [by rewrite Htq, drop_app_length|].
    exists total. split; [done|]. split; [done|]. intros Hsafe.
    by rewrite Hv, json_number_exact.
Qed.

End Usage.

(** * Upload followed by list *)

Section RoundTrip.

Implicit Types (s : App) (l : LibraryState.t).

(** C8.  After an upload that reports success, the table holds one row
    more: it belongs to the uploading user and carries the title typed,
    the author typed (null for the empty string) and the size of the
    file, and the bucket holds the file under the path of the row, a path
    that was free before.  With the uploading user in [Library], a
    [fetchBooks] after the upload that gets through shows the rows a
    [fetchBooks] before the upload shows and this one row, nothing else;
    the row is shown as it is stored, the size of a file being a Number
    to begin with. *)
Theorem upload_then_list l s :
  let p := Library.dialog_props l in
  let s' := exec (UploadBookDialog.handleUpload p) s in
  ToastSuccess "Book uploaded successfully!"
    ∈ new_effects (UploadBookDialog.handleUpload p) s →
  ∃ u file row,
    session (world s) = Some u
    ∧ DialogState.file (dialog s) = Some file
    ∧ books (db (world s')) = books (db (world s)) ++ [row]
    ∧ Book.user_id row = User.id u
    ∧ Book.title row = DialogState.title (dialog s)
    ∧ Book.author row = (if decide (DialogState.author (dialog s) = "") then None
                         else Some (DialogState.author (dialog s)))
    ∧ Book.file_size row = File.size file
    ∧ objects (db (world s)) !! ("books", Book.file_path row) = None
    ∧ objects (db (world s')) !! ("books", Book.file_path row)
      = Some (StorageObject.mk (User.id u) file)
    ∧ (LibraryState.user (library s) = Some u →
       (Supabase.deliver (world s)).1 = true →
       (Supabase.deliver (world s')).1 = true →
       LibraryState.books (library (exec Library.fetchBooks s'))
       ≡ₚ Supabase.row_of_json row
          :: LibraryState.books (library (exec Library.fetchBooks s)))
    ∧ (0 <= File.size file → Supabase.row_of_json row = row).
Proof.
  intros p s'. subst s'. unfold new_effects.
  destruct (handleUpload_more p s)
    as [(t & Ht & Hno & _)
       |(s4 & id & u & file & -> & Hf & Hu & Ht & Hs & Hc & Hb & _ & Hpol & Hfree & Ho
         & Hl & _ & Hsz)].
  { rewrite Ht, drop_app_length. intros Hin. by apply Hno in Hin. }
  intros _. change (UploadBookDialog.onBookUploaded p) with Library.handleBookUploaded.
  destruct (handleBookUploaded_observes s4) as (Hdb & Hsess & _).
  destruct (handleBookUploaded_library s4) as (_ & Huser & _).
  set (s' := exec Library.handleBookUploaded s4) in *.
  set (row := upload_row id u (clock (world s)) (dialog s) file).
  exists u, file, row. rewrite Hdb, Hb, Ho. cbn. rewrite lookup_insert_eq.
  assert (Hlist : listed (User.id u) (world s') ≡ₚ row :: listed (User.id u) (world s)).
  { unfold listed, Platform.select_books, Platform.uid.
    rewrite Hsess, Hs, Hu, Hdb, Hb. cbn.
    rewrite !order_desc_perm, filter_app, filter_cons_True, filter_nil.
    - by rewrite Permutation_app_comm.
    - cbn. split; [|done]. unfold Sql.books_select. cbn.
      by apply Is_true_true, own_row_iff. }
  repeat split; auto.
  - intros Hlu Hnet Hnet'.
    assert (Hlu' : LibraryState.user (library s') = Some u) by congruence.
    destruct (fetchBooks_cases s u Hlu) as (_ & _ & _ & _ & _ & _ & _ & Hres).
    destruct (fetchBooks_cases s' u Hlu') as (_ & _ & _ & _ & _ & _ & _ & Hres').
    rewrite Hnet in Hres. rewrite Hnet' in Hres'.
    destruct Hres as [_ ->]. destruct Hres' as [_ ->].
    by rewrite Hlist.
  - intros Hpos. apply row_of_json_exact. cbn.
    unfold Js.MAX_SAFE_INTEGER, file_size_limit in *. lia.
Qed.

End RoundTrip.

(** * Deleting a book *)

Section DeleteMore.

Implicit Types (s : App) (book : Book.t).

(** The two refetches that follow a delete or an upload. *)
Lemma refetch_cases s (u : User.t) :
  LibraryState.user (library s) = Some u →
  let s1 := exec Library.fetchBooks s in
  let s2 := exec Library.fetchStorageUsed s1 in
  db (world s2) = db (world s) ∧ session (world s2) = session (world s)
  ∧ dialog s2 = dialog s
  ∧ LibraryState.books (library s2) = LibraryState.books (library s1)
  ∧ (if (Supabase.deliver (world s)).1
     then LibraryState.books (library s1)
          = Supabase.row_of_json <$> listed (User.id u) (world s)
     else LibraryState.books (library s1) = LibraryState.books (library s))
  ∧ ∃ r1 r2,
      trace s2 = trace s ++ [Call (BooksSelect (User.id u)) r1]
                   ++ (if r1 is Some _ then [ToastError "Failed to load books"] else [])
                   ++ [Call (RpcGetUserStorageUsed (User.id u)) r2]
      ∧ (r1 = None ↔ (Supabase.deliver (world s)).1 = true).
Proof.
  intros Hu s1 s2. subst s2 s1.
  destruct (fetchBooks_cases s u Hu) as (Hdb & Hs & Hg & Hu1 & _ & _ & _ & Hres).
  destruct (fetchStorageUsed_cases _ u Hu1)
    as (Hdb' & Hs' & Hg' & _ & Hb' & _ & _ & r2 & Ht' & _).
  split; [congruence|]. split; [congruence|]. split; [congruence|]. split; [done|].
  split; [by destruct (Supabase.deliver (world s)).1; destruct Hres|].
  destruct (Supabase.deliver (world s)).1; destruct Hres as [Ht _];
    rewrite Ht', Ht, <- ?app_assoc.
  - by exists None, r2.
  - by exists (Some NetworkError), r2.
Qed.

Lemma handleDeleteBook_more book s (u : User.t) :
  LibraryState.user (library s) = Some u →
  ∃ s', exec (Library.handleDeleteBook book) s = s' ∧
  ((∃ e, trace s' = trace s ++ [Call (BooksDelete (Book.id book)) (Some e);
                                ToastError "Failed to delete book"]
         ∧ db (world s') = db (world s) ∧ library s' = library s)
   ∨ (∃ r s3,
        s' = exec Library.fetchStorageUsed (exec Library.fetchBooks s3)
        ∧ trace s3 = trace s ++ [Call (BooksDelete (Book.id book)) None;
                                 Call (StorageRemove "books" [Book.file_path book]) r]
                       ++ (if r is Some _ then [ConsoleError "Storage deletion error:"]
                           else [])
                       ++ [ToastSuccess "Book deleted successfully"]
        ∧ books (db (world s3))
          = filter (λ b, ¬ (Book.id b = Book.id book
                            ∧ Sql.books_delete (Platform.uid (world s)) b))
              (books (db (world s)))
        ∧ objects (db (world s3))
          = (if r is None
             then Platform.remove_one (Platform.uid (world s)) "books"
                    (objects (db (world s))) (Book.file_path book)
             else objects (db (world s)))
        ∧ session (world s3) = session (world s)
        ∧ library s3 = library s)).
Proof.
  intros Hu. unfold Library.handleDeleteBook.
  unfold mbind at 1, M_bind at 1, gets at 1, exec. cbn. rewrite Hu. cbn.
  unfold Supabase.books_delete_eq_id, mbind at 1, M_bind at 1.
  next_call E1 d1 w1.
  2: { eexists. split; [reflexivity|]. left. unfold_M. eexists.
       split; [solve_log|]. by world_simpl. }
  unfold Platform.delete_book in E1. simplify_eq.
  unfold Supabase.storage_remove, mbind at 1, M_bind at 1.
  next_call E2 d2 w2.
  - unfold Platform.remove in E2. simplify_eq. rewrite !(exec_seq (A:=())).
    eexists. split; [reflexivity|]. right.
    exists None. eexists. split; [reflexivity|].
    unfold_M. repeat split; try solve_log; by world_simpl.
  - rewrite !(exec_seq (A:=())).
    eexists. split; [reflexivity|]. right.
    exists (Some e). eexists. split; [reflexivity|].
    unfold_M. repeat split; try solve_log; by world_simpl.
Qed.

(** X17.  What a delete does to the bucket.  If the removal request fails,
    the object stays where it is, the failure goes to the console, and the
    user is still told that the book was deleted.  If it returns without
    error, the object is gone when the delete policy admits it for the
    caller, and is still there, without any error, when it does not. *)
Theorem delete_object_outcome book s :
  let s' := exec (Library.handleDeleteBook book) s in
  let t := new_effects (Library.handleDeleteBook book) s in
  let path := Book.file_path book in
  let caller := Platform.uid (world s) in
  (∀ e, Call (StorageRemove "books" [path]) (Some e) ∈ t →
        objects (db (world s')) = objects (db (world s))
        ∧ ConsoleError "Storage deletion error:" ∈ t
        ∧ ToastSuccess "Book deleted successfully" ∈ t)
  ∧ (Call (StorageRemove "books" [path]) None ∈ t →
     (∀ msg, ConsoleError msg ∉ t)
     ∧ (Sql.objects_delete caller "books" path = true →
        objects (db (world s')) = delete ("books", path) (objects (db (world s))))
     ∧ (Sql.objects_delete caller "books" path = false →
        objects (db (world s')) = objects (db (world s)))).
Proof.
  intros s' t path caller. subst s' t path caller. unfold new_effects.
  destruct (LibraryState.user (library s)) as [u|] eqn:Hu.
  2: { assert (exec (Library.handleDeleteBook book) s = s) as ->.
       { unfold Library.handleDeleteBook. unfold_M. cbn. rewrite Hu. by destruct s. }
       rewrite drop_all. split; [intros e Hin|intros Hin]; by apply elem_of_nil in Hin. }
  destruct (handleDeleteBook_more book s u Hu)
    as (s' & -> & [(e0 & Ht & _)|(r & s3 & -> & Ht & _ & Ho & _ & Hl)]).
  - rewrite Ht, drop_app_length. split; [intros e Hin|intros Hin]; in_list Hin.
  - rewrite <- Hl in Hu.
    destruct (refetch_cases s3 u Hu) as (Hdb & _ & _ & _ & _ & r1 & r2 & Htq & _).
    cbv zeta in Hdb, Htq. rewrite Htq, Ht, <- !app_assoc, drop_app_length, Hdb, Ho.
    destruct r as [e1|]; cbn; split.
    + intros e _. split; [done|]. split; [by do 2 right; left|by do 3 right; left].
    + intros Hin. in_list Hin. destruct r1; cbn in Hin; in_list Hin.
    + intros e Hin. in_list Hin. destruct r1; cbn in Hin; in_list Hin.
    + intros _. split; [|unfold Platform.remove_one; split; by intros ->].
      intros msg Hin. in_list Hin. destruct r1; cbn in Hin; in_list Hin.
Qed.

(** X18.  A delete touches its target only.  Whatever happens, the rows of
    any other id are in the table afterwards exactly if they were before,
    so are the rows the delete policy does not admit for the caller, and
    every object under another key of the bucket is untouched. *)
Theorem delete_touches_only_its_target book s :
  let s' := exec (Library.handleDeleteBook book) s in
  (∀ b, Book.id b ≠ Book.id book ∨ Platform.uid (world s) ≠ Some (Book.user_id b) →
        (b ∈ books (db (world s')) ↔ b ∈ books (db (world s))))
  ∧ (∀ b, b ∈ books (db (world s')) → b ∈ books (db (world s)))
  ∧ (∀ key, key ≠ ("books", Book.file_path book) →
            objects (db (world s')) !! key = objects (db (world s)) !! key).
Proof.
  intros s'. subst s'.
  destruct (handleDeleteBook_run book s) as
    [Hu | e0 s' Ht Hd Hl Hg | r s3 s' Ht Hb Ho Hs Hg Hobs].
  - by repeat split.
  - rewrite Hd. by repeat split.
  - rewrite (observes_db _ _ Hobs), Hb, Ho. split; [|split].
    + intros b Hb'. rewrite list_elem_of_filter. split; [by intros [_ ?]|].
      intros Hin. split; [|done]. intros [Hid Hown].
      unfold Sql.books_delete in Hown. apply Is_true_true, own_row_iff in Hown.
      by destruct Hb'.
    + intros b Hin. by apply list_elem_of_filter in Hin as [_ ?].
    + intros key Hkey. destruct r; [done|]. unfold Platform.remove_one.
      destruct (Sql.objects_delete _ _ _); [|done]. by apply lookup_delete_ne.
Qed.

(** X19.  The card of a deleted book.  After a delete that reports success,
    the list shown no longer holds a row of that id if the list request of
    the refetch got through; if that request failed, the list shown is the
    old one, the deleted book included. *)
Theorem shown_after_delete book s :
  let s' := exec (Library.handleDeleteBook book) s in
  let t := new_effects (Library.handleDeleteBook book) s in
  ToastSuccess "Book deleted successfully" ∈ t →
  (∀ v, Call (BooksSelect v) None ∈ t →
        ∀ b, b ∈ LibraryState.books (library s') → Book.id b ≠ Book.id book)
  ∧ (∀ v e, Call (BooksSelect v) (Some e) ∈ t →
            LibraryState.books (library s') = LibraryState.books (library s)
            ∧ ToastError "Failed to load books" ∈ t).
Proof.
  intros s' t. subst s' t. unfold new_effects.
  destruct (LibraryState.user (library s)) as [u|] eqn:Hu.
  2: { assert (exec (Library.handleDeleteBook book) s = s) as ->.
       { unfold Library.handleDeleteBook. unfold_M. cbn. rewrite Hu. by destruct s. }
       rewrite drop_all. intros Hin. by apply elem_of_nil in Hin. }
  destruct (handleDeleteBook_more book s u Hu)
    as (s' & -> & [(e0 & Ht & _)|(r & s3 & -> & Ht & Hb & _ & Hs & Hl)]).
  { rewrite Ht, drop_app_length. intros Hin. in_list Hin. }
  intros _. rewrite <- Hl in Hu.
  destruct (refetch_cases s3 u Hu) as (_ & _ & _ & Hshown & Hres & r1 & r2 & Htq & Hr1).
  cbv zeta in Hshown, Hres, Htq. rewrite Htq, Ht, <- !app_assoc, drop_app_length, Hshown.
  split.
  - intros v Hin b Hshow Hid.
    assert (r1 = None) as ->.
    { destruct r; cbn in Hin; in_list Hin; destruct r1; cbn in Hin; in_list Hin;
        by simplify_eq. }
    rewrite (proj1 Hr1 eq_refl) in Hres. rewrite Hres in Hshow.
    apply elem_of_parsed in Hshow as (r0 & Hshow & _ & Hid0 & _).
    unfold listed, Platform.select_books in Hshow.
    rewrite order_desc_perm in Hshow.
    apply list_elem_of_filter in Hshow as [[Hvis _] Hin'].
    rewrite Hb in Hin'. apply list_elem_of_filter in Hin' as [Hnot _]. apply Hnot.
    split; [congruence|]. unfold Sql.books_select, Sql.books_delete, Platform.uid in *.
    by rewrite <- Hs.
  - intros v e Hin.
    assert (∃ e1, r1 = Some e1) as [e1 ->].
    { destruct r; cbn in Hin; in_list Hin; destruct r1; cbn in Hin; in_list Hin;
        simplify_eq; eauto. }
    destruct (Supabase.deliver (world s3)).1 eqn:Hd.
    { discriminate (proj2 Hr1 eq_refl). }
    rewrite Hres, Hl. split; [done|].
    destruct r; cbn; rewrite !elem_of_cons; auto 10.
Qed.

End DeleteMore.

(** * Selecting a file *)

Section SelectMore.

Implicit Types (s : App) (f : File.t).

(** X20.  A rejected selection does not clear the earlier one.  With a file
    already selected, choosing a file that fails the quota check shows the
    toast and leaves the earlier file selected; the next submit, with a
    session and a user lookup that gets through, uploads that earlier file,
    not the one the file input now displays. *)
Theorem rejected_selection_keeps_earlier_file f1 f2 (fs : list File.t) (u : User.t) s :
  DialogState.file (dialog s) = Some f1 →
  LibraryState.storageUsed (library s) + File.size f2 > Library.STORAGE_LIMIT →
  session (world s) = Some u →
  (Supabase.deliver (world s)).1 = true →
  let s1 := exec (step (ChangeFile (f2 :: fs))) s in
  DialogState.file (dialog s1) = Some f1
  ∧ ∃ r rest, new_effects (step Submit) s1
              = Call AuthGetUser None
                :: Call (StorageUpload "books" (upload_path u (clock (world s)) f1) f1) r
                :: rest.
Proof.
  intros Hf Hgt Hu Hnet s1. subst s1. rewrite step_ChangeFile.
  set (s1 := mkApp (logged (ToastError "This file would exceed your storage limit of 200MB")
                      (world s)) (library s) (dialog s)).
  assert (exec (UploadBookDialog.handleFileChange (Library.dialog_props (library s))
                  (f2 :: fs)) s = s1) as ->.
  { unfold UploadBookDialog.handleFileChange.
    cbn [Library.dialog_props UploadBookDialog.storageUsed UploadBookDialog.storageLimit].
    by case_decide; [|lia]. }
  assert (Hnet' : (Supabase.deliver (world s1)).1 = true).
  { unfold Supabase.deliver in *. cbn. by destruct (net (world s)). }
  split; [done|]. exact (submit_uploads s1 f1 u Hf Hu Hnet').
Qed.

(** X21.  The two limits agree.  The quota of the page and the size limit of
    the bucket in the migration are the same number of bytes, so a file
    that passes the quota check against a usage that is not negative is
    never refused by the bucket for its size. *)
Theorem accepted_file_fits_bucket f (fs : list File.t) s :
  0 <= LibraryState.storageUsed (library s) →
  new_effects (step (ChangeFile (f :: fs))) s = [] →
  Library.STORAGE_LIMIT = file_size_limit
  ∧ File.size f <= file_size_limit
  ∧ ∀ bucket path w, Platform.upload bucket path f w ≠ Err PayloadTooLarge.
Proof.
  intros Hused. unfold new_effects. rewrite step_ChangeFile.
  unfold UploadBookDialog.handleFileChange.
  cbn [Library.dialog_props UploadBookDialog.storageUsed UploadBookDialog.storageLimit].
  case_decide as Hgt.
  { unfold_M. cbn. rewrite drop_app_length. discriminate. }
  intros _. split; [reflexivity|].
  assert (Hsz : File.size f <= file_size_limit).
  { change Library.STORAGE_LIMIT with 209715200 in Hgt. unfold file_size_limit. lia. }
  split; [done|]. intros bucket path w. unfold Platform.upload.
  case_bool_decide; [|done]. cbn.
  destruct (file_size_limit <? File.size f) eqn:E; [apply Z.ltb_lt in E; lia|].
  destruct (Platform.uid w); [|done].
  destruct (Sql.objects_insert _ _ _); [|done]. cbn.
  by destruct (objects (db w) !! (bucket, path)).
Qed.

End SelectMore.

(** * Objects outside any folder *)

Section RootObjects.

(** X22.  The storage policies admit nobody at the root of the bucket.  For
    an object name without a slash, [(storage.foldername(name))[1]] is
    NULL and the policy is false for every caller: such an object can be
    neither uploaded nor downloaded through the platform, and a removal
    leaves it in place without an error. *)
Theorem root_objects_admit_nobody (name : string) :
  Js.occurs "/" name = false →
  (∀ caller bucket, Sql.own_folder caller bucket name = false)
  ∧ (∀ bucket file w r, Platform.upload bucket name file w ≠ Ok r)
  ∧ (∀ bucket w r, Platform.download bucket name w ≠ Ok r)
  ∧ (∀ bucket w, ∃ w', Platform.remove bucket [name] w = Ok ((), w')
                       ∧ objects (db w') = objects (db w)).
Proof.
  intros Hname.
  assert (Hpol : ∀ caller bucket, Sql.own_folder caller bucket name = false).
  { assert (Hfold : Sql.foldername name !! 0%nat = None).
    { unfold Sql.foldername, Sql.string_to_array. case_decide; [done|].
      by rewrite (split_whole _ _ Hname). }
    intros caller bucket. unfold Sql.own_folder.
    destruct caller; [|apply andb_false_r].
    unfold uuid in *. rewrite Hfold. apply andb_false_r. }
  split; [exact Hpol|]. split; [|split].
  - intros bucket file w r. unfold Platform.upload.
    case_bool_decide; [|done]. cbn. destruct (_ <? _); [done|].
    destruct (Platform.uid w); [|done]. unfold Sql.objects_insert. by rewrite Hpol.
  - intros bucket w r. unfold Platform.download.
    destruct (objects (db w) !! _); [|done]. unfold Sql.objects_select. by rewrite Hpol.
  - intros bucket w. eexists. split; [reflexivity|]. cbn.
    unfold Platform.remove_one, Sql.objects_delete. by rewrite Hpol.
Qed.

End RootObjects.

Section UsageAfterDelete.

Implicit Types (s : App) (book : Book.t).

Lemma filter_Forall_id {A} (Q : A → Prop) `{!∀ x, Decision (Q x)} (l : list A) :
  Forall Q l → filter Q l = l.
Proof.
  induction 1 as [|x l Hx _ IH]; [done|]. by rewrite filter_cons_True, IH.
Qed.

Lemma size_after_delete (v : uuid) (rows : list Book.t) book (caller : option uuid) :
  NoDup (Book.id <$> rows) → book ∈ rows → caller = Some (Book.user_id book) →
  size_of_rows_of v
    (filter (λ b, ¬ (Book.id b = Book.id book ∧ Sql.books_delete caller b)) rows)
  = size_of_rows_of v rows
    - (if decide (Book.user_id book = v) then Book.file_size book else 0).
Proof.
  intros Hnd Hin ->. induction rows as [|x rows IH]; [by apply elem_of_nil in Hin|].
  rewrite fmap_cons in Hnd. apply NoDup_cons in Hnd as [Hx Hnd].
  destruct (decide (x = book)) as [->|Hne].
  - rewrite filter_cons_False.
    2: { intros Hnot. apply Hnot. split; [done|].
         unfold Sql.books_delete. by apply Is_true_true, own_row_iff. }
    rewrite filter_Forall_id; [cbn; lia|].
    apply Forall_forall. intros b Hb [Hid _]. apply Hx.
    rewrite <- Hid. by apply list_elem_of_fmap_2.
  - apply elem_of_cons in Hin as [->|Hin]; [done|].
    rewrite filter_cons_True.
    2: { intros [Hid _]. apply Hx. rewrite Hid. by apply list_elem_of_fmap_2. }
    cbn [size_of_rows_of]. rewrite (IH Hnd Hin). lia.
Qed.


(** X23.  Usage after a delete.  When the ids of the table are distinct and
    the caller deletes a row of their own, a delete that reports success
    lowers the sum of [file_size] over the rows of the owner by exactly the
    size of that row and leaves every other sum as it was, whether or not
    the object could be removed; [get_user_storage_used] returns the new
    sum, or raises if it is no [bigint]. *)
Theorem usage_after_delete book s :
  let s' := exec (Library.handleDeleteBook book) s in
  let t := new_effects (Library.handleDeleteBook book) s in
  NoDup (Book.id <$> books (db (world s))) →
  book ∈ books (db (world s)) →
  Platform.uid (world s) = Some (Book.user_id book) →
  ToastSuccess "Book deleted successfully" ∈ t →
  ∀ v, size_of_rows_of v (books (db (world s')))
       = size_of_rows_of v (books (db (world s)))
         - (if decide (Book.user_id book = v) then Book.file_size book else 0)
       ∧ Sql.get_user_storage_used v (db (world s'))
         = Sql.to_bigint
             (size_of_rows_of v (books (db (world s)))
              - (if decide (Book.user_id book = v) then Book.file_size book else 0)).
Proof.
  intros s' t. subst s' t. unfold new_effects. intros Hnd Hin Hown.
  destruct (handleDeleteBook_run book s) as
    [Hu | e0 s' Ht Hd Hl Hg | r s3 s' Ht Hb Ho Hs Hg Hobs].
  - rewrite drop_all. intros H. by apply elem_of_nil in H.
  - rewrite Ht, drop_app_length. intros H. in_list H.
  - intros _ v.
    assert (Hsum : size_of_rows_of v (books (db (world s')))
                   = size_of_rows_of v (books (db (world s)))
                     - (if decide (Book.user_id book = v) then Book.file_size book else 0)).
    { rewrite (observes_db _ _ Hobs), Hb. by apply size_after_delete. }
    split; [exact Hsum|]. by rewrite storage_used_as_sum, Hsum.
Qed.

End UsageAfterDelete.

(** * Further instances on the sample data *)

(** Three attempts on the empty database, the second one refused. *)
Lemma signups_consistent_witness :
  referential empty_database ∧ keys_unique empty_database ∧ bootstrapped empty_database
  ∧ length (auth_users (signups Scenario.attempts empty_database)) = 2%nat
  ∧ keys_unique (signups Scenario.attempts empty_database).
Proof.
  assert (H1 : referential empty_database) by (split; constructor).
  assert (H2 : keys_unique empty_database) by (repeat split; constructor).
  assert (H3 : bootstrapped empty_database)
    by (intros u Hu; by apply elem_of_nil in Hu).
  split; [exact H1|]. split; [exact H2|]. split; [exact H3|]. split; [reflexivity|].
  exact (proj1 (proj2 (signups_consistent Scenario.attempts empty_database H1 H2 H3))).
Defined.

(** Bob reads his own book. *)
Lemma handleDownload_saves_witness :
  SaveFile (saved_name Sample.bob_book)
    (StorageObject.content (Sample.object_of Sample.bob_book))
    ∈ new_effects (BookCard.handleDownload Sample.bob_book) Scenario.bob_page
  ∧ Sql.objects_select (Platform.uid (world Scenario.bob_page)) "books"
      (Book.file_path Sample.bob_book) = true.
Proof.
  assert (H : SaveFile (saved_name Sample.bob_book)
                (StorageObject.content (Sample.object_of Sample.bob_book))
              ∈ new_effects (BookCard.handleDownload Sample.bob_book) Scenario.bob_page)
    by by_evaluation.
  split; [exact H|].
  exact (proj1 (proj2 (proj2
    (proj1 (proj2 (handleDownload_saves Sample.bob_book Scenario.bob_page)) _ _ H)))).
Defined.

(** Alice uploads [moby]; the new row can be read back. *)
Lemma download_after_upload_witness :
  ToastSuccess "Book uploaded successfully!"
    ∈ new_effects (UploadBookDialog.handleUpload (Library.dialog_props LibraryState.initial))
        (Sample.ready Sample.fresh_db [])
  ∧ ∃ row file,
      DialogState.file (dialog (Sample.ready Sample.fresh_db [])) = Some file
      ∧ books (db (world (exec (UploadBookDialog.handleUpload
                                  (Library.dialog_props LibraryState.initial))
                            (Sample.ready Sample.fresh_db []))))
        = books (db (world (Sample.ready Sample.fresh_db []))) ++ [row].
Proof.
  assert (H : ToastSuccess "Book uploaded successfully!"
    ∈ new_effects (UploadBookDialog.handleUpload (Library.dialog_props LibraryState.initial))
        (Sample.ready Sample.fresh_db [])) by by_evaluation.
  split; [exact H|].
  destruct (download_after_upload LibraryState.initial (Sample.ready Sample.fresh_db []) H)
    as (row & file & Hf & Hb & _).
  exists row, file. split; assumption.
Defined.


(** Alice has signed in; the first fetch of her usage. *)
Lemma fetchStorageUsed_shows_witness :
  LibraryState.user (library Scenario.alice_arrives) = Some (User.mk Sample.alice)
  ∧ Call (RpcGetUserStorageUsed Sample.alice) None
      ∈ new_effects Library.fetchStorageUsed Scenario.alice_arrives
  ∧ LibraryState.storageUsed (library (exec Library.fetchStorageUsed Scenario.alice_arrives))
    = 209715200.
Proof.
  assert (H1 : LibraryState.user (library Scenario.alice_arrives)
               = Some (User.mk Sample.alice)) by reflexivity.
  assert (H2 : Call (RpcGetUserStorageUsed Sample.alice) None
                 ∈ new_effects Library.fetchStorageUsed Scenario.alice_arrives)
    by by_evaluation.
  split; [exact H1|]. split; [exact H2|].
  exact (proj1 (proj2 (proj1 (fetchStorageUsed_shows Scenario.alice_arrives
                                (User.mk Sample.alice) H1) H2))).
Defined.

(** Alice deletes and uploads; Bob's row is where it was. *)
Lemma write_isolation_witness :
  Platform.uid (world (Sample.page Sample.stocked_db [])) ≠ Some Sample.bob
  ∧ Forall (foreign_to Sample.bob) Scenario.alice_session
  ∧ filter (λ b, Book.user_id b = Sample.bob)
      (books (db (world (run Scenario.alice_session (Sample.page Sample.stocked_db [])))))
    = [Sample.bob_book].
Proof.
  assert (H1 : Platform.uid (world (Sample.page Sample.stocked_db [])) ≠ Some Sample.bob)
    by discriminate.
  assert (H2 : Forall (foreign_to Sample.bob) Scenario.alice_session).
  { repeat (constructor; [first [exact I | discriminate]|]). constructor. }
  split; [exact H1|]. split; [exact H2|].
  exact (proj1 (write_isolation Sample.bob Scenario.alice_session
                  (Sample.page Sample.stocked_db []) H1 H2)).
Defined.

(** Alice deletes and uploads; the ids stay distinct. *)
Lemma book_ids_stay_unique_witness :
  NoDup (Book.id <$> books (db (world (Sample.page Sample.stocked_db []))))
  ∧ NoDup (Book.id <$> books (db (world (run Scenario.alice_session
                                           (Sample.page Sample.stocked_db []))))).
Proof.
  assert (H : NoDup (Book.id <$> books (db (world (Sample.page Sample.stocked_db [])))))
    by by_evaluation.
  split; [exact H|].
  exact (book_ids_stay_unique Scenario.alice_session (Sample.page Sample.stocked_db []) H).
Defined.

(** A visitor tries everything. *)
Lemma signed_out_page_changes_nothing_witness :
  session (world (Sample.page Sample.stocked_db [])) = None
  ∧ Forall no_sign_in Scenario.visitor_session
  ∧ books (db (world (run Scenario.visitor_session (Sample.page Sample.stocked_db []))))
    = books (db (world (Sample.page Sample.stocked_db []))).
Proof.
  assert (H1 : session (world (Sample.page Sample.stocked_db [])) = None) by reflexivity.
  assert (H2 : Forall no_sign_in Scenario.visitor_session).
  { repeat (constructor; [exact I|]). constructor. }
  split; [exact H1|]. split; [exact H2|].
  exact (proj1 (signed_out_page_changes_nothing Scenario.visitor_session
                  (Sample.page Sample.stocked_db []) H1 H2)).
Defined.

(** Alice uploads [moby]; the form is cleared. *)
Lemma handleUpload_form_witness :
  ToastSuccess "Book uploaded successfully!"
    ∈ new_effects (UploadBookDialog.handleUpload (Library.dialog_props LibraryState.initial))
        (Sample.ready Sample.fresh_db [])
  ∧ dialog (exec (UploadBookDialog.handleUpload (Library.dialog_props LibraryState.initial))
              (Sample.ready Sample.fresh_db []))
    = DialogState.initial.
Proof.
  assert (H : ToastSuccess "Book uploaded successfully!"
    ∈ new_effects (UploadBookDialog.handleUpload (Library.dialog_props LibraryState.initial))
        (Sample.ready Sample.fresh_db [])) by by_evaluation.
  split; [exact H|].
  exact (proj1 (handleUpload_form LibraryState.initial (Sample.ready Sample.fresh_db [])) H).
Defined.

(** The insert is lost on the way, and so is the removal. *)
Lemma upload_requests_in_order_witness :
  Call (StorageRemove "books" [Sample.moby_path]) (Some NetworkError)
    ∈ new_effects (UploadBookDialog.handleUpload (Library.dialog_props LibraryState.initial))
        (Sample.ready Sample.fresh_db [true; true; false; false])
  ∧ ∃ uid title author path size type e,
      "books" = "books" ∧ [Sample.moby_path] = [path]
      ∧ Call (BooksInsert uid title author path size type) (Some e)
          ∈ new_effects (UploadBookDialog.handleUpload
                           (Library.dialog_props LibraryState.initial))
              (Sample.ready Sample.fresh_db [true; true; false; false]).
Proof.
  assert (H : Call (StorageRemove "books" [Sample.moby_path]) (Some NetworkError)
    ∈ new_effects (UploadBookDialog.handleUpload (Library.dialog_props LibraryState.initial))
        (Sample.ready Sample.fresh_db [true; true; false; false])) by by_evaluation.
  split; [exact H|].
  exact (proj2 (upload_requests_in_order LibraryState.initial
                  (Sample.ready Sample.fresh_db [true; true; false; false])) _ _ _ H).
Defined.

(** The same run: the object stays behind. *)
Lemma orphan_after_failed_cleanup_witness :
  Call (StorageRemove "books" [Sample.moby_path]) (Some NetworkError)
    ∈ new_effects (UploadBookDialog.handleUpload (Library.dialog_props LibraryState.initial))
        (Sample.ready Sample.fresh_db [true; true; false; false])
  ∧ books (db (world (exec (UploadBookDialog.handleUpload
                              (Library.dialog_props LibraryState.initial))
                        (Sample.ready Sample.fresh_db [true; true; false; false]))))
    = books (db (world (Sample.ready Sample.fresh_db [true; true; false; false]))).
Proof.
  assert (H : Call (StorageRemove "books" [Sample.moby_path]) (Some NetworkError)
    ∈ new_effects (UploadBookDialog.handleUpload (Library.dialog_props LibraryState.initial))
        (Sample.ready Sample.fresh_db [true; true; false; false])) by by_evaluation.
  split; [exact H|].
  destruct (orphan_after_failed_cleanup LibraryState.initial
              (Sample.ready Sample.fresh_db [true; true; false; false]) _ _ _ H)
    as (u & file & _ & _ & _ & _ & _ & Hb & _).
  exact Hb.
Defined.

(** On the sample data: Alice uploads [moby], every request goes through;
    the list fetched afterwards is the new row. *)
Lemma upload_then_list_witness :
  ToastSuccess "Book uploaded successfully!"
    ∈ new_effects (UploadBookDialog.handleUpload (Library.dialog_props LibraryState.initial))
        (Sample.ready Sample.fresh_db [])
  ∧ new_effects Library.fetchBooks
      (exec (UploadBookDialog.handleUpload (Library.dialog_props LibraryState.initial))
         (Sample.ready Sample.fresh_db []))
    = [Call (BooksSelect Sample.alice) None]
  ∧ ∃ row,
      books (db (world (exec (UploadBookDialog.handleUpload
                                (Library.dialog_props LibraryState.initial))
                          (Sample.ready Sample.fresh_db []))))
      = books (db (world (Sample.ready Sample.fresh_db []))) ++ [row]
      ∧ Book.title row = "Moby-Dick"
      ∧ Book.author row = Some "Herman Melville"
      ∧ Book.file_size row = 1000
      ∧ LibraryState.books
          (library (exec Library.fetchBooks
                      (exec (UploadBookDialog.handleUpload
                               (Library.dialog_props LibraryState.initial))
                         (Sample.ready Sample.fresh_db []))))
        ≡ₚ [row].
Proof.
  assert (H : ToastSuccess "Book uploaded successfully!"
    ∈ new_effects (UploadBookDialog.handleUpload (Library.dialog_props LibraryState.initial))
        (Sample.ready Sample.fresh_db [])) by by_evaluation.
  split; [exact H|]. split; [reflexivity|].
  destruct (upload_then_list LibraryState.initial (Sample.ready Sample.fresh_db []) H)
    as (u & file & row & Hu & Hf & Hb & _ & Ht & Ha & Hsz & _ & _ & Hlist & Hexact).
  assert (Hu' : u = User.mk Sample.alice).
  { assert (E : session (world (Sample.ready Sample.fresh_db []))
                = Some (User.mk Sample.alice)) by reflexivity.
    rewrite E in Hu. by injection Hu. }
  assert (Hf' : file = Sample.moby).
  { assert (E : DialogState.file (dialog (Sample.ready Sample.fresh_db []))
                = Some Sample.moby) by reflexivity.
    rewrite E in Hf. by injection Hf. }
  subst u file.
  exists row. split; [exact Hb|]. split; [exact Ht|]. split; [exact Ha|].
  split; [exact Hsz|].
  assert (Hpos : 0 <= File.size Sample.moby) by (cbn; lia).
  pose proof (Hlist eq_refl eq_refl eq_refl) as Hp.
  rewrite (Hexact Hpos) in Hp. exact Hp.
Defined.

(** Alice uploads [moby] to an empty account; the usage shown is its size. *)
Lemma usage_after_upload_witness :
  ToastSuccess "Book uploaded successfully!"
    ∈ new_effects (UploadBookDialog.handleUpload (Library.dialog_props LibraryState.initial))
        (Sample.ready Sample.fresh_db [])
  ∧ Call (RpcGetUserStorageUsed Sample.alice) None
      ∈ new_effects (UploadBookDialog.handleUpload (Library.dialog_props LibraryState.initial))
          (Sample.ready Sample.fresh_db [])
  ∧ Sql.get_user_storage_used Sample.alice (db (world (Sample.ready Sample.fresh_db [])))
    = Some 0
  ∧ Sql.get_user_storage_used Sample.alice
      (db (world (exec (UploadBookDialog.handleUpload
                          (Library.dialog_props LibraryState.initial))
                    (Sample.ready Sample.fresh_db [])))) = Some 1000
  ∧ LibraryState.storageUsed
      (library (exec (UploadBookDialog.handleUpload
                        (Library.dialog_props LibraryState.initial))
                  (Sample.ready Sample.fresh_db []))) = 1000.
Proof.
  assert (H : ToastSuccess "Book uploaded successfully!"
    ∈ new_effects (UploadBookDialog.handleUpload (Library.dialog_props LibraryState.initial))
        (Sample.ready Sample.fresh_db [])) by by_evaluation.
  assert (H2 : Call (RpcGetUserStorageUsed Sample.alice) None
    ∈ new_effects (UploadBookDialog.handleUpload (Library.dialog_props LibraryState.initial))
        (Sample.ready Sample.fresh_db [])) by by_evaluation.
  split; [exact H|]. split; [exact H2|]. split; [reflexivity|]. split; [reflexivity|].
  destruct (usage_after_upload LibraryState.initial (Sample.ready Sample.fresh_db []) H)
    as (u & file & _ & _ & _ & _ & _ & Hshown).
  destruct (Hshown Sample.alice H2) as (total & Hget & Hused & _).
  change (Some 1000 = Some total) in Hget. injection Hget as <-. exact Hused.
Defined.

(** Alice deletes her book; the removal of the object is lost on the way. *)
Lemma delete_object_outcome_witness :
  Call (StorageRemove "books" [Book.file_path Sample.alice_book]) (Some NetworkError)
    ∈ new_effects (Library.handleDeleteBook Sample.alice_book)
        (Scenario.alice_page [true; false])
  ∧ objects (db (world (exec (Library.handleDeleteBook Sample.alice_book)
                          (Scenario.alice_page [true; false]))))
    = objects (db (world (Scenario.alice_page [true; false]))).
Proof.
  assert (H : Call (StorageRemove "books" [Book.file_path Sample.alice_book])
                (Some NetworkError)
    ∈ new_effects (Library.handleDeleteBook Sample.alice_book)
        (Scenario.alice_page [true; false])) by by_evaluation.
  split; [exact H|].
  exact (proj1 (proj1 (delete_object_outcome Sample.alice_book
                         (Scenario.alice_page [true; false])) _ H)).
Defined.

(** Alice deletes her book; Bob's row is in the table as before. *)
Lemma delete_touches_only_its_target_witness :
  Book.id Sample.bob_book ≠ Book.id Sample.alice_book
  ∧ (Sample.bob_book
       ∈ books (db (world (exec (Library.handleDeleteBook Sample.alice_book)
                             (Scenario.alice_page []))))
     ↔ Sample.bob_book ∈ books (db (world (Scenario.alice_page [])))).
Proof.
  assert (H : Book.id Sample.bob_book ≠ Book.id Sample.alice_book) by discriminate.
  split; [exact H|].
  exact (proj1 (delete_touches_only_its_target Sample.alice_book (Scenario.alice_page []))
           Sample.bob_book (or_introl H)).
Defined.

(** Alice deletes her book and the list is fetched again. *)
Lemma shown_after_delete_witness :
  ToastSuccess "Book deleted successfully"
    ∈ new_effects (Library.handleDeleteBook Sample.alice_book) (Scenario.alice_page [])
  ∧ Call (BooksSelect Sample.alice) None
      ∈ new_effects (Library.handleDeleteBook Sample.alice_book) (Scenario.alice_page [])
  ∧ ∀ b, b ∈ LibraryState.books
               (library (exec (Library.handleDeleteBook Sample.alice_book)
                           (Scenario.alice_page []))) →
         Book.id b ≠ Book.id Sample.alice_book.
Proof.
  assert (H1 : ToastSuccess "Book deleted successfully"
    ∈ new_effects (Library.handleDeleteBook Sample.alice_book) (Scenario.alice_page []))
    by by_evaluation.
  assert (H2 : Call (BooksSelect Sample.alice) None
    ∈ new_effects (Library.handleDeleteBook Sample.alice_book) (Scenario.alice_page []))
    by by_evaluation.
  split; [exact H1|]. split; [exact H2|].
  exact (proj1 (shown_after_delete Sample.alice_book (Scenario.alice_page []) H1) _ H2).
Defined.

(** Alice has chosen [moby] and then picks a file that is too large. *)
Lemma rejected_selection_keeps_earlier_file_witness :
  DialogState.file (dialog (Sample.ready Sample.fresh_db [])) = Some Sample.moby
  ∧ LibraryState.storageUsed (library (Sample.ready Sample.fresh_db []))
    + File.size Scenario.huge > Library.STORAGE_LIMIT
  ∧ session (world (Sample.ready Sample.fresh_db [])) = Some (User.mk Sample.alice)
  ∧ (Supabase.deliver (world (Sample.ready Sample.fresh_db []))).1 = true
  ∧ DialogState.file
      (dialog (exec (step (ChangeFile [Scenario.huge])) (Sample.ready Sample.fresh_db [])))
    = Some Sample.moby.
Proof.
  assert (H1 : DialogState.file (dialog (Sample.ready Sample.fresh_db []))
               = Some Sample.moby) by reflexivity.
  assert (H2 : LibraryState.storageUsed (library (Sample.ready Sample.fresh_db []))
               + File.size Scenario.huge > Library.STORAGE_LIMIT) by reflexivity.
  assert (H3 : session (world (Sample.ready Sample.fresh_db []))
               = Some (User.mk Sample.alice)) by reflexivity.
  assert (H4 : (Supabase.deliver (world (Sample.ready Sample.fresh_db []))).1 = true)
    by reflexivity.
  split; [exact H1|]. split; [exact H2|]. split; [exact H3|]. split; [exact H4|].
  exact (proj1 (rejected_selection_keeps_earlier_file Sample.moby Scenario.huge []
                  (User.mk Sample.alice) (Sample.ready Sample.fresh_db []) H1 H2 H3 H4)).
Defined.

(** An empty account and a file of exactly 200MB. *)
Lemma accepted_file_fits_bucket_witness :
  0 <= LibraryState.storageUsed (library (Sample.page Sample.fresh_db []))
  ∧ new_effects (step (ChangeFile [Sample.brim])) (Sample.page Sample.fresh_db []) = []
  ∧ File.size Sample.brim <= file_size_limit.
Proof.
  assert (H1 : 0 <= LibraryState.storageUsed (library (Sample.page Sample.fresh_db [])))
    by (cbn; lia).
  assert (H2 : new_effects (step (ChangeFile [Sample.brim]))
                 (Sample.page Sample.fresh_db []) = []) by reflexivity.
  split; [exact H1|]. split; [exact H2|].
  exact (proj1 (proj2 (accepted_file_fits_bucket Sample.brim []
                         (Sample.page Sample.fresh_db []) H1 H2))).
Defined.

(** A name at the root of the bucket. *)
Lemma root_objects_admit_nobody_witness :
  Js.occurs "/" "cover.png" = false
  ∧ Sql.own_folder (Some Sample.alice) "books" "cover.png" = false.
Proof.
  assert (H : Js.occurs "/" "cover.png" = false) by reflexivity.
  split; [exact H|].
  exact (proj1 (root_objects_admit_nobody "cover.png" H) (Some Sample.alice) "books").
Defined.

(** Alice deletes her book; her total drops to nothing. *)
Lemma usage_after_delete_witness :
  NoDup (Book.id <$> books (db (world (Scenario.alice_page []))))
  ∧ Sample.alice_book ∈ books (db (world (Scenario.alice_page [])))
  ∧ Platform.uid (world (Scenario.alice_page [])) = Some (Book.user_id Sample.alice_book)
  ∧ ToastSuccess "Book deleted successfully"
      ∈ new_effects (Library.handleDeleteBook Sample.alice_book) (Scenario.alice_page [])
  ∧ Sql.get_user_storage_used Sample.alice (db (world (Scenario.alice_page [])))
    = Some 209715200
  ∧ Sql.get_user_storage_used Sample.alice
      (db (world (exec (Library.handleDeleteBook Sample.alice_book)
                    (Scenario.alice_page [])))) = Some 0.
Proof.
  assert (H1 : NoDup (Book.id <$> books (db (world (Scenario.alice_page [])))))
    by by_evaluation.
  assert (H2 : Sample.alice_book ∈ books (db (world (Scenario.alice_page []))))
    by by_evaluation.
  assert (H3 : Platform.uid (world (Scenario.alice_page []))
               = Some (Book.user_id Sample.alice_book)) by reflexivity.
  assert (H4 : ToastSuccess "Book deleted successfully"
      ∈ new_effects (Library.handleDeleteBook Sample.alice_book) (Scenario.alice_page []))
    by by_evaluation.
  split; [exact H1|]. split; [exact H2|]. split; [exact H3|]. split; [exact H4|].
  split; [reflexivity|].
  exact (proj2 (usage_after_delete Sample.alice_book (Scenario.alice_page []) H1 H2 H3 H4
                  Sample.alice)).
Defined.
